(** * TexText dialog layer (textext/gui.py): a shallow embedding

    The module [textext/gui.py] holds three classes: [TexTextGuiBase] (the
    shared constructor and the abstract dialog contract), [TexTextGuiTK]
    (the Tkinter dialog) and [TexTextGuiGTK] (the GTK dialog).  The
    embedding follows that layout: one Rocq module per class, methods as
    computations in a state-and-exception monad over the object ([self]),
    and the effects a method has on the outside world (message boxes, the
    convert callback, leaving the event loop) recorded in a log that is
    part of the object state. *)

From stdpp Require Import base strings gmap list pretty.

Open Scope string_scope.

(** ** Python and Tcl primitives

    [float()], number formatting, [bytes.decode] and Tcl's conversions
    are not code of this repository.  They are an interface here; every
    result below holds for all implementations of it. *)

Class Builtins := {
  pyfloat : Type;
  (** [float(s)] for a [str]; [None] stands for [ValueError]. *)
  py_float : string -> option pyfloat;
  (** [float(n)] for an [int]; [None] stands for [OverflowError]. *)
  float_of_int : Z -> option pyfloat;
  (** [format(x, ".3f")] for a [float]. *)
  format_3f : pyfloat -> string;
  (** [bool(x)] for a [float]. *)
  float_truth : pyfloat -> bool;
  (** the string Tcl receives for a [float] argument of a widget command. *)
  tcl_string : pyfloat -> string;
  (** [str(x)] for a [float]. *)
  float_str : pyfloat -> string;
  (** the literal [1.0]. *)
  float_one : pyfloat;
  (** [Tcl_GetBoolean] on a string; [None] stands for [TclError]. *)
  Tcl_GetBoolean : string -> option bool;
  (** [b.decode('utf-8')]; [None] stands for [UnicodeDecodeError]. *)
  decode_utf8 : string -> option string;
}.

(** ** Exceptions *)

Inductive exn_class :=
  | ValueError | TypeError | AttributeError | IndexError | OverflowError
  | UnicodeDecodeError | TclError
  | TexTextCommandFailed
  | OtherException (name : string)
  | SystemExit (code : Z)
  | KeyboardInterrupt
  | GeneratorExit.

(** An exception object: its class, the text [str(e)] gives, and for a
    [TexTextCommandFailed] (a class of [textext/errors.py], which is not
    part of [gui.py]) its attributes [stdout] and [stderr], the captured
    process output ([bytes], or [None]). *)
Record pyexn := mk_exn {
  exn_cls : exn_class;
  exn_str : string;
  exn_stdout : option string;
  exn_stderr : option string;
}.

Definition exn (c : exn_class) (msg : string) : pyexn := mk_exn c msg None None.

(** [isinstance(e, Exception)]: everything but the three classes that
    derive from [BaseException] directly. *)
Definition is_Exception (e : pyexn) : bool :=
  match exn_cls e with
  | SystemExit _ | KeyboardInterrupt | GeneratorExit => false
  | _ => true
  end.

Definition is_ValueError (e : pyexn) : bool :=
  match exn_cls e with
  | ValueError | UnicodeDecodeError => true
  | _ => false
  end.

Definition is_TexTextCommandFailed (e : pyexn) : bool :=
  match exn_cls e with TexTextCommandFailed => true | _ => false end.

(** Truth value of an attribute holding [bytes] or [None]. *)
Definition bytes_truth (b : option string) : bool :=
  match b with
  | Some s => negb (String.eqb s "")
  | None => false
  end.

(** ** The monad of methods: state of [self], and a result or a raised
    exception.  A raise keeps the state: Python does not undo the
    assignments made before it. *)

Inductive res (A : Type) :=
  | Ret (a : A)
  | Raise (e : pyexn).
Arguments Ret {A} a.
Arguments Raise {A} e.

Definition M (S A : Type) : Type := S -> res A * S.

Definition ret {S A} (a : A) : M S A := fun s => (Ret a, s).
Definition raise {S A} (e : pyexn) : M S A := fun s => (Raise e, s).
Definition bind {S A B} (m : M S A) (k : A -> M S B) : M S B :=
  fun s => match m s with
           | (Ret a, s') => k a s'
           | (Raise e, s') => (Raise e, s')
           end.
Definition get {S} : M S S := fun s => (Ret s, s).
Definition modify {S} (f : S -> S) : M S unit := fun s => (Ret tt, f s).
Definition lift_opt {S A} (o : option A) (e : pyexn) : M S A :=
  match o with Some a => ret a | None => raise e end.

(** [try: body / except <cls> as e: handler e / else: rest]: only [body]
    is protected; [handler] and [rest] end the method. *)
Definition try_except {S A B} (body : M S A) (cls : pyexn -> bool)
    (handler : pyexn -> M S B) (rest : A -> M S B) : M S B :=
  fun s => match body s with
           | (Ret a, s') => rest a s'
           | (Raise e, s') => if cls e then handler e s' else (Raise e, s')
           end.

Declare Scope py_scope.
Delimit Scope py_scope with py.
Notation "x <- m ;; k" := (bind m (fun x => k))
  (at level 100, m at next level, right associativity) : py_scope.
Notation "m ;; k" := (bind m (fun _ => k))
  (at level 100, right associativity) : py_scope.
Open Scope py_scope.

(** ** Python values held by the configuration store *)

Section Values.
Context `{Builtins}.

Inductive pyatom :=
  | ABool (b : bool)
  | AInt (z : Z)
  | AFloat (f : pyfloat)
  | AStr (s : string).

Inductive pyval :=
  | Atom (a : pyatom)
  | Dict (d : gmap string pyatom).

(** [f"{x:.3f}"]: an [int] (and a [bool], which is one) is converted to
    [float] first; [str] and [dict] have no format code [f]. *)
Definition fmt_3f {S} (x : pyval) : M S string :=
  match x with
  | Atom (AFloat f) => ret (format_3f f)
  | Atom (AInt z) =>
      f <- lift_opt (float_of_int z) (exn OverflowError "int too large to convert to float") ;;
      ret (format_3f f)
  | Atom (ABool b) =>
      f <- lift_opt (float_of_int (if b then 1 else 0)%Z)
             (exn OverflowError "int too large to convert to float") ;;
      ret (format_3f f)
  | Atom (AStr _) => raise (exn ValueError "Unknown format code 'f' for object of type 'str'")
  | Dict _ => raise (exn TypeError "unsupported format string passed to dict.__format__")
  end.

(** [f"{x}"], that is [str(x)], for a value read from a sub-section. *)
Definition py_str (x : pyatom) : string :=
  match x with
  | ABool b => if b then "True" else "False"
  | AInt z => pretty z
  | AFloat f => float_str f
  | AStr s => s
  end.

(** [tkinter.BooleanVar.set(x)], which goes through [getboolean]. *)
Definition getboolean {S} (x : pyval) : M S bool :=
  match x with
  | Atom (ABool b) => ret b
  | Atom (AInt z) => ret (negb (z =? 0)%Z)
  | Atom (AStr s) => lift_opt (Tcl_GetBoolean s) (exn TclError "expected boolean value")
  | Atom (AFloat _) | Dict _ => raise (exn TypeError "getboolean() argument must be str")
  end.
End Values.

(** ** The two records the dialog is given *)

(** Modelled from the spec: the class [Settings] of [textext/settings.py],
    which is not part of [gui.py].  The spec describes it as a nested
    key-value store with a ["gui"] sub-section; the dialog uses
    [has_key], [get] with a default, item read and item assignment. *)
Abbreviation Settings := (gmap string pyval).

Section Settings.
Context `{Builtins}.

(** Modelled from the spec: [Settings.has_key(key)], whether the store
    has an entry under [key]. *)
Definition has_key (config : Settings) (key : string) : bool :=
  bool_decide (is_Some (config !! key)).

(** Modelled from the spec: [Settings.get(key, default)]. *)
Definition get_default (config : Settings) (key : string) (default : pyval) : pyval :=
  match config !! key with
  | Some v => v
  | None => default
  end.

(** Modelled from the spec: [Settings.__setitem__], [config[key] = value]. *)
Definition setitem (key : string) (value : pyval) (config : Settings) : Settings :=
  <[key := value]> config.

(** Modelled from the spec: [Settings.__getitem__] followed by [dict.get],
    [config["gui"].get(key, default)]: the sub-section has to be there
    and has to be a mapping. *)
Definition gui_get {S} (config : Settings) (key : string) (default : pyatom) : M S pyatom :=
  match config !! "gui" with
  | Some (Dict d) => ret (match d !! key with Some v => v | None => default end)
  | Some (Atom _) => raise (exn AttributeError "object has no attribute 'get'")
  | None => raise (exn AttributeError "'NoneType' object has no attribute 'get'")
  end.

(** Modelled from the spec: [Settings.__getitem__] followed by an item
    assignment, [config["gui"][key] = value]: the mapping stored under
    ["gui"] is updated in place. *)
Definition gui_set {S} (config : Settings) (key : string) (value : pyatom) : M S Settings :=
  match config !! "gui" with
  | Some (Dict d) => ret (<["gui" := Dict (<[key := value]> d)]> config)
  | Some (Atom _) => raise (exn TypeError "object does not support item assignment")
  | None => raise (exn TypeError "'NoneType' object does not support item assignment")
  end.
End Settings.

(** Modelled from the spec: the class [TexTextEleMetaData] of
    [textext/base.py], which is not part of [gui.py]: the record that
    describes the node being edited. *)
Record TexTextEleMetaData `{Builtins} := mk_meta {
  md_textext_version : string;
  md_text : string;
  md_preamble : string;
  md_scale_factor : pyfloat;
  md_tex_command : string;
  md_alignment : string;
  md_stroke_to_path : bool;
}.
Arguments mk_meta {_} _ _ _ _ _ _ _.

(** ** class TexTextGuiBase *)

Module TexTextGuiBase.
Section Base.
Context `{Builtins}.

Definition DEFAULT_WORDWRAP : bool := false.
Definition DEFAULT_FONTSIZE : Z := 11.
Definition DEFAULT_CLOSE_SHORTCUT : string := "Escape".

Definition TEX_COMMANDS : list string := ["pdflatex"; "lualatex"; "xelatex"].
Definition ALIGNMENT_LABELS : list string :=
  ["top left"; "top center"; "top right";
   "middle left"; "middle center"; "middle right";
   "bottom left"; "bottom center"; "bottom right"].

(** The attributes [__init__] sets. *)
Record t := mk {
  textext_version : string;
  _config : Settings;
  global_scale_factor : pyval;
  node_scale_factor : pyfloat;
  current_alignment : string;
  preamble_file : string;
  current_convert_strokes_to_path : bool;
  text : string;
  current_texcmd : string;
}.

(** [x in l] for a list of strings. *)
Definition py_in (x : string) (l : list string) : bool := bool_decide (x ∈ l).

(** [l[0]] of a class constant. *)
Definition first (l : list string) : string := List.hd "" l.

Definition __init__ (version_str : string) (node_meta_data : TexTextEleMetaData)
    (config : Settings) : t :=
  let config :=
    if negb (has_key config "gui") then setitem "gui" (Dict ∅) config else config in
  {| textext_version := version_str;
     _config := config;
     global_scale_factor := get_default config "scale" (Atom (AFloat float_one));
     node_scale_factor := md_scale_factor node_meta_data;
     current_alignment := md_alignment node_meta_data;
     preamble_file := md_preamble node_meta_data;
     current_convert_strokes_to_path := md_stroke_to_path node_meta_data;
     text := if (0 <? String.length (md_text node_meta_data))%nat
             then md_text node_meta_data else "";
     current_texcmd := if py_in (md_tex_command node_meta_data) TEX_COMMANDS
                       then md_tex_command node_meta_data
                       else first TEX_COMMANDS |}.

(** Attribute assignments [self.x = v]. *)
Definition set_config (v : Settings) (b : t) : t :=
  mk (textext_version b) v (global_scale_factor b) (node_scale_factor b)
     (current_alignment b) (preamble_file b) (current_convert_strokes_to_path b)
     (text b) (current_texcmd b).
Definition set_global_scale_factor (v : pyval) (b : t) : t :=
  mk (textext_version b) (_config b) v (node_scale_factor b)
     (current_alignment b) (preamble_file b) (current_convert_strokes_to_path b)
     (text b) (current_texcmd b).
Definition set_preamble_file (v : string) (b : t) : t :=
  mk (textext_version b) (_config b) (global_scale_factor b) (node_scale_factor b)
     (current_alignment b) v (current_convert_strokes_to_path b)
     (text b) (current_texcmd b).
Definition set_current_convert_strokes_to_path (v : bool) (b : t) : t :=
  mk (textext_version b) (_config b) (global_scale_factor b) (node_scale_factor b)
     (current_alignment b) (preamble_file b) v
     (text b) (current_texcmd b).
Definition set_text (v : string) (b : t) : t :=
  mk (textext_version b) (_config b) (global_scale_factor b) (node_scale_factor b)
     (current_alignment b) (preamble_file b) (current_convert_strokes_to_path b)
     v (current_texcmd b).
End Base.
End TexTextGuiBase.

(** ** Widgets shared by the two toolkits *)

(** [tk.WORD] / [tk.NONE], [Gtk.WrapMode.WORD] / [Gtk.WrapMode.NONE]. *)
Inductive wrap_mode := WORD | NONE.

Definition wrap_of (active : bool) : wrap_mode := if active then WORD else NONE.

(** ** class TexTextGuiTK *)

Module TexTextGuiTK.
Section TK.
Context `{Builtins}.

Import TexTextGuiBase.

(** [tk.NORMAL] (the state a widget is created in) and [tk.DISABLED]. *)
Inductive tk_state := NORMAL | DISABLED.

Record Button := mk_button { btn_text : string; btn_state : tk_state }.

(** A [tk.Radiobutton]: its label, the value it gives its variable, its state. *)
Record Radiobutton := mk_radio { rb_text : string; rb_value : string; rb_state : tk_state }.

(** A [tk.Text]: the characters typed into it and the [wrap] option. *)
Record Text := mk_text { txt_chars : string; txt_wrap : wrap_mode }.

(** A [tk.Toplevel] opened by [show_error_dialog]: its text views (header
    and content) in packing order, and whether the OK button is there. *)
Record ErrDialog := mk_dlg { dlg_textviews : list (string * string); dlg_close_button : bool }.

(** The positional arguments of the convert callback. *)
Record convert_args := mk_args {
  arg_text : string;
  arg_preamble_file : string;
  arg_scale : pyval;
  arg_alignment : string;
  arg_tex_command : string;
  arg_stroke_to_path : bool;
}.

(** What a method does to the outside world, in order. *)
Inductive event :=
  | ShowError (title message : string)   (* [tk_msg_boxes.showerror], a modal box *)
  | Convert (args : convert_args)        (* a call of the convert callback *)
  | Quit.                                (* [self._frame.quit()] *)

(** The object while the window is up: the attributes of the base class,
    the widgets and Tk variables [show] stores in [self], and the log.
    The callback either returns ([None]) or raises. *)
Record t := mk {
  base : TexTextGuiBase.t;
  _convert_callback : convert_args -> option pyexn;
  _preamble : string;
  _convert_strokes_to_path : bool;
  _tex_command_tk_str : string;
  tex_command_radios : list Radiobutton;
  _scale : string;
  _reset_button : Button;
  _global_button : Button;
  _alignment_tk_str : string;
  alignment_radios : list Radiobutton;
  _word_wrap_tkval : bool;
  _text_box : Text;
  topmost : bool;
  err_dialogs : list ErrDialog;
  log : list event;
}.

Definition set_base (f : TexTextGuiBase.t -> TexTextGuiBase.t) (s : t) : t :=
  mk (f (base s)) (_convert_callback s) (_preamble s) (_convert_strokes_to_path s)
     (_tex_command_tk_str s) (tex_command_radios s) (_scale s) (_reset_button s)
     (_global_button s) (_alignment_tk_str s) (alignment_radios s) (_word_wrap_tkval s)
     (_text_box s) (topmost s) (err_dialogs s) (log s).
Definition set_scale (v : string) (s : t) : t :=
  mk (base s) (_convert_callback s) (_preamble s) (_convert_strokes_to_path s)
     (_tex_command_tk_str s) (tex_command_radios s) v (_reset_button s)
     (_global_button s) (_alignment_tk_str s) (alignment_radios s) (_word_wrap_tkval s)
     (_text_box s) (topmost s) (err_dialogs s) (log s).
Definition set_word_wrap_tkval (v : bool) (s : t) : t :=
  mk (base s) (_convert_callback s) (_preamble s) (_convert_strokes_to_path s)
     (_tex_command_tk_str s) (tex_command_radios s) (_scale s) (_reset_button s)
     (_global_button s) (_alignment_tk_str s) (alignment_radios s) v
     (_text_box s) (topmost s) (err_dialogs s) (log s).
Definition set_text_box (v : Text) (s : t) : t :=
  mk (base s) (_convert_callback s) (_preamble s) (_convert_strokes_to_path s)
     (_tex_command_tk_str s) (tex_command_radios s) (_scale s) (_reset_button s)
     (_global_button s) (_alignment_tk_str s) (alignment_radios s) (_word_wrap_tkval s)
     v (topmost s) (err_dialogs s) (log s).
Definition set_topmost (v : bool) (s : t) : t :=
  mk (base s) (_convert_callback s) (_preamble s) (_convert_strokes_to_path s)
     (_tex_command_tk_str s) (tex_command_radios s) (_scale s) (_reset_button s)
     (_global_button s) (_alignment_tk_str s) (alignment_radios s) (_word_wrap_tkval s)
     (_text_box s) v (err_dialogs s) (log s).
Definition set_err_dialogs (v : list ErrDialog) (s : t) : t :=
  mk (base s) (_convert_callback s) (_preamble s) (_convert_strokes_to_path s)
     (_tex_command_tk_str s) (tex_command_radios s) (_scale s) (_reset_button s)
     (_global_button s) (_alignment_tk_str s) (alignment_radios s) (_word_wrap_tkval s)
     (_text_box s) (topmost s) v (log s).
Definition emit (ev : event) (s : t) : t :=
  mk (base s) (_convert_callback s) (_preamble s) (_convert_strokes_to_path s)
     (_tex_command_tk_str s) (tex_command_radios s) (_scale s) (_reset_button s)
     (_global_button s) (_alignment_tk_str s) (alignment_radios s) (_word_wrap_tkval s)
     (_text_box s) (topmost s) (err_dialogs s) (log s ++ [ev]).
(** *** validate_spinbox_input (a static method; Tk passes it the
    substitutions [%d %i %P %s %S %v %V %W] as strings) *)
Definition validate_spinbox_input (d i P s S v V W : string) : bool :=
  if String.eqb S "" || String.eqb P "" then
    (* Initialization of widget (S=='') and deletion of entry (P=='') *)
    true
  else
    (* All other cases: Ensure that result is OK *)
    match py_float P with
    | Some _ => true
    | None => false
    end.

(** The spinbox is created with [validate="key"] and the command above:
    Tk applies an edit only if the command accepts it.
    [spin_delete_all] is [self._scale.delete(0, "end")] and
    [spin_insert_0] is [self._scale.insert(0, S)]. *)
Definition spin_delete_all (content : string) : string :=
  if String.eqb content "" then content
  else if validate_spinbox_input "0" "0" "" content content "key" "key" ""
       then "" else content.

Definition spin_insert_0 (S content : string) : string :=
  if String.eqb S "" then content
  else if validate_spinbox_input "1" "0" (S ++ content) content S "key" "key" ""
       then S ++ content else content.

(** *** show, up to the call of [mainloop]: the window it builds.  Geometry
    and packing are left out; every step that can raise is kept.  The
    state here is the attributes of the base class, which [show] reads
    and does not assign; what [show] has assigned in [self] when it
    raises is in [TkObject.show] below. *)
Definition alignment_index_list : list nat := [0; 3; 6; 1; 4; 7; 2; 5; 8].

Definition state_for_text (text : string) : tk_state :=
  if String.eqb text "" then DISABLED else NORMAL.

Definition show (callback : convert_args -> option pyexn) : M TexTextGuiBase.t t :=
  self <- get ;;
  (* Framebox for preamble file *)
  let preamble := preamble_file self in
  (* Framebox for advanced settings *)
  let convert_strokes_to_path := current_convert_strokes_to_path self in
  (* Framebox for tex command *)
  let tex_command_tk_str := current_texcmd self in
  let tex_radios := map (fun c => mk_radio c c NORMAL) TEX_COMMANDS in
  (* Framebox for scale factor and reset buttons *)
  let scale := spin_insert_0 (tcl_string (node_scale_factor self)) (spin_delete_all "0.001") in
  let reset_scale := if float_truth (node_scale_factor self)
                     then Atom (AFloat (node_scale_factor self))
                     else global_scale_factor self in
  reset_label <- fmt_3f reset_scale ;;
  let reset_button :=
    mk_button ("Reset (" ++ reset_label ++ ")")
              (if String.eqb (text self) "" then DISABLED else NORMAL) in
  global_label <- fmt_3f (global_scale_factor self) ;;
  let global_button := mk_button ("As previous (" ++ global_label ++ ")") NORMAL in
  (* Alignment *)
  let alignment_tk_str := current_alignment self in
  let tk_state := if String.eqb (text self) "" then DISABLED else NORMAL in
  let radios :=
    map (fun ind => let label := default "" (ALIGNMENT_LABELS !! ind) in
                    mk_radio label label tk_state)
        alignment_index_list in
  (* Word wrap status *)
  word_wrap <- gui_get (_config self) "word_wrap" (ABool DEFAULT_WORDWRAP) ;;
  word_wrap_tkval <- getboolean (Atom word_wrap) ;;
  (* Frame with text input field and word wrap checkbox *)
  let text_box := mk_text (text self) (wrap_of word_wrap_tkval) in
  ret (mk self callback preamble convert_strokes_to_path tex_command_tk_str tex_radios
          scale reset_button global_button alignment_tk_str radios word_wrap_tkval
          text_box false [] []).

(** *** show_error_dialog *)
Definition add_textview (header text : string) : M t unit :=
  modify (fun s =>
    match err_dialogs s with
    | dlg :: older =>
        set_err_dialogs (mk_dlg (dlg_textviews dlg ++ [(header, text)]) (dlg_close_button dlg)
                         :: older) s
    | [] => s
    end).

Definition bytes_decode {S} (b : option string) : M S string :=
  match b with
  | Some s => lift_opt (decode_utf8 s) (exn UnicodeDecodeError "'utf-8' codec can't decode")
  | None => raise (exn AttributeError "'NoneType' object has no attribute 'decode'")
  end.

Definition show_error_dialog (title message_text : string) (exception : pyexn) : M t unit :=
  modify (set_topmost false) ;;
  (* err_dialog = tk.Toplevel(self._frame) *)
  modify (fun s => set_err_dialogs (mk_dlg [] false :: err_dialogs s) s) ;;
  add_textview message_text (exn_str exception) ;;
  (if is_TexTextCommandFailed exception then
     (if bytes_truth (exn_stdout exception) then
        out <- bytes_decode (exn_stdout exception) ;; add_textview "Stdout:" out
      else ret tt) ;;
     (if bytes_truth (exn_stderr exception) then
        err <- bytes_decode (exn_stderr exception) ;; add_textview "Stderr:" err
      else ret tt)
   else ret tt) ;;
  (* close_button = tk.Button(err_dialog, text='OK', ...) *)
  modify (fun s =>
    match err_dialogs s with
    | dlg :: older => set_err_dialogs (mk_dlg (dlg_textviews dlg) true :: older) s
    | [] => s
    end).

(** *** cb_cancel *)
Definition cb_cancel : M t unit :=
  raise (exn (SystemExit 1) "1").

(** *** cb_ok *)
Definition newline : string := String (Ascii.ascii_of_nat 10) "".

(** [self._text_box.get(1.0, tk.END)]: a Tk text widget ends in a newline
    of its own, which the range up to [END] includes. *)
Definition text_get_1_END (w : Text) : string := txt_chars w ++ newline.

Definition float_ {S} (s : string) : M S pyfloat :=
  lift_opt (py_float s) (exn ValueError ("could not convert string to float: " ++ s)).

(** [self._convert_callback(self.text, self.preamble_file,
    self.global_scale_factor, self._alignment_tk_str.get(),
    self._tex_command_tk_str.get(), self.current_convert_strokes_to_path)] *)
Definition call_convert : M t unit :=
  fun s =>
    let args := mk_args (text (base s)) (preamble_file (base s))
                        (global_scale_factor (base s)) (_alignment_tk_str s)
                        (_tex_command_tk_str s) (current_convert_strokes_to_path (base s)) in
    match _convert_callback s args with
    | None => (Ret tt, emit (Convert args) s)
    | Some error => (Raise error, emit (Convert args) s)
    end.

(** The second [try] statement of [cb_ok] and the [quit] after it. *)
Definition convert_and_quit : M t unit :=
  try_except call_convert
    is_Exception
    (fun error =>
       show_error_dialog "TexText Error"
         "Error occurred while converting text from Latex to SVG:" error)
    (fun _ => modify (emit Quit)).

Definition cb_ok : M t unit :=
  self <- get ;;
  try_except
    (f <- float_ (_scale self) ;;
     modify (set_base (set_global_scale_factor (Atom (AFloat f)))))
    is_ValueError
    (fun _ =>
       modify (emit (ShowError "Scale factor error"
                 "Please enter a valid floating point number for the scale factor!")))
    (fun _ =>
       modify (fun s => set_base (set_text (text_get_1_END (_text_box s))) s) ;;
       modify (fun s => set_base (set_preamble_file (_preamble s)) s) ;;
       modify (fun s => set_base (set_current_convert_strokes_to_path
                                    (_convert_strokes_to_path s)) s) ;;
       convert_and_quit).

(** *** cb_word_wrap *)
Definition cb_word_wrap : M t unit :=
  modify (fun s => set_text_box (mk_text (txt_chars (_text_box s))
                                         (wrap_of (_word_wrap_tkval s))) s) ;;
  s <- get ;;
  config <- gui_set (_config (base s)) "word_wrap" (ABool (_word_wrap_tkval s)) ;;
  modify (set_base (set_config config)).

(** A click on the word-wrap [tk.Checkbutton] ([onvalue=True],
    [offvalue=False]): Tk flips the variable, then runs the command. *)
Definition toggle_word_wrap : M t unit :=
  modify (fun s => set_word_wrap_tkval (negb (_word_wrap_tkval s)) s) ;;
  cb_word_wrap.
End TK.
End TexTextGuiTK.

(** ** class TexTextGuiTK: the object while [show] builds the window

    [TexTextGuiTK.show] above gives the outcome of the method, the
    window or the exception; its state is the attributes of the base
    class, which [show] reads and does not assign.  The definitions here
    follow [self] through [__init__] and [show] attribute by attribute,
    so that they also say what [show] has assigned when it raises. *)

Module TkObject.
Section TK.
Context `{Builtins}.

Import TexTextGuiBase.

(** The attributes of the object.  Those [__init__] sets to [None] are
    [None] until [show] assigns them; [_convert_callback] does not exist
    before [show], which is [None] here as well.  [_root] is the Tk root
    window, here its title, and [_frame] the frame in it.  The local
    frames, the labels, the two check buttons and the two buttons at the
    bottom are left out, as in [TexTextGuiTK.t]. *)
Record t := mk {
  base : TexTextGuiBase.t;
  _convert_callback : option (TexTextGuiTK.convert_args -> option pyexn);
  _root : option string;
  _frame : option unit;
  _preamble : option string;
  _askfilename_button : option TexTextGuiTK.Button;
  _convert_strokes_to_path : option bool;
  _tex_command_tk_str : option string;
  tex_command_radios : list TexTextGuiTK.Radiobutton;
  _scale : option string;
  _reset_button : option TexTextGuiTK.Button;
  _global_button : option TexTextGuiTK.Button;
  _alignment_tk_str : option string;
  alignment_radios : list TexTextGuiTK.Radiobutton;
  _word_wrap_tkval : option bool;
  _text_box : option TexTextGuiTK.Text;
}.

(** *** __init__ *)
Definition __init__ (version_str : string) (node_meta_data : TexTextEleMetaData)
    (config : Settings) : t :=
  mk (TexTextGuiBase.__init__ version_str node_meta_data config)
     None None None None None None None [] None None None None [] None None.

(** *** show: the statements in their order, grouped between the places
    that can raise; it returns [self._config]. *)
Definition show (callback : TexTextGuiTK.convert_args -> option pyexn) : M t Settings :=
  (* self._convert_callback = callback ... self._scale.insert(0, self.node_scale_factor) *)
  modify (fun self =>
    mk (base self) (Some callback)
       (Some ("TexText " ++ textext_version (base self)))
       (Some tt)
       (Some (preamble_file (base self)))
       (Some (TexTextGuiTK.mk_button "Select..." TexTextGuiTK.NORMAL))
       (Some (current_convert_strokes_to_path (base self)))
       (Some (current_texcmd (base self)))
       (map (fun c => TexTextGuiTK.mk_radio c c TexTextGuiTK.NORMAL) TEX_COMMANDS)
       (Some (TexTextGuiTK.spin_insert_0 (tcl_string (node_scale_factor (base self)))
                (TexTextGuiTK.spin_delete_all "0.001")))
       (_reset_button self) (_global_button self) (_alignment_tk_str self)
       (alignment_radios self) (_word_wrap_tkval self) (_text_box self)) ;;
  self <- get ;;
  let reset_scale := if float_truth (node_scale_factor (base self))
                     then Atom (AFloat (node_scale_factor (base self)))
                     else global_scale_factor (base self) in
  reset_label <- fmt_3f reset_scale ;;
  (* self._reset_button = tk.Button(...); disabled for an empty text *)
  modify (fun self =>
    mk (base self) (_convert_callback self) (_root self) (_frame self) (_preamble self)
       (_askfilename_button self) (_convert_strokes_to_path self)
       (_tex_command_tk_str self) (tex_command_radios self) (_scale self)
       (Some (TexTextGuiTK.mk_button ("Reset (" ++ reset_label ++ ")")
                (if String.eqb (text (base self)) ""
                 then TexTextGuiTK.DISABLED else TexTextGuiTK.NORMAL)))
       (_global_button self) (_alignment_tk_str self)
       (alignment_radios self) (_word_wrap_tkval self) (_text_box self)) ;;
  global_label <- fmt_3f (global_scale_factor (base self)) ;;
  (* self._global_button = tk.Button(...) ... self._word_wrap_tkval = tk.BooleanVar() *)
  modify (fun self =>
    let tk_state := if String.eqb (text (base self)) ""
                    then TexTextGuiTK.DISABLED else TexTextGuiTK.NORMAL in
    mk (base self) (_convert_callback self) (_root self) (_frame self) (_preamble self)
       (_askfilename_button self) (_convert_strokes_to_path self)
       (_tex_command_tk_str self) (tex_command_radios self) (_scale self)
       (_reset_button self)
       (Some (TexTextGuiTK.mk_button ("As previous (" ++ global_label ++ ")")
                TexTextGuiTK.NORMAL))
       (Some (current_alignment (base self)))
       (map (fun ind => let label := default "" (ALIGNMENT_LABELS !! ind) in
                        TexTextGuiTK.mk_radio label label tk_state)
            TexTextGuiTK.alignment_index_list)
       (Some false) (_text_box self)) ;;
  (* self._word_wrap_tkval.set(self._config["gui"].get("word_wrap", self.DEFAULT_WORDWRAP)) *)
  word_wrap <- gui_get (_config (base self)) "word_wrap" (ABool DEFAULT_WORDWRAP) ;;
  word_wrap_tkval <- getboolean (Atom word_wrap) ;;
  (* self._text_box = tk.Text(...) ... self._root.mainloop() *)
  modify (fun self =>
    mk (base self) (_convert_callback self) (_root self) (_frame self) (_preamble self)
       (_askfilename_button self) (_convert_strokes_to_path self)
       (_tex_command_tk_str self) (tex_command_radios self) (_scale self)
       (_reset_button self) (_global_button self) (_alignment_tk_str self)
       (alignment_radios self) (Some word_wrap_tkval)
       (Some (TexTextGuiTK.mk_text (text (base self)) (wrap_of word_wrap_tkval)))) ;;
  ret (_config (base self)).

(** The window of an object [show] has gone through. *)
Definition window (self : t) : TexTextGuiTK.t :=
  TexTextGuiTK.mk (base self)
    (default (fun _ => None) (_convert_callback self))
    (default "" (_preamble self))
    (default false (_convert_strokes_to_path self))
    (default "" (_tex_command_tk_str self))
    (tex_command_radios self)
    (default "" (_scale self))
    (default (TexTextGuiTK.mk_button "" TexTextGuiTK.NORMAL) (_reset_button self))
    (default (TexTextGuiTK.mk_button "" TexTextGuiTK.NORMAL) (_global_button self))
    (default "" (_alignment_tk_str self))
    (alignment_radios self)
    (default false (_word_wrap_tkval self))
    (default (TexTextGuiTK.mk_text "" NONE) (_text_box self))
    false [] [].

(** The outcome of [show] as [TexTextGuiTK.show] gives it. *)
Definition outcome (run : res Settings * t) : res TexTextGuiTK.t * TexTextGuiBase.t :=
  match run with
  | (Ret _, self) => (Ret (window self), base self)
  | (Raise e, self) => (Raise e, base self)
  end.
End TK.
End TkObject.

(** ** class TexTextGuiGTK *)

(** The module-level constant [TOOLKIT], fixed when the module is imported. *)
Inductive toolkit := GTKSOURCEVIEW | GTK | TK.

Definition toolkit_eqb (a b : toolkit) : bool :=
  match a, b with
  | GTKSOURCEVIEW, GTKSOURCEVIEW | GTK, GTK | TK, TK => true
  | _, _ => false
  end.

Module TexTextGuiGTK.
Section GTK.
Context `{Builtins}.

Import TexTextGuiBase.

(** An object of the window description: the properties [create_window]
    sets on the objects it fetches from the builder. *)
Record Widget := mk_widget {
  w_title : string;
  w_active : Z;
  w_value : option pyfloat;
  w_label : string;
  w_tooltip_text : string;
  w_sensitive : bool;
  w_text : string;
  w_font : string;
  w_visible : bool;
  w_default_size : option (Z * Z);
  w_handlers : list (string * string);
}.

(** The objects of a [Gtk.Builder], by name.  The resource
    [tt_gui_gtksource.glade] they are loaded from is not at hand: the
    loaded objects are an argument of [create_window]. *)
Abbreviation Builder := (gmap string Widget).

(** [self._preamble_widget] is a [Gtk.FileChooser] or a [Gtk.Entry]. *)
Inductive PreambleWidget :=
  | FileChooser (filename : option string)
  | Entry (text : string).

(** The [Gtk.Dialog] of [show_error_dialog]: title, the markup of its
    label, the sections (header or [None], text) and whether
    [show_all] and [run] were reached. *)
Record Dialog := mk_dialog {
  dlg_title : string;
  dlg_markup : string;
  dlg_sections : list (option string * string);
  dlg_run : bool;
}.

(** A [Gtk.TextView] / [GtkSource.View] as far as the menu callbacks touch it. *)
Record SourceView := mk_view { sv_wrap_mode : wrap_mode }.

Inductive event :=
  | Convert (node_meta_data : TexTextEleMetaData)   (* a call of the convert callback *)
  | Quit.                                           (* [Gtk.main_quit()] *)

(** The object.  The attributes in the second group are read by the
    methods below but no statement of [gui.py] assigns them (the
    assignments are in commented-out code): [None] stands for an
    attribute that is not set, and reading it raises [AttributeError]. *)
Record t := mk {
  base : TexTextGuiBase.t;
  _convert_callback : option (TexTextEleMetaData -> option pyexn);

  _source_buffer : option string;
  _preamble_widget : option PreambleWidget;
  _scale_adj : option pyfloat;
  _conv_stroke2path : option bool;
  _texcmd_cbox : option Z;
  _alignment_combobox : option Z;
  _window : option Builder;

  dialogs : list Dialog;
  log : list event;
}.

Definition set_base (f : TexTextGuiBase.t -> TexTextGuiBase.t) (s : t) : t :=
  mk (f (base s)) (_convert_callback s) (_source_buffer s) (_preamble_widget s) (_scale_adj s)
     (_conv_stroke2path s) (_texcmd_cbox s) (_alignment_combobox s) (_window s)
     (dialogs s) (log s).
Definition set_convert_callback (v : TexTextEleMetaData -> option pyexn) (s : t) : t :=
  mk (base s) (Some v) (_source_buffer s) (_preamble_widget s) (_scale_adj s)
     (_conv_stroke2path s) (_texcmd_cbox s) (_alignment_combobox s) (_window s)
     (dialogs s) (log s).
Definition set_dialogs (v : list Dialog) (s : t) : t :=
  mk (base s) (_convert_callback s) (_source_buffer s) (_preamble_widget s) (_scale_adj s)
     (_conv_stroke2path s) (_texcmd_cbox s) (_alignment_combobox s) (_window s)
     v (log s).
Definition emit (ev : event) (s : t) : t :=
  mk (base s) (_convert_callback s) (_source_buffer s) (_preamble_widget s) (_scale_adj s)
     (_conv_stroke2path s) (_texcmd_cbox s) (_alignment_combobox s) (_window s)
     (dialogs s) (log s ++ [ev]).

(** [self.<name>] for an attribute that may not be set. *)
Definition getattr {S A} (name : string) (a : option A) : M S A :=
  lift_opt a (exn AttributeError
                ("'TexTextGuiGTK' object has no attribute '" ++ name ++ "'")).

(** *** __init__: the base constructor; the table of signal handlers it
    adds is a constant. *)
Definition signal_handlers : list (string * string) :=
  [("on_win_main_destroy", "on_window_delete");
   ("on_btnExecute_clicked", "cb_ok");
   ("on_btnPreview_clicked", "update_preview");
   ("on_btnCancel_clicked", "cb_cancel")].

Definition __init__ (version_str : string) (node_meta_data : TexTextEleMetaData)
    (config : Settings) : t :=
  mk (TexTextGuiBase.__init__ version_str node_meta_data config)
     None None None None None None None None [] [].
(** *** create_window *)

(** [l.index(x)]; [None] stands for [ValueError]. *)
Fixpoint list_index (x : string) (l : list string) : option nat :=
  match l with
  | [] => None
  | y :: l' => if String.eqb y x then Some 0%nat else S <$> list_index x l'
  end.

(** [builder.get_object(name)] gives [None] for an unknown name, and the
    first method called on that raises. *)
Definition get_object (name : string) : M Builder Widget :=
  b <- get ;;
  lift_opt (b !! name) (exn AttributeError "'NoneType' object has no attribute").

Definition update (name : string) (f : Widget -> Widget) : M Builder unit :=
  w <- get_object name ;;
  modify (fun b : Builder => <[name := f w]> b).

Definition set_title (v : string) (w : Widget) : Widget :=
  mk_widget v (w_active w) (w_value w) (w_label w) (w_tooltip_text w) (w_sensitive w)
            (w_text w) (w_font w) (w_visible w) (w_default_size w) (w_handlers w).
Definition set_active (v : Z) (w : Widget) : Widget :=
  mk_widget (w_title w) v (w_value w) (w_label w) (w_tooltip_text w) (w_sensitive w)
            (w_text w) (w_font w) (w_visible w) (w_default_size w) (w_handlers w).
Definition set_value (v : pyfloat) (w : Widget) : Widget :=
  mk_widget (w_title w) (w_active w) (Some v) (w_label w) (w_tooltip_text w) (w_sensitive w)
            (w_text w) (w_font w) (w_visible w) (w_default_size w) (w_handlers w).
Definition set_label (v : string) (w : Widget) : Widget :=
  mk_widget (w_title w) (w_active w) (w_value w) v (w_tooltip_text w) (w_sensitive w)
            (w_text w) (w_font w) (w_visible w) (w_default_size w) (w_handlers w).
Definition set_tooltip_text (v : string) (w : Widget) : Widget :=
  mk_widget (w_title w) (w_active w) (w_value w) (w_label w) v (w_sensitive w)
            (w_text w) (w_font w) (w_visible w) (w_default_size w) (w_handlers w).
Definition set_sensitive (v : bool) (w : Widget) : Widget :=
  mk_widget (w_title w) (w_active w) (w_value w) (w_label w) (w_tooltip_text w) v
            (w_text w) (w_font w) (w_visible w) (w_default_size w) (w_handlers w).
Definition set_text (v : string) (w : Widget) : Widget :=
  mk_widget (w_title w) (w_active w) (w_value w) (w_label w) (w_tooltip_text w) (w_sensitive w)
            v (w_font w) (w_visible w) (w_default_size w) (w_handlers w).
Definition modify_font (v : string) (w : Widget) : Widget :=
  mk_widget (w_title w) (w_active w) (w_value w) (w_label w) (w_tooltip_text w) (w_sensitive w)
            (w_text w) v (w_visible w) (w_default_size w) (w_handlers w).
Definition set_visible (v : bool) (w : Widget) : Widget :=
  mk_widget (w_title w) (w_active w) (w_value w) (w_label w) (w_tooltip_text w) (w_sensitive w)
            (w_text w) (w_font w) v (w_default_size w) (w_handlers w).
Definition set_default_size (v : Z * Z) (w : Widget) : Widget :=
  mk_widget (w_title w) (w_active w) (w_value w) (w_label w) (w_tooltip_text w) (w_sensitive w)
            (w_text w) (w_font w) (w_visible w) (Some v) (w_handlers w).
Definition connect (signal handler : string) (w : Widget) : Widget :=
  mk_widget (w_title w) (w_active w) (w_value w) (w_label w) (w_tooltip_text w) (w_sensitive w)
            (w_text w) (w_font w) (w_visible w) (w_default_size w)
            (w_handlers w ++ [(signal, handler)]).

(** [set_monospace_font]; [pango] tells whether [gi.repository.Pango]
    can be imported (an [ImportError] is passed over). *)
Definition set_monospace_font (pango : bool) (text_view : string) (font_size : Z) : M Builder unit :=
  if pango then update text_view (modify_font ("monospace " ++ pretty font_size))
  else ret tt.

Definition create_window (TOOLKIT : toolkit) (pango : bool) (self : t) : M Builder unit :=
  let self := base self in
  update "win_main" (set_title ("Enter LaTeX Formula - TexText " ++ textext_version self)) ;;
  (* Combobox for TeX command *)
  get_object "cmb_texcmd" ;;
  i <- lift_opt (list_index (current_texcmd self) TEX_COMMANDS)
         (exn ValueError (current_texcmd self ++ " is not in list")) ;;
  update "cmb_texcmd" (set_active (Z.of_nat i)) ;;
  (* Spin button for adjustment of scale *)
  update "sbn_scale" (set_value (node_scale_factor self)) ;;
  (* Button "Reset scale" *)
  update "btn_scalereset" (set_label ("Reset (" ++ format_3f (node_scale_factor self) ++ ")")) ;;
  update "btn_scalereset"
    (set_tooltip_text ("Set scale factor to the value this node has been created with ("
                       ++ format_3f (node_scale_factor self) ++ ")")) ;;
  update "btn_scalereset" (set_sensitive (negb (String.eqb (text self) ""))) ;;
  update "btn_scalereset" (connect "clicked" "on_btn_scalereset_clicked") ;;
  (* Button "Scale as previous" *)
  get_object "btn_scaleprevious" ;;
  global_label <- fmt_3f (global_scale_factor self) ;;
  update "btn_scaleprevious" (set_label ("As previous (" ++ global_label ++ ")")) ;;
  update "btn_scaleprevious"
    (set_tooltip_text
       ("Set scale factor to the value of the previously edited node in Inkscape ("
        ++ global_label ++ ")")) ;;
  update "btn_scaleprevious" (connect "clicked" "on_btn_scaleprevious_clicked") ;;
  (* Alignment *)
  get_object "cmb_align" ;;
  j <- lift_opt (list_index (current_alignment self) ALIGNMENT_LABELS)
         (exn ValueError (current_alignment self ++ " is not in list")) ;;
  update "cmb_align" (set_active (Z.of_nat j)) ;;
  update "cmb_align" (set_sensitive (negb (String.eqb (text self) ""))) ;;
  (* Texcode *)
  update "tbf_texcode" (set_text (text self)) ;;
  set_monospace_font pango "tev_texcode" DEFAULT_FONTSIZE ;;
  (* Buttons *)
  get_object "btnCancel" ;;
  shortcut <- gui_get (_config self) "close_shortcut" (AStr DEFAULT_CLOSE_SHORTCUT) ;;
  update "btnCancel" (set_tooltip_text ("Don't save changes (" ++ py_str shortcut ++ ")")) ;;
  (* Menu *)
  if toolkit_eqb TOOLKIT GTK then
    update "mit_tabwidth" (set_visible false) ;;
    update "mit_linenumbers" (set_visible false) ;;
    update "mit_spaces" (set_visible false) ;;
    update "mit_autoindent" (set_visible false)
  else ret tt.

(** *** show, up to the call of [Gtk.main()]; the result is the window
    with its objects. *)
Definition run_on {S S' A} (m : M S' A) (s' : S') : M S S' :=
  fun s => match m s' with
           | (Ret _, s'') => (Ret s'', s)
           | (Raise e, _) => (Raise e, s)
           end.

Definition show (TOOLKIT : toolkit) (pango : bool) (glade : Builder)
    (callback : TexTextEleMetaData -> option pyexn) : M t Builder :=
  modify (set_convert_callback callback) ;;
  self <- get ;;
  window <- run_on (create_window TOOLKIT pango self ;;
                    update "win_main" (set_default_size (500, 525)%Z) ;;
                    update "win_main" (set_visible true)) glade ;;
  ret window.

(** *** show_error_dialog *)
Definition add_section (header : option string) (text : string) : M t unit :=
  modify (fun s =>
    match dialogs s with
    | dlg :: older =>
        set_dialogs (mk_dialog (dlg_title dlg) (dlg_markup dlg)
                               (dlg_sections dlg ++ [(header, text)]) (dlg_run dlg)
                     :: older) s
    | [] => s
    end).

Definition bytes_decode {S} (b : option string) : M S string :=
  match b with
  | Some s => lift_opt (decode_utf8 s) (exn UnicodeDecodeError "'utf-8' codec can't decode")
  | None => raise (exn AttributeError "'NoneType' object has no attribute 'decode'")
  end.

Definition show_error_dialog (title message_text : string) (exception : pyexn) : M t unit :=
  self <- get ;;
  getattr "_window" (_window self) ;;
  modify (fun s => set_dialogs
            (mk_dialog title ("<b>" ++ message_text ++ "</b>") [] false :: dialogs s) s) ;;
  add_section None (exn_str exception) ;;
  (if is_TexTextCommandFailed exception then
     (if bytes_truth (exn_stdout exception) then
        out <- bytes_decode (exn_stdout exception) ;;
        add_section (Some "Stdout: <small><i>(click to expand)</i></small>") out
      else ret tt) ;;
     (if bytes_truth (exn_stderr exception) then
        err <- bytes_decode (exn_stderr exception) ;;
        add_section (Some "Stderr: <small><i>(click to expand)</i></small>") err
      else ret tt)
   else ret tt) ;;
  (* dialog.show_all(); dialog.run() *)
  modify (fun s =>
    match dialogs s with
    | dlg :: older =>
        set_dialogs (mk_dialog (dlg_title dlg) (dlg_markup dlg) (dlg_sections dlg) true
                     :: older) s
    | [] => s
    end).

(** *** cb_ok *)

(** [l[i]] for a Python [int] index; [None] stands for [IndexError]. *)
Definition list_getitem (l : list string) (i : Z) : option string :=
  if (0 <=? i)%Z then l !! Z.to_nat i
  else if (- Z.of_nat (length l) <=? i)%Z then l !! Z.to_nat (Z.of_nat (length l) + i)
  else None.

(** [str.lower] on the ASCII letters (the commands are ASCII). *)
Definition ascii_lower (c : Ascii.ascii) : Ascii.ascii :=
  let n := Ascii.nat_of_ascii c in
  if ((65 <=? n) && (n <=? 90))%nat then Ascii.ascii_of_nat (n + 32) else c.

Fixpoint lower (s : string) : string :=
  match s with
  | EmptyString => EmptyString
  | String c s' => String (ascii_lower c) (lower s')
  end.

Definition preamble_of (w : PreambleWidget) : string :=
  match w with
  | FileChooser filename =>
      match filename with
      | Some f => if String.eqb f "" then "" else f
      | None => ""
      end
  | Entry text => text
  end.

Definition cb_ok : M t bool :=
  self <- get ;;
  text_buffer <- getattr "_source_buffer" (_source_buffer self) ;;
  modify (set_base (TexTextGuiBase.set_text text_buffer)) ;;
  preamble_widget <- getattr "_preamble_widget" (_preamble_widget self) ;;
  modify (set_base (set_preamble_file (preamble_of preamble_widget))) ;;
  scale <- getattr "_scale_adj" (_scale_adj self) ;;
  modify (set_base (set_global_scale_factor (Atom (AFloat scale)))) ;;
  stroke <- getattr "_conv_stroke2path" (_conv_stroke2path self) ;;
  modify (set_base (set_current_convert_strokes_to_path stroke)) ;;
  try_except
    (texcmd_active <- getattr "_texcmd_cbox" (_texcmd_cbox self) ;;
     tex_command <- lift_opt (list_getitem TEX_COMMANDS texcmd_active)
                      (exn IndexError "list index out of range") ;;
     alignment_active <- getattr "_alignment_combobox" (_alignment_combobox self) ;;
     alignment <- lift_opt (list_getitem ALIGNMENT_LABELS alignment_active)
                    (exn IndexError "list index out of range") ;;
     s <- get ;;
     let node_meta_data :=
       mk_meta (textext_version (base s)) (text (base s)) (preamble_file (base s))
               scale (lower tex_command) alignment
               (current_convert_strokes_to_path (base s)) in
     callback <- getattr "_convert_callback" (_convert_callback s) ;;
     modify (emit (Convert node_meta_data)) ;;
     match callback node_meta_data with
     | None => ret tt
     | Some error => raise error
     end)
    is_Exception
    (fun error =>
       show_error_dialog "TexText Error"
         "Error occurred while converting text from Latex to SVG:" error ;;
       ret false)
    (fun _ => modify (emit Quit) ;; ret false).

(** *** on_window_delete *)
Definition on_window_delete : M t bool :=
  modify (emit Quit) ;; ret false.

(** *** cb_cancel: it calls [self.window_deleted_cb(widget, None, None)],
    and neither the class nor its base defines [window_deleted_cb] (the
    name is left in commented-out code only; the handler of the window is
    [on_window_delete]).  The attribute lookup raises. *)
Definition cb_cancel : M t unit :=
  raise (exn AttributeError "'TexTextGuiGTK' object has no attribute 'window_deleted_cb'").

(** *** word_wrap_toggled_cb(action, sourceview): [active] is
    [action.get_active()]; the view is an argument, so it is part of the
    state next to [self]. *)
Definition word_wrap_toggled_cb (active : bool) : M (t * SourceView) unit :=
  modify (fun '(self, _) => (self, mk_view (wrap_of active))) ;;
  s <- get ;;
  config <- gui_set (_config (base (fst s))) "word_wrap" (ABool active) ;;
  modify (fun '(self, view) => (set_base (set_config config) self, view)).
End GTK.
End TexTextGuiGTK.

(** ** class TexTextGuiTK: the other callbacks *)

Module TkCallbacks.
Section TK.
Context `{Builtins}.

Import TexTextGuiBase TexTextGuiTK.

(** The string Tcl receives for the value of an attribute passed to a
    widget command: a [bool] as [1] or [0], an [int] in decimal, a
    [float] as Tcl prints it, a [str] as it is; any other object through
    its [str()], here [str_dict] for a mapping. *)
Variable str_dict : gmap string pyatom -> string.

Definition tcl_value (x : pyval) : string :=
  match x with
  | Atom (ABool b) => if b then "1" else "0"
  | Atom (AInt z) => pretty z
  | Atom (AFloat f) => tcl_string f
  | Atom (AStr s) => s
  | Dict d => str_dict d
  end.

Definition set_preamble (v : string) (s : t) : t :=
  mk (base s) (_convert_callback s) v (_convert_strokes_to_path s)
     (_tex_command_tk_str s) (tex_command_radios s) (_scale s) (_reset_button s)
     (_global_button s) (_alignment_tk_str s) (alignment_radios s) (_word_wrap_tkval s)
     (_text_box s) (topmost s) (err_dialogs s) (log s).

(** *** reset_scale_factor *)
Definition reset_scale_factor : M t unit :=
  modify (fun s => set_scale (spin_delete_all (_scale s)) s) ;;
  modify (fun s => set_scale (spin_insert_0 (tcl_string (node_scale_factor (base s)))
                                            (_scale s)) s).

(** *** use_global_scale_factor *)
Definition use_global_scale_factor : M t unit :=
  modify (fun s => set_scale (spin_delete_all (_scale s)) s) ;;
  modify (fun s => set_scale (spin_insert_0 (tcl_value (global_scale_factor (base s)))
                                            (_scale s)) s).

(** *** select_preamble_file; [file_name] is what
    [tk_file_dialogs.askopenfilename] returned. *)
Definition select_preamble_file (file_name : option string) : M t unit :=
  match file_name with
  | Some name => modify (set_preamble name)
  | None => ret tt
  end.

(** The callbacks bound to the controls of the window. *)
Inductive callback :=
  | Cb_ok
  | Cb_word_wrap
  | Toggle_word_wrap
  | Reset_scale_factor
  | Use_global_scale_factor
  | Select_preamble_file (file_name : option string).

Definition run (c : callback) : M t unit :=
  match c with
  | Cb_ok => cb_ok
  | Cb_word_wrap => cb_word_wrap
  | Toggle_word_wrap => toggle_word_wrap
  | Reset_scale_factor => reset_scale_factor
  | Use_global_scale_factor => use_global_scale_factor
  | Select_preamble_file file_name => select_preamble_file file_name
  end.
End TK.
End TkCallbacks.

(** ** class TexTextGuiGTK: the editor callbacks *)

Module GtkEditor.
Section GTK.
Context `{Builtins}.

Import TexTextGuiBase.

Definition FONT_SIZE : list Z := [11; 12; 14; 16]%Z.
Definition NEW_NODE_CONTENT : list string := ["Empty"; "InlineMath"; "DisplayMath"].
Definition CLOSE_SHORTCUT : list string := ["Escape"; "CtrlQ"; "None"].
Definition CLOSE_SHORTCUT_TEXT : list string := ["_ESC"; "CTRL + _Q"; "None"].

(** [l[i]] for a Python [int] index; [None] stands for [IndexError]. *)
Definition getitem {A} (l : list A) (i : Z) : option A :=
  if (0 <=? i)%Z then l !! Z.to_nat i
  else if (- Z.of_nat (length l) <=? i)%Z then l !! Z.to_nat (Z.of_nat (length l) + i)
  else None.

(** The source view the menu callbacks are handed. *)
Record View := mk_view {
  v_show_line_numbers : bool;
  v_auto_indent : bool;
  v_insert_spaces_instead_of_tabs : bool;
  v_wrap_mode : wrap_mode;
  v_tab_width : Z;
  v_font : string;
}.

Definition set_show_line_numbers (x : bool) (v : View) : View :=
  mk_view x (v_auto_indent v) (v_insert_spaces_instead_of_tabs v) (v_wrap_mode v)
          (v_tab_width v) (v_font v).
Definition set_auto_indent (x : bool) (v : View) : View :=
  mk_view (v_show_line_numbers v) x (v_insert_spaces_instead_of_tabs v) (v_wrap_mode v)
          (v_tab_width v) (v_font v).
Definition set_insert_spaces_instead_of_tabs (x : bool) (v : View) : View :=
  mk_view (v_show_line_numbers v) (v_auto_indent v) x (v_wrap_mode v)
          (v_tab_width v) (v_font v).
Definition set_tab_width (x : Z) (v : View) : View :=
  mk_view (v_show_line_numbers v) (v_auto_indent v) (v_insert_spaces_instead_of_tabs v)
          (v_wrap_mode v) x (v_font v).
Definition modify_font (x : string) (v : View) : View :=
  mk_view (v_show_line_numbers v) (v_auto_indent v) (v_insert_spaces_instead_of_tabs v)
          (v_wrap_mode v) (v_tab_width v) x.

(** A [Gtk.Button]: its tooltip and how often [clicked()] was called on it. *)
Record Button := mk_button { b_tooltip_text : string; b_clicked : nat }.

(** The arguments of the preview callback: the fields [update_preview]
    sets in a new [TexTextEleMetaData] (the scale factor is the attribute
    [global_scale_factor] as it is) and the background preference; the
    second argument, the method [set_preview_image_from_file], is the
    same in every call. *)
Record preview_args := mk_preview_args {
  pv_text : string;
  pv_preamble : string;
  pv_scale_factor : pyval;
  pv_tex_command : string;
  pv_alignment : string;
  pv_stroke_to_path : bool;
  pv_white_background : pyatom;
}.

(** The object together with the attributes the editor callbacks read
    from it ([None]: the attribute is not set), the view a callback is
    handed, and the calls of the preview callback.
    [_preview_callback] is [Some None] when [show] was given no preview
    callback. *)
Record t := mk {
  gui : TexTextGuiGTK.t;
  _preview_callback : option (option (preview_args -> option pyexn));
  _ok_button : option Button;
  _preview_button : option Button;
  _cancel_button : option Button;
  view : View;
  previews : list preview_args;
}.

Definition set_gui (f : TexTextGuiGTK.t -> TexTextGuiGTK.t) (s : t) : t :=
  mk (f (gui s)) (_preview_callback s) (_ok_button s) (_preview_button s) (_cancel_button s)
     (view s) (previews s).
Definition set_ok_button (b : Button) (s : t) : t :=
  mk (gui s) (_preview_callback s) (Some b) (_preview_button s) (_cancel_button s)
     (view s) (previews s).
Definition set_preview_button (b : Button) (s : t) : t :=
  mk (gui s) (_preview_callback s) (_ok_button s) (Some b) (_cancel_button s)
     (view s) (previews s).
Definition set_cancel_button (b : Button) (s : t) : t :=
  mk (gui s) (_preview_callback s) (_ok_button s) (_preview_button s) (Some b)
     (view s) (previews s).
Definition set_view (f : View -> View) (s : t) : t :=
  mk (gui s) (_preview_callback s) (_ok_button s) (_preview_button s) (_cancel_button s)
     (f (view s)) (previews s).
Definition emit_preview (args : preview_args) (s : t) : t :=
  mk (gui s) (_preview_callback s) (_ok_button s) (_preview_button s) (_cancel_button s)
     (view s) (previews s ++ [args]).

(** A method of the object run from a callback. *)
Definition lift_gui {A} (m : M TexTextGuiGTK.t A) : M t A :=
  fun s => let (r, g) := m (gui s) in (r, set_gui (fun _ => g) s).

Definition config (s : t) : Settings := _config (TexTextGuiGTK.base (gui s)).

(** The object when [show] has stored the callbacks: [_preview_callback]
    is the argument of [show], and no statement assigns the buttons. *)
Definition shown (g : TexTextGuiGTK.t)
    (preview_callback : option (preview_args -> option pyexn)) (v : View) : t :=
  mk g (Some preview_callback) None None None v [].

(** [self._config["gui"][key] = value] *)
Definition store (key : string) (value : pyatom) : M t unit :=
  s <- get ;;
  c <- gui_set (config s) key value ;;
  modify (set_gui (TexTextGuiGTK.set_base (set_config c))).

(** *** The callbacks of the menu items; [active] is
    [action.get_active()] and [current_value] is
    [action.get_current_value()]. *)
Definition numbers_toggled_cb (active : bool) : M t unit :=
  modify (set_view (set_show_line_numbers active)) ;;
  store "line_numbers" (ABool active).

Definition auto_indent_toggled_cb (active : bool) : M t unit :=
  modify (set_view (set_auto_indent active)) ;;
  store "auto_indent" (ABool active).

Definition insert_spaces_toggled_cb (active : bool) : M t unit :=
  modify (set_view (set_insert_spaces_instead_of_tabs active)) ;;
  store "insert_spaces" (ABool active).

Definition on_preview_background_chagned (active : bool) : M t unit :=
  store "white_preview_background" (ABool active).

Definition tabs_toggled_cb (current_value : Z) : M t unit :=
  modify (set_view (set_tab_width current_value)) ;;
  store "tab_width" (AInt current_value).

Definition new_node_content_cb (current_value : Z) : M t unit :=
  content <- lift_opt (getitem NEW_NODE_CONTENT current_value)
               (exn IndexError "list index out of range") ;;
  store "new_node_content" (AStr content).

(** [set_monospace_font(sourceview, font_size)] for a font size read back
    from the store. *)
Definition set_monospace_font (pango : bool) (font_size : pyatom) : M t unit :=
  if pango then modify (set_view (modify_font ("monospace " ++ py_str font_size)))
  else ret tt.

Definition font_size_cb (pango : bool) (current_value : Z) : M t unit :=
  size <- lift_opt (getitem FONT_SIZE current_value)
            (exn IndexError "list index out of range") ;;
  store "font_size" (AInt size) ;;
  s <- get ;;
  stored <- gui_get (config s) "font_size" (AInt size) ;;
  set_monospace_font pango stored.

Definition close_shortcut_cb (current_value : Z) : M t unit :=
  shortcut <- lift_opt (getitem CLOSE_SHORTCUT current_value)
                (exn IndexError "list index out of range") ;;
  store "close_shortcut" (AStr shortcut) ;;
  s <- get ;;
  button <- TexTextGuiGTK.getattr "_cancel_button" (_cancel_button s) ;;
  text <- lift_opt (getitem CLOSE_SHORTCUT_TEXT current_value)
            (exn IndexError "list index out of range") ;;
  modify (set_cancel_button
            (mk_button ("Don't save changes (" ++ text ++ ")") (b_clicked button))).

Definition confirm_close_toggled_cb (active : bool) : M t unit :=
  store "confirm_close" (ABool active).

(** The callbacks of the toggle and tab-width items, by the menu item
    that runs them. *)
Inductive menu_item :=
  | ShowNumbers (active : bool)
  | AutoIndent (active : bool)
  | InsertSpaces (active : bool)
  | WhitePreviewBackground (active : bool)
  | TabsWidth (current_value : Z)
  | ConfirmClose (active : bool).

Definition activate (item : menu_item) : M t unit :=
  match item with
  | ShowNumbers active => numbers_toggled_cb active
  | AutoIndent active => auto_indent_toggled_cb active
  | InsertSpaces active => insert_spaces_toggled_cb active
  | WhitePreviewBackground active => on_preview_background_chagned active
  | TabsWidth current_value => tabs_toggled_cb current_value
  | ConfirmClose active => confirm_close_toggled_cb active
  end.

(** *** cb_key_press *)

(** A key event: [Gdk.keyval_name(event.keyval)] ([None] for a key value
    without a name) and [event.state]. *)
Record EventKey := mk_event { keyval_name : option string; state : Z }.

(** [Gdk.ModifierType.CONTROL_MASK] *)
Definition CONTROL_MASK : Z := 4.

Definition name_is (event : EventKey) (name : string) : bool :=
  match keyval_name event with
  | Some n => String.eqb n name
  | None => false
  end.

Definition atom_is (x : pyatom) (s : string) : bool :=
  match x with
  | AStr s' => String.eqb s' s
  | _ => false
  end.

Definition clicked (b : Button) : Button := mk_button (b_tooltip_text b) (S (b_clicked b)).

Definition cb_key_press (event : EventKey) : M t bool :=
  let ctrl_is_pressed := negb (Z.land CONTROL_MASK (state event) =? 0)%Z in
  if name_is event "Return" && ctrl_is_pressed then
    s <- get ;;
    button <- TexTextGuiGTK.getattr "_ok_button" (_ok_button s) ;;
    modify (set_ok_button (clicked button)) ;;
    ret true
  else if name_is event "p" && ctrl_is_pressed then
    (* Show/ update Preview shortcut (CTRL+P) *)
    s <- get ;;
    button <- TexTextGuiGTK.getattr "_preview_button" (_preview_button s) ;;
    modify (set_preview_button (clicked button)) ;;
    ret true
  else
    (* Cancel dialog via shortcut if set by the user *)
    s <- get ;;
    close_shortcut_value <- gui_get (config s) "close_shortcut" (AStr DEFAULT_CLOSE_SHORTCUT) ;;
    if (atom_is close_shortcut_value "Escape" && name_is event "Escape")
       || (atom_is close_shortcut_value "CtrlQ" && name_is event "q" && ctrl_is_pressed)
    then
      button <- TexTextGuiGTK.getattr "_cancel_button" (_cancel_button s) ;;
      modify (set_cancel_button (clicked button)) ;;
      ret true
    else ret false.


Definition tab : string := String (Ascii.ascii_of_nat 9) "".

(** The [while] loop: the column after the characters [chars], from column [col]. *)
Fixpoint column {S} (tabwidth : Z) (chars : list string) (col : Z) : M S Z :=
  match chars with
  | [] => ret col
  | c :: chars' =>
      if String.eqb c tab then
        if (tabwidth =? 0)%Z
        then raise (exn (OtherException "ZeroDivisionError")
                        "integer division or modulo by zero")
        else column tabwidth chars' (col + (tabwidth - col mod tabwidth))%Z
      else column tabwidth chars' (col + 1)%Z
  end.


(** *** update_preview *)
Definition DEFAULT_PREVIEW_WHITE_BACKGROUND : bool := false.

Definition update_preview : M t unit :=
  s <- get ;;
  preview_callback <- TexTextGuiGTK.getattr "_preview_callback" (_preview_callback s) ;;
  match preview_callback with
  | None => ret tt
  | Some callback =>
      text <- TexTextGuiGTK.getattr "_source_buffer" (TexTextGuiGTK._source_buffer (gui s)) ;;
      preamble_widget <- TexTextGuiGTK.getattr "_preamble_widget"
                           (TexTextGuiGTK._preamble_widget (gui s)) ;;
      let preamble := TexTextGuiGTK.preamble_of preamble_widget in
      let scale_factor := global_scale_factor (TexTextGuiGTK.base (gui s)) in
      texcmd_active <- TexTextGuiGTK.getattr "_texcmd_cbox" (TexTextGuiGTK._texcmd_cbox (gui s)) ;;
      tex_command <- lift_opt (TexTextGuiGTK.list_getitem TEX_COMMANDS texcmd_active)
                       (exn IndexError "list index out of range") ;;
      alignment_active <- TexTextGuiGTK.getattr "_alignment_combobox"
                            (TexTextGuiGTK._alignment_combobox (gui s)) ;;
      alignment <- lift_opt (TexTextGuiGTK.list_getitem ALIGNMENT_LABELS alignment_active)
                     (exn IndexError "list index out of range") ;;
      let stroke_to_path := current_convert_strokes_to_path (TexTextGuiGTK.base (gui s)) in
      try_except
        (white <- gui_get (config s) "white_preview_background"
                    (ABool DEFAULT_PREVIEW_WHITE_BACKGROUND) ;;
         let args := mk_preview_args text preamble scale_factor
                       (TexTextGuiGTK.lower tex_command) alignment stroke_to_path white in
         modify (emit_preview args) ;;
         match callback args with
         | None => ret tt
         | Some error => raise error
         end)
        is_Exception
        (fun error =>
           lift_gui (TexTextGuiGTK.show_error_dialog "TexText Error"
                       "Error occurred while generating preview:" error))
        (fun _ => ret tt)
  end.
End GTK.
End GtkEditor.


(** ** An implementation of the primitives, for running the methods

    Floats are exact decimals and strings are ASCII.  [float_of_string]
    follows the grammar of Python's [float()] on ASCII strings: white
    space around the number, a sign, [inf], [infinity] or [nan] in any
    case, digits with single underscores between them, a point, an
    exponent. *)

Module Decimal.

Inductive dec :=
  | Finite (negative : bool) (mantissa : N) (exponent : Z)
  | Infinity (negative : bool)
  | NaN.

Definition is_space (c : Ascii.ascii) : bool :=
  let n := Ascii.nat_of_ascii c in
  ((9 <=? n) && (n <=? 13) || (28 <=? n) && (n <=? 32))%nat.

Definition is_digit (c : Ascii.ascii) : bool :=
  let n := Ascii.nat_of_ascii c in ((48 <=? n) && (n <=? 57))%nat.

Definition digit_value (c : Ascii.ascii) : N := N.of_nat (Ascii.nat_of_ascii c - 48).

Definition is_char (code : nat) (c : Ascii.ascii) : bool :=
  (Ascii.nat_of_ascii c =? code)%nat.

Fixpoint lstrip (l : list Ascii.ascii) : list Ascii.ascii :=
  match l with
  | c :: l' => if is_space c then lstrip l' else l
  | [] => []
  end.

Definition strip (l : list Ascii.ascii) : list Ascii.ascii :=
  rev (lstrip (rev (lstrip l))).

(** Digits with single underscores between them: the value read, the
    number of digits and what follows. *)
Fixpoint digits_go (acc : N) (n : nat) (l : list Ascii.ascii)
    : N * nat * list Ascii.ascii :=
  match l with
  | c :: l' =>
      if is_digit c then digits_go (10 * acc + digit_value c)%N (S n) l'
      else if is_char 95 c then
        match l' with
        | d :: l'' =>
            if is_digit d then digits_go (10 * acc + digit_value d)%N (S n) l''
            else (acc, n, l)
        | [] => (acc, n, l)
        end
      else (acc, n, l)
  | [] => (acc, n, l)
  end.

Definition digitpart (l : list Ascii.ascii) : option (N * nat * list Ascii.ascii) :=
  match l with
  | c :: _ => if is_digit c then Some (digits_go 0 0 l) else None
  | [] => None
  end.

Definition sign (l : list Ascii.ascii) : bool * list Ascii.ascii :=
  match l with
  | c :: l' => if is_char 45 c then (true, l')
               else if is_char 43 c then (false, l')
               else (false, l)
  | [] => (false, l)
  end.

(** [[digitpart] "." digitpart | digitpart ["."]]: mantissa, decimal
    exponent and what follows. *)
Definition number (l : list Ascii.ascii) : option (N * Z * list Ascii.ascii) :=
  match digitpart l with
  | Some (ip, _, r) =>
      match r with
      | c :: r' =>
          if is_char 46 c then
            match digitpart r' with
            | Some (fp, k, r'') => Some (ip * 10 ^ N.of_nat k + fp, - Z.of_nat k, r'')%N%Z
            | None => Some (ip, 0%Z, r')
            end
          else Some (ip, 0%Z, r)
      | [] => Some (ip, 0%Z, [])
      end
  | None =>
      match l with
      | c :: r' =>
          if is_char 46 c then
            match digitpart r' with
            | Some (fp, k, r'') => Some (fp, (- Z.of_nat k)%Z, r'')
            | None => None
            end
          else None
      | [] => None
      end
  end.

Definition exponent (l : list Ascii.ascii) : option (Z * list Ascii.ascii) :=
  match l with
  | c :: l' =>
      if is_char 101 c || is_char 69 c then
        let '(neg, l'') := sign l' in
        match digitpart l'' with
        | Some (e, _, r) => Some (if neg then (- Z.of_N e)%Z else Z.of_N e, r)
        | None => None
        end
      else Some (0%Z, l)
  | [] => Some (0%Z, [])
  end.

Definition lower_string (l : list Ascii.ascii) : string :=
  String.string_of_list_ascii
    (map (fun c => let n := Ascii.nat_of_ascii c in
                   if ((65 <=? n) && (n <=? 90))%nat then Ascii.ascii_of_nat (n + 32) else c) l).

Definition float_of_string (s : string) : option dec :=
  let '(neg, body) := sign (strip (String.list_ascii_of_string s)) in
  let word := lower_string body in
  if String.eqb word "inf" || String.eqb word "infinity" then Some (Infinity neg)
  else if String.eqb word "nan" then Some NaN
  else
    match number body with
    | Some (m, e, r) =>
        match exponent r with
        | Some (e', []) => Some (Finite neg m (e + e'))
        | _ => None
        end
    | None => None
    end.

Definition dec_of_int (z : Z) : dec := Finite (z <? 0)%Z (Z.abs_N z) 0.

(** The integer nearest to [m * 10 ^ e], ties to even. *)
Definition round_scaled (m : N) (e : Z) : N :=
  if (0 <=? e)%Z then (m * 10 ^ Z.to_N e)%N
  else
    let d := (10 ^ Z.to_N (- e))%N in
    let q := (m / d)%N in
    let r := (m mod d)%N in
    if (2 * r <? d)%N then q
    else if (d <? 2 * r)%N then (q + 1)%N
    else if N.even q then q else (q + 1)%N.

Definition pad3 (n : N) : string :=
  let s := pretty n in
  match String.length s with
  | 1%nat => "00" ++ s
  | 2%nat => "0" ++ s
  | _ => s
  end.

Definition dec_format_3f (x : dec) : string :=
  match x with
  | Finite neg m e =>
      let k := round_scaled m (e + 3) in
      (if neg then "-" else "") ++ pretty (k / 1000)%N ++ "." ++ pad3 (k mod 1000)%N
  | Infinity neg => if neg then "-inf" else "inf"
  | NaN => "nan"
  end.

Definition dec_str (x : dec) : string :=
  match x with
  | Finite neg m e => (if neg then "-" else "") ++ pretty m ++ "e" ++ pretty e
  | Infinity neg => if neg then "-inf" else "inf"
  | NaN => "nan"
  end.

Definition dec_truth (x : dec) : bool :=
  match x with
  | Finite _ m _ => negb (m =? 0)%N
  | _ => true
  end.

Definition get_boolean (s : string) : option bool :=
  if bool_decide (s ∈ ["1"; "true"; "yes"; "on"]) then Some true
  else if bool_decide (s ∈ ["0"; "false"; "no"; "off"]) then Some false
  else None.

Definition decode_ascii (s : string) : option string :=
  if forallb (fun c => (Ascii.nat_of_ascii c <? 128)%nat) (String.list_ascii_of_string s)
  then Some s else None.

#[export] Instance builtins : Builtins := {|
  pyfloat := dec;
  py_float := float_of_string;
  float_of_int := fun z => Some (dec_of_int z);
  format_3f := dec_format_3f;
  float_truth := dec_truth;
  tcl_string := dec_str;
  float_str := dec_str;
  float_one := Finite false 1 0;
  Tcl_GetBoolean := get_boolean;
  decode_utf8 := decode_ascii;
|}.

End Decimal.

(** ** Sample inputs *)

Module Sample.
#[local] Existing Instance Decimal.builtins.

Definition node_formula : TexTextEleMetaData :=
  mk_meta "1.8.1" "$x^2$" "preamble.tex" (Decimal.Finite false 15 (-1))
          "lualatex" "middle center" false.

Definition node_new : TexTextEleMetaData :=
  mk_meta "1.8.1" "" "" (Decimal.Finite false 1 0) "pdflatex" "middle center" false.

(** A node whose stored command and alignment are not in the lists. *)
Definition node_foreign : TexTextEleMetaData :=
  mk_meta "1.8.1" "$x^2$" "" (Decimal.Finite false 1 0) "latex" "center" false.

Definition config_empty : gmap string pyval := ∅.

Definition callback_ok : TexTextGuiTK.convert_args -> option pyexn := fun _ => None.

Definition latex_failed : pyexn := exn (OtherException "RuntimeError") "latex failed".

Definition callback_fails : TexTextGuiTK.convert_args -> option pyexn :=
  fun _ => Some latex_failed.

(** The Tk window of [node_formula] with [content] typed into the scale field. *)
Definition tk_window (content : string)
    (callback : TexTextGuiTK.convert_args -> option pyexn) : TexTextGuiTK.t :=
  match TexTextGuiTK.show callback
          (TexTextGuiBase.__init__ "1.8.1" node_formula config_empty) with
  | (Ret w, _) => TexTextGuiTK.set_scale content w
  | (Raise _, _) =>
      TexTextGuiTK.mk (TexTextGuiBase.__init__ "1.8.1" node_formula config_empty)
        callback "" false "" [] content (TexTextGuiTK.mk_button "" TexTextGuiTK.NORMAL)
        (TexTextGuiTK.mk_button "" TexTextGuiTK.NORMAL) "" [] false
        (TexTextGuiTK.mk_text "" NONE) false [] []
  end.

Definition blank : TexTextGuiGTK.Widget :=
  TexTextGuiGTK.mk_widget "" (-1) None "" "" true "" "" true None [].

(** The objects [create_window] asks the builder for. *)
Definition glade : gmap string TexTextGuiGTK.Widget :=
  list_to_map
    (map (fun name => (name, blank))
       ["win_main"; "cmb_texcmd"; "sbn_scale"; "btn_scalereset"; "btn_scaleprevious";
        "cmb_align"; "tbf_texcode"; "tev_texcode"; "btnCancel"; "mit_tabwidth";
        "mit_linenumbers"; "mit_spaces"; "mit_autoindent"]).

Definition gtk_callback_fails : TexTextEleMetaData -> option pyexn :=
  fun _ => Some latex_failed.
End Sample.

(** ** More sample inputs *)

Module SampleMore.
#[local] Existing Instance Decimal.builtins.

(** A store with a scale of 2.0 and word wrap on. *)
Definition config_stored : gmap string pyval :=
  <["scale" := Atom (AFloat (Decimal.Finite false 2 0))]>
    (<["gui" := Dict (<["word_wrap" := ABool true]> ∅)]> ∅).

(** A store whose scale was written as a string. *)
Definition config_string_scale : gmap string pyval :=
  <["scale" := Atom (AStr "2.0")]> ∅.

(** A failed run of pdflatex with its output, and one whose output is
    not ASCII. *)
Definition pdflatex_failed : pyexn :=
  mk_exn TexTextCommandFailed "pdflatex failed"
    (Some "! Undefined control sequence.") (Some "").

Definition garbled : string := String (Ascii.ascii_of_nat 255) "".

Definition pdflatex_garbled : pyexn :=
  mk_exn TexTextCommandFailed "pdflatex failed" (Some garbled) None.

Definition callback_garbled : TexTextGuiTK.convert_args -> option pyexn :=
  fun _ => Some pdflatex_garbled.

Definition gtk_callback_ok : TexTextEleMetaData -> option pyexn := fun _ => None.

(** A GTK object with every attribute [cb_ok] reads in place, as the
    commented-out code would set them, with the entries [i] and [j]
    selected in the two combo boxes. *)
Definition gtk_selected (i j : Z) (callback : TexTextEleMetaData -> option pyexn)
    : TexTextGuiGTK.t :=
  TexTextGuiGTK.mk (TexTextGuiBase.__init__ "1.8.1" Sample.node_formula Sample.config_empty)
    (Some callback) (Some "$x^3$") (Some (TexTextGuiGTK.Entry "preamble.tex"))
    (Some (Decimal.Finite false 2 0)) (Some false) (Some i) (Some j) (Some Sample.glade) [] [].

Definition plain_view : GtkEditor.View :=
  GtkEditor.mk_view true true true NONE 4 "monospace 11".

Definition preview_ok : GtkEditor.preview_args -> option pyexn := fun _ => None.

Definition cancel_button : GtkEditor.Button :=
  GtkEditor.mk_button "Don't save changes (_ESC)" 0.

(** The editor with all its widgets and buttons, as the commented-out
    code would set them. *)
Definition editor (i j : Z) (preview_callback : GtkEditor.preview_args -> option pyexn)
    : GtkEditor.t :=
  GtkEditor.mk (gtk_selected i j gtk_callback_ok) (Some (Some preview_callback))
    (Some (GtkEditor.mk_button "" 0)) (Some (GtkEditor.mk_button "" 0)) (Some cancel_button)
    plain_view [].


Definition key (name : string) (state : Z) : GtkEditor.EventKey :=
  GtkEditor.mk_event (Some name) state.
End SampleMore.


(** ** Vocabulary of the statements *)

Section Vocabulary.
Context `{Builtins}.

(** The arguments [cb_ok] passes to the callback when the scale field
    reads as the float [f]. *)
Definition tk_args_of (s : TexTextGuiTK.t) (f : pyfloat) : TexTextGuiTK.convert_args :=
  TexTextGuiTK.mk_args (TexTextGuiTK.text_get_1_END (TexTextGuiTK._text_box s))
    (TexTextGuiTK._preamble s) (Atom (AFloat f)) (TexTextGuiTK._alignment_tk_str s)
    (TexTextGuiTK._tex_command_tk_str s) (TexTextGuiTK._convert_strokes_to_path s).

(** The object after the four assignments of [cb_ok]. *)
Definition tk_stored (s : TexTextGuiTK.t) (f : pyfloat) : TexTextGuiTK.t :=
  TexTextGuiTK.set_base
    (fun b => TexTextGuiBase.set_current_convert_strokes_to_path
                (TexTextGuiTK._convert_strokes_to_path s)
                (TexTextGuiBase.set_preamble_file (TexTextGuiTK._preamble s)
                   (TexTextGuiBase.set_text
                      (TexTextGuiTK.text_get_1_END (TexTextGuiTK._text_box s))
                      (TexTextGuiBase.set_global_scale_factor (Atom (AFloat f)) b))))
    s.

(** The captured output of [e] can be decoded, where it is looked at. *)
Definition output_decodes (e : pyexn) : Prop :=
  forall b, b = exn_stdout e \/ b = exn_stderr e -> bytes_truth b = true ->
            exists s, b = Some s /\ is_Some (decode_utf8 s).

End Vocabulary.

(** ** More vocabulary *)

Section VocabularyMore.
Context `{Builtins}.

(** What the user or the constructor alone decides in the Tk window:
    the callback, the attributes of the node no method assigns, the
    selections of the two radio groups and of the check button for
    strokes, the radio buttons and buttons themselves, and the
    characters in the text box. *)
Definition tk_fixed (s : TexTextGuiTK.t) :=
  (TexTextGuiTK._convert_callback s,
   TexTextGuiBase.textext_version (TexTextGuiTK.base s),
   TexTextGuiBase.node_scale_factor (TexTextGuiTK.base s),
   TexTextGuiBase.current_alignment (TexTextGuiTK.base s),
   TexTextGuiBase.current_texcmd (TexTextGuiTK.base s),
   TexTextGuiTK._convert_strokes_to_path s,
   TexTextGuiTK._tex_command_tk_str s, TexTextGuiTK.tex_command_radios s,
   TexTextGuiTK._reset_button s, TexTextGuiTK._global_button s,
   TexTextGuiTK._alignment_tk_str s, TexTextGuiTK.alignment_radios s,
   TexTextGuiTK.txt_chars (TexTextGuiTK._text_box s)).

(** The view an error dialog gives of captured output: none for [None]
    and for empty [bytes], the decoded text otherwise. *)
Definition output_view {A} (header : A) (b : option string) : list (A * string) :=
  match b with
  | Some x =>
      if String.eqb x "" then []
      else match decode_utf8 x with
           | Some text => [(header, text)]
           | None => []
           end
  | None => []
  end.

(** The views after the first one: those of the captured output of a
    [TexTextCommandFailed], standard output first. *)
Definition output_views {A} (stdout_header stderr_header : A) (e : pyexn) : list (A * string) :=
  if is_TexTextCommandFailed e
  then output_view stdout_header (exn_stdout e) ++ output_view stderr_header (exn_stderr e)
  else [].

(** The GTK object after the four assignments [cb_ok] starts with. *)
Definition gtk_stored (g : TexTextGuiGTK.t) (text : string)
    (preamble_widget : TexTextGuiGTK.PreambleWidget) (scale : pyfloat) (stroke : bool)
    : TexTextGuiGTK.t :=
  TexTextGuiGTK.set_base
    (fun b => TexTextGuiBase.set_current_convert_strokes_to_path stroke
                (TexTextGuiBase.set_global_scale_factor (Atom (AFloat scale))
                   (TexTextGuiBase.set_preamble_file
                      (TexTextGuiGTK.preamble_of preamble_widget)
                      (TexTextGuiBase.set_text text b))))
    g.

(** The handler of the [try] statement of GTK [cb_ok]. *)
Definition gtk_handler (error : pyexn) : M TexTextGuiGTK.t bool :=
  TexTextGuiGTK.show_error_dialog "TexText Error"
    "Error occurred while converting text from Latex to SVG:" error ;;
  ret false.

(** The key and the value a menu item writes to the ["gui"] sub-section,
    and what it does to the source view. *)
Definition menu_key (item : GtkEditor.menu_item) : string :=
  match item with
  | GtkEditor.ShowNumbers _ => "line_numbers"
  | GtkEditor.AutoIndent _ => "auto_indent"
  | GtkEditor.InsertSpaces _ => "insert_spaces"
  | GtkEditor.WhitePreviewBackground _ => "white_preview_background"
  | GtkEditor.TabsWidth _ => "tab_width"
  | GtkEditor.ConfirmClose _ => "confirm_close"
  end.

Definition menu_value (item : GtkEditor.menu_item) : pyatom :=
  match item with
  | GtkEditor.ShowNumbers active | GtkEditor.AutoIndent active | GtkEditor.InsertSpaces active
  | GtkEditor.WhitePreviewBackground active | GtkEditor.ConfirmClose active => ABool active
  | GtkEditor.TabsWidth current_value => AInt current_value
  end.

Definition menu_view (item : GtkEditor.menu_item) (v : GtkEditor.View) : GtkEditor.View :=
  match item with
  | GtkEditor.ShowNumbers active => GtkEditor.set_show_line_numbers active v
  | GtkEditor.AutoIndent active => GtkEditor.set_auto_indent active v
  | GtkEditor.InsertSpaces active => GtkEditor.set_insert_spaces_instead_of_tabs active v
  | GtkEditor.TabsWidth current_value => GtkEditor.set_tab_width current_value v
  | GtkEditor.WhitePreviewBackground _ | GtkEditor.ConfirmClose _ => v
  end.

(** The control key is held in a key event. *)
Definition ctrl_is_pressed (event : GtkEditor.EventKey) : bool :=
  negb (Z.land GtkEditor.CONTROL_MASK (GtkEditor.state event) =? 0)%Z.

(** How often [clicked()] was called on the three buttons. *)
Definition clicks (s : GtkEditor.t) : list (option nat) :=
  [GtkEditor.b_clicked <$> GtkEditor._ok_button s;
   GtkEditor.b_clicked <$> GtkEditor._preview_button s;
   GtkEditor.b_clicked <$> GtkEditor._cancel_button s].

(** The objects [create_window] fetches from the builder by name. *)
Definition window_objects : list string :=
  ["win_main"; "cmb_texcmd"; "sbn_scale"; "btn_scalereset"; "btn_scaleprevious";
   "cmb_align"; "tbf_texcode"; "tev_texcode"; "btnCancel"; "mit_tabwidth";
   "mit_linenumbers"; "mit_spaces"; "mit_autoindent"].

Definition has_objects (b : gmap string TexTextGuiGTK.Widget) : Prop :=
  forall name, name ∈ window_objects -> is_Some (b !! name).
End VocabularyMore.


(** * Running the methods *)

Example float_of_string_examples :
  Decimal.float_of_string " 1.5 " = Some (Decimal.Finite false 15 (-1))
  /\ Decimal.float_of_string "-.5e3" = Some (Decimal.Finite true 5 2)
  /\ Decimal.float_of_string "1_000." = Some (Decimal.Finite false 1000 0)
  /\ Decimal.float_of_string "+Infinity" = Some (Decimal.Infinity false)
  /\ Decimal.float_of_string "1e" = None
  /\ Decimal.float_of_string "-" = None
  /\ Decimal.float_of_string "." = None
  /\ Decimal.float_of_string "1__0" = None
  /\ Decimal.float_of_string "abc" = None
  /\ Decimal.float_of_string "" = None
  /\ Decimal.float_of_string "1 2" = None.
Proof. vm_compute. repeat split. Qed.

Example format_3f_examples :
  Decimal.dec_format_3f (Decimal.Finite false 15 (-1)) = "1.500"
  /\ Decimal.dec_format_3f (Decimal.Finite true 12345 (-4)) = "-1.234"
  /\ Decimal.dec_format_3f (Decimal.Finite false 12355 (-4)) = "1.236"
  /\ Decimal.dec_format_3f (Decimal.Finite false 2 0) = "2.000".
Proof. vm_compute. repeat split. Qed.

(** * Properties *)

(** ** The monad *)

Lemma bind_Ret_inv {S A B} (m : M S A) (k : A -> M S B) s b s' :
  bind m k s = (Ret b, s') ->
  exists a s1, m s = (Ret a, s1) /\ k a s1 = (Ret b, s').
Proof.
  unfold bind. destruct (m s) as [[a|e] s1]; intros Hk; [eauto | discriminate].
Qed.

Lemma bind_Ret {S A B} (m : M S A) (k : A -> M S B) s a s1 :
  m s = (Ret a, s1) -> bind m k s = k a s1.
Proof. unfold bind. now intros ->. Qed.

Lemma bind_Raise {S A B} (m : M S A) (k : A -> M S B) s e s1 :
  m s = (Raise e, s1) -> bind m k s = (Raise e, s1).
Proof. unfold bind. now intros ->. Qed.

Lemma lift_opt_Ret_inv {S A} (o : option A) e (s : S) a s' :
  lift_opt o e s = (Ret a, s') -> o = Some a /\ s' = s.
Proof. destruct o; unfold lift_opt, ret, raise; intros [= <- <-] || intros [=]; auto. Qed.

Lemma bind_lift_opt_Some {S A B} (a : A) e (k : A -> M S B) s :
  bind (lift_opt (Some a) e) k s = k a s.
Proof. reflexivity. Qed.

Lemma bind_lift_opt_None {S A B} e (k : A -> M S B) s :
  bind (lift_opt None e) k s = (Raise e, s).
Proof. reflexivity. Qed.

Lemma bind_get {S B} (k : S -> M S B) s : bind get k s = k s s.
Proof. reflexivity. Qed.

Lemma bind_modify {S B} (f : S -> S) (k : unit -> M S B) s :
  bind (modify f) k s = k tt (f s).
Proof. reflexivity. Qed.

Lemma modify_Ret_inv {S} (f : S -> S) (s s' : S) u :
  modify f s = (Ret u, s') -> s' = f s.
Proof. unfold modify. now intros [= _ <-]. Qed.

Lemma ret_Ret_inv {S A} (a b : A) (s s' : S) :
  ret a s = (Ret b, s') -> b = a /\ s' = s.
Proof. unfold ret. now intros [= <- <-]. Qed.

Lemma get_Ret_inv {S} (a s s' : S) :
  get s = (Ret a, s') -> a = s /\ s' = s.
Proof. unfold get. now intros [= <- <-]. Qed.

(** Inversion of a method that returned: split it into its steps. *)
Ltac inv_step :=
  match goal with
  | Hb : bind _ _ _ = (Ret _, _) |- _ =>
      let a := fresh "a" in let s := fresh "s" in
      let H1 := fresh "Hstep" in let H2 := fresh "Hrest" in
      apply bind_Ret_inv in Hb as (a & s & H1 & H2); cbn beta in H1, H2
  | Hl : lift_opt _ _ _ = (Ret _, _) |- _ =>
      let H1 := fresh "Hsome" in
      apply lift_opt_Ret_inv in Hl as [H1 ->]
  | Hg : get _ = (Ret _, _) |- _ => apply get_Ret_inv in Hg as [? ?]; subst
  | Hr : ret _ _ = (Ret _, _) |- _ => apply ret_Ret_inv in Hr as [? ?]; subst
  | Hm : modify _ _ = (Ret _, _) |- _ => apply modify_Ret_inv in Hm; subst
  | Hr : raise _ _ = (Ret _, _) |- _ => discriminate Hr
  end.

Section Properties.
Context `{Builtins}.

(** ** The configuration store *)

Lemma has_key_true (config : Settings) key :
  has_key config key = true <-> is_Some (config !! key).
Proof. unfold has_key. apply bool_decide_eq_true. Qed.

Lemma has_key_false (config : Settings) key :
  has_key config key = false <-> config !! key = None.
Proof.
  unfold has_key. rewrite bool_decide_eq_false, <- eq_None_not_Some. reflexivity.
Qed.

Lemma init_config version node (config : Settings) :
  TexTextGuiBase._config (TexTextGuiBase.__init__ version node config)
  = match config !! "gui" with
    | Some _ => config
    | None => <["gui" := Dict ∅]> config
    end.
Proof.
  unfold TexTextGuiBase.__init__; cbn.
  destruct (config !! "gui") as [v|] eqn:Hgui.
  - assert (has_key config "gui" = true) as -> by (apply has_key_true; eauto).
    reflexivity.
  - assert (has_key config "gui" = false) as -> by now apply has_key_false.
    reflexivity.
Qed.

Lemma gui_get_dict {S} (config : Settings) d key default (s : S) :
  config !! "gui" = Some (Dict d) ->
  gui_get config key default s
  = (Ret (match d !! key with Some v => v | None => default end), s).
Proof. unfold gui_get. now intros ->. Qed.

Lemma gui_set_dict {S} (config : Settings) d key value (s : S) :
  config !! "gui" = Some (Dict d) ->
  gui_set config key value s = (Ret (<["gui" := Dict (<[key := value]> d)]> config), s).
Proof. unfold gui_set. now intros ->. Qed.

Lemma gui_get_Ret_inv {S} (config : Settings) key default (s s' : S) v :
  gui_get config key default s = (Ret v, s') ->
  exists d, config !! "gui" = Some (Dict d).
Proof.
  unfold gui_get. destruct (config !! "gui") as [[a|d]|]; try discriminate. eauto.
Qed.

(** C10. After the constructor the store has an entry under ["gui"]: an
    absent key is created as the empty mapping, an existing entry and all
    other keys are as they were; where the entry was absent or a mapping,
    every read and write of a gui preference afterwards finds the mapping
    and succeeds. *)
Theorem init_gui_section version node (config : Settings) :
  let config' := TexTextGuiBase._config (TexTextGuiBase.__init__ version node config) in
  has_key config' "gui" = true
  /\ (has_key config "gui" = false -> config' = <["gui" := Dict ∅]> config)
  /\ (has_key config "gui" = true -> config' = config)
  /\ (forall key, key <> "gui" -> config' !! key = config !! key)
  /\ (forall d, default (Dict ∅) (config !! "gui") = Dict d ->
        config' !! "gui" = Some (Dict d)
        /\ (forall S key default (s : S),
              gui_get config' key default s
              = (Ret (match d !! key with Some v => v | None => default end), s))
        /\ (forall S key value (s : S),
              gui_set config' key value s
              = (Ret (<["gui" := Dict (<[key := value]> d)]> config'), s))).
Proof.
  intros config'. subst config'. rewrite init_config.
  destruct (config !! "gui") as [v|] eqn:Hgui; cbn.
  - split; [apply has_key_true; rewrite Hgui; eauto|].
    split; [intros Hk; apply has_key_false in Hk; congruence|].
    split; [reflexivity|]. split; [reflexivity|].
    intros d ->. split; [exact Hgui|].
    split; intros; [now apply gui_get_dict | now apply gui_set_dict].
  - split; [apply has_key_true; rewrite lookup_insert_eq; eauto|].
    split; [reflexivity|].
    split; [intros Hk; apply has_key_true in Hk as [? ?]; congruence|].
    split; [intros key Hne; now rewrite lookup_insert_ne|].
    intros d [= <-]. split; [apply lookup_insert_eq|].
    split; intros; [apply gui_get_dict | apply gui_set_dict]; apply lookup_insert_eq.
Qed.
(** ** The constructor and the selectors *)

Lemma py_in_true x l : TexTextGuiBase.py_in x l = true <-> x ∈ l.
Proof. unfold TexTextGuiBase.py_in. apply bool_decide_eq_true. Qed.

Lemma py_in_false x l : TexTextGuiBase.py_in x l = false <-> x ∉ l.
Proof. unfold TexTextGuiBase.py_in. apply bool_decide_eq_false. Qed.

Lemma init_text version node config :
  TexTextGuiBase.text (TexTextGuiBase.__init__ version node config) = md_text node.
Proof.
  unfold TexTextGuiBase.__init__; cbn.
  destruct (md_text node); reflexivity.
Qed.

Lemma init_current_texcmd version node config :
  TexTextGuiBase.current_texcmd (TexTextGuiBase.__init__ version node config)
  = if TexTextGuiBase.py_in (md_tex_command node) TexTextGuiBase.TEX_COMMANDS
    then md_tex_command node else "pdflatex".
Proof. reflexivity. Qed.

Lemma list_index_Some x l i :
  TexTextGuiGTK.list_index x l = Some i -> l !! i = Some x.
Proof.
  revert i. induction l as [|y l IH]; intros i; cbn; [discriminate|].
  destruct (String.eqb_spec y x) as [->|Hne].
  - now intros [= <-].
  - destruct (TexTextGuiGTK.list_index x l) as [j|]; cbn; [|discriminate].
    intros [= <-]. cbn. now apply IH.
Qed.

Lemma list_index_None x l :
  TexTextGuiGTK.list_index x l = None <-> x ∉ l.
Proof.
  induction l as [|y l IH]; cbn.
  - split; [intros _; apply not_elem_of_nil | reflexivity].
  - destruct (String.eqb_spec y x) as [->|Hne].
    + split; [discriminate | intros Hn; exfalso; apply Hn; left].
    + rewrite not_elem_of_cons.
      destruct (TexTextGuiGTK.list_index x l) as [j|] eqn:Hj; cbn.
      * split; [discriminate|]. intros [_ Hn]. now apply IH in Hn.
      * split; [|reflexivity]. intros _. split; [congruence | now apply IH].
Qed.

(** The conversions read the state and leave it as it is. *)
Lemma lift_opt_state {S A} (o : option A) e (s s' : S) r :
  lift_opt o e s = (r, s') -> s' = s.
Proof. destruct o; unfold lift_opt, ret, raise; now intros [= _ <-]. Qed.

Lemma fmt_3f_state {S} x (s s' : S) r : fmt_3f x s = (r, s') -> s' = s.
Proof.
  destruct x as [[b|z|f|str]|d]; cbn; unfold bind, ret, raise;
    try (now intros [= _ <-]).
  - destruct (lift_opt _ _ s) as [[f|e] s1] eqn:Hl; apply lift_opt_state in Hl;
      now intros [= _ <-].
  - destruct (lift_opt _ _ s) as [[f|e] s1] eqn:Hl; apply lift_opt_state in Hl;
      now intros [= _ <-].
Qed.

Lemma gui_get_state {S} config key default (s s' : S) r :
  gui_get config key default s = (r, s') -> s' = s.
Proof.
  unfold gui_get. destruct (config !! "gui") as [[a|d]|]; unfold ret, raise;
    now intros [= _ <-].
Qed.

Lemma getboolean_state {S} x (s s' : S) r : getboolean x s = (r, s') -> s' = s.
Proof.
  destruct x as [[b|z|f|str]|d]; cbn; unfold ret, raise; try (now intros [= _ <-]).
  apply lift_opt_state.
Qed.

(** What [show] of the Tk dialog stores, when it gets as far as the main loop. *)
Lemma tk_show_Ret_inv callback (self self' : TexTextGuiBase.t) w :
  TexTextGuiTK.show callback self = (Ret w, self') ->
  self' = self
  /\ TexTextGuiTK.base w = self
  /\ TexTextGuiTK._convert_callback w = callback
  /\ TexTextGuiTK._preamble w = TexTextGuiBase.preamble_file self
  /\ TexTextGuiTK._convert_strokes_to_path w
     = TexTextGuiBase.current_convert_strokes_to_path self
  /\ TexTextGuiTK._tex_command_tk_str w = TexTextGuiBase.current_texcmd self
  /\ TexTextGuiTK.tex_command_radios w
     = map (fun c => TexTextGuiTK.mk_radio c c TexTextGuiTK.NORMAL) TexTextGuiBase.TEX_COMMANDS
  /\ TexTextGuiTK.btn_state (TexTextGuiTK._reset_button w)
     = TexTextGuiTK.state_for_text (TexTextGuiBase.text self)
  /\ TexTextGuiTK._alignment_tk_str w = TexTextGuiBase.current_alignment self
  /\ TexTextGuiTK.alignment_radios w
     = map (fun ind => let label := default "" (TexTextGuiBase.ALIGNMENT_LABELS !! ind) in
                       TexTextGuiTK.mk_radio label label
                         (TexTextGuiTK.state_for_text (TexTextGuiBase.text self)))
           TexTextGuiTK.alignment_index_list
  /\ TexTextGuiTK.txt_chars (TexTextGuiTK._text_box w) = TexTextGuiBase.text self
  /\ TexTextGuiTK.txt_wrap (TexTextGuiTK._text_box w) = wrap_of (TexTextGuiTK._word_wrap_tkval w)
  /\ TexTextGuiTK.log w = []
  /\ exists d, TexTextGuiBase._config self !! "gui" = Some (Dict d).
Proof.
  unfold TexTextGuiTK.show. intros Hshow.
  repeat inv_step.
  match goal with
  | Hg : gui_get _ _ _ _ = (Ret _, _) |- _ => pose proof (gui_get_Ret_inv _ _ _ _ _ _ Hg) as Hd
  end.
  repeat match goal with
  | Hf : fmt_3f _ _ = _ |- _ => apply fmt_3f_state in Hf
  | Hf : gui_get _ _ _ _ = _ |- _ => apply gui_get_state in Hf
  | Hf : getboolean _ _ = _ |- _ => apply getboolean_state in Hf
  end.
  subst. repeat split; try reflexivity. exact Hd.
Qed.

(** The objects of the GTK window, step by step. *)
Lemma get_object_Ret_inv name (b b' : gmap string TexTextGuiGTK.Widget) w :
  TexTextGuiGTK.get_object name b = (Ret w, b') -> b !! name = Some w /\ b' = b.
Proof.
  unfold TexTextGuiGTK.get_object. intros Hg. repeat inv_step. auto.
Qed.

Lemma update_Ret_inv name f (b b' : gmap string TexTextGuiGTK.Widget) u :
  TexTextGuiGTK.update name f b = (Ret u, b') ->
  exists w, b !! name = Some w /\ b' = <[name := f w]> b.
Proof.
  unfold TexTextGuiGTK.update. intros Hu. inv_step.
  apply get_object_Ret_inv in Hstep as [Hw ->]. inv_step. eauto.
Qed.

Lemma create_window_Ret_inv TOOLKIT pango self (glade window : gmap string TexTextGuiGTK.Widget) :
  TexTextGuiGTK.create_window TOOLKIT pango self glade = (Ret tt, window) ->
  let self := TexTextGuiGTK.base self in
  exists reset align texcmd,
    window !! "btn_scalereset" = Some reset
    /\ TexTextGuiGTK.w_sensitive reset = negb (String.eqb (TexTextGuiBase.text self) "")
    /\ window !! "cmb_align" = Some align
    /\ TexTextGuiGTK.w_sensitive align = negb (String.eqb (TexTextGuiBase.text self) "")
    /\ (0 <= TexTextGuiGTK.w_active align)%Z
    /\ TexTextGuiBase.ALIGNMENT_LABELS !! Z.to_nat (TexTextGuiGTK.w_active align)
       = Some (TexTextGuiBase.current_alignment self)
    /\ window !! "cmb_texcmd" = Some texcmd
    /\ (0 <= TexTextGuiGTK.w_active texcmd)%Z
    /\ TexTextGuiBase.TEX_COMMANDS !! Z.to_nat (TexTextGuiGTK.w_active texcmd)
       = Some (TexTextGuiBase.current_texcmd self).
Proof.
  unfold TexTextGuiGTK.create_window, TexTextGuiGTK.set_monospace_font.
  intros Hcw. cbn zeta.
  destruct pango, TOOLKIT; cbn [toolkit_eqb] in Hcw; repeat inv_step;
    repeat match goal with
    | Hu : TexTextGuiGTK.update _ _ _ = (Ret _, _) |- _ =>
        apply update_Ret_inv in Hu as (? & ? & ->)
    | Hg : TexTextGuiGTK.get_object _ _ = (Ret _, _) |- _ =>
        apply get_object_Ret_inv in Hg as [? ->]
    | Hf : fmt_3f _ _ = _ |- _ => apply fmt_3f_state in Hf; subst
    | Hf : gui_get _ _ _ _ = _ |- _ => apply gui_get_state in Hf; subst
    end.
  all: repeat match goal with
       | Hl : context [<[_ := _]> _ !! _] |- _ =>
           first [ rewrite lookup_insert_eq in Hl
                 | rewrite lookup_insert_ne in Hl by discriminate ]
       end.
  all: repeat match goal with
       | Hl : Some _ = Some _ |- _ => injection Hl as <-
       | Hl : ?x = Some _, Hl' : ?x = Some _ |- _ => rewrite Hl in Hl'
       end.
  all: repeat inv_step.
  all: eexists _, _, _.
  all: repeat match goal with
       | |- context [<[_ := _]> _ !! _] =>
           first [ rewrite lookup_insert_eq | rewrite lookup_insert_ne by discriminate ]
       end.
  all: repeat match goal with |- _ /\ _ => split end; try reflexivity.
  all: cbn [TexTextGuiGTK.w_sensitive TexTextGuiGTK.w_active TexTextGuiGTK.set_sensitive
            TexTextGuiGTK.set_active TexTextGuiGTK.connect TexTextGuiGTK.set_tooltip_text
            TexTextGuiGTK.set_label].
  all: try apply Nat2Z.is_nonneg.
  all: rewrite Nat2Z.id; now apply list_index_Some.
Qed.
(** ** The Tk dialog: cb_ok *)

Lemma tk_cb_ok_invalid s :
  py_float (TexTextGuiTK._scale s) = None ->
  TexTextGuiTK.cb_ok s
  = (Ret tt,
     TexTextGuiTK.emit
       (TexTextGuiTK.ShowError "Scale factor error"
          "Please enter a valid floating point number for the scale factor!") s).
Proof.
  intros Hscale.
  unfold TexTextGuiTK.cb_ok, bind, get, try_except, TexTextGuiTK.float_, lift_opt.
  rewrite Hscale. reflexivity.
Qed.

Lemma tk_cb_ok_valid s f :
  py_float (TexTextGuiTK._scale s) = Some f ->
  TexTextGuiTK.cb_ok s = TexTextGuiTK.convert_and_quit (tk_stored s f).
Proof.
  intros Hscale.
  unfold TexTextGuiTK.cb_ok, bind, get, try_except, TexTextGuiTK.float_, lift_opt.
  rewrite Hscale. destruct s; reflexivity.
Qed.

Lemma tk_call_convert s :
  TexTextGuiTK.call_convert s
  = let args := TexTextGuiTK.mk_args
                  (TexTextGuiBase.text (TexTextGuiTK.base s))
                  (TexTextGuiBase.preamble_file (TexTextGuiTK.base s))
                  (TexTextGuiBase.global_scale_factor (TexTextGuiTK.base s))
                  (TexTextGuiTK._alignment_tk_str s) (TexTextGuiTK._tex_command_tk_str s)
                  (TexTextGuiBase.current_convert_strokes_to_path (TexTextGuiTK.base s)) in
    (match TexTextGuiTK._convert_callback s args with
     | None => Ret tt
     | Some error => Raise error
     end, TexTextGuiTK.emit (TexTextGuiTK.Convert args) s).
Proof.
  unfold TexTextGuiTK.call_convert. cbn zeta.
  destruct (TexTextGuiTK._convert_callback s _); reflexivity.
Qed.

(** [show_error_dialog] opens one more window, whose first text view holds
    the message and [str(exception)]; it touches neither the attributes
    nor the log, also when decoding the captured output raises. *)
Lemma tk_show_error_dialog_spec title message_text e s r s' :
  TexTextGuiTK.show_error_dialog title message_text e s = (r, s') ->
  TexTextGuiTK.base s' = TexTextGuiTK.base s
  /\ TexTextGuiTK.log s' = TexTextGuiTK.log s
  /\ TexTextGuiTK._text_box s' = TexTextGuiTK._text_box s
  /\ exists views button,
       TexTextGuiTK.err_dialogs s'
       = TexTextGuiTK.mk_dlg ((message_text, exn_str e) :: views) button
         :: TexTextGuiTK.err_dialogs s
       /\ (is_TexTextCommandFailed e = false -> views = [])
       /\ (is_TexTextCommandFailed e = false \/ output_decodes e ->
           r = Ret tt /\ button = true).
Proof.
  unfold TexTextGuiTK.show_error_dialog, TexTextGuiTK.add_textview,
    TexTextGuiTK.bytes_decode, bind, modify, ret, raise, lift_opt.
  destruct s; cbn.
  destruct (is_TexTextCommandFailed e) eqn:Hcls.
  - destruct (bytes_truth (exn_stdout e)) eqn:Hto.
    + destruct (exn_stdout e) as [out|] eqn:Hout; [|discriminate Hto].
      destruct (decode_utf8 out) as [o|] eqn:Hdo; cbn.
      * destruct (bytes_truth (exn_stderr e)) eqn:Hte.
        -- destruct (exn_stderr e) as [err|] eqn:Herr; [|discriminate Hte].
           destruct (decode_utf8 err) as [o'|] eqn:Hde; cbn;
             intros [= <- <-]; cbn; repeat split; eexists _, _;
             (split; [reflexivity|split; [discriminate|]]).
           ++ intros _. split; reflexivity.
           ++ intros [Hf|Hd]; [discriminate|].
              destruct (Hd (Some err)) as (x & [= <-] & Hsome); auto.
              rewrite Hde in Hsome. now destruct Hsome.
        -- cbn. intros [= <- <-]; cbn; repeat split; eexists _, _;
             (split; [reflexivity|split; [discriminate|]]).
           intros _. split; reflexivity.
      * intros [= <- <-]; cbn; repeat split; eexists _, _;
          (split; [reflexivity|split; [discriminate|]]).
        intros [Hf|Hd]; [discriminate|].
        destruct (Hd (Some out)) as (x & [= <-] & Hsome); auto.
        rewrite Hdo in Hsome. now destruct Hsome.
    + cbn. destruct (bytes_truth (exn_stderr e)) eqn:Hte.
      * destruct (exn_stderr e) as [err|] eqn:Herr; [|discriminate Hte].
        destruct (decode_utf8 err) as [o'|] eqn:Hde; cbn;
          intros [= <- <-]; cbn; repeat split; eexists _, _;
          (split; [reflexivity|split; [discriminate|]]).
        -- intros _. split; reflexivity.
        -- intros [Hf|Hd]; [discriminate|].
           destruct (Hd (Some err)) as (x & [= <-] & Hsome); auto.
           rewrite Hde in Hsome. now destruct Hsome.
      * cbn. intros [= <- <-]; cbn; repeat split; eexists _, _;
          (split; [reflexivity|split; [discriminate|]]).
        intros _. split; reflexivity.
  - cbn. intros [= <- <-]; cbn; repeat split; eexists _, _;
      (split; [reflexivity|split; [reflexivity|]]).
    intros _. split; reflexivity.
Qed.

Lemma tk_emit_base ev s : TexTextGuiTK.base (TexTextGuiTK.emit ev s) = TexTextGuiTK.base s.
Proof. reflexivity. Qed.

Lemma tk_emit_log ev s :
  TexTextGuiTK.log (TexTextGuiTK.emit ev s) = (TexTextGuiTK.log s ++ [ev])%list.
Proof. reflexivity. Qed.

Lemma tk_convert_and_quit_returns s :
  let args := TexTextGuiTK.mk_args
                (TexTextGuiBase.text (TexTextGuiTK.base s))
                (TexTextGuiBase.preamble_file (TexTextGuiTK.base s))
                (TexTextGuiBase.global_scale_factor (TexTextGuiTK.base s))
                (TexTextGuiTK._alignment_tk_str s) (TexTextGuiTK._tex_command_tk_str s)
                (TexTextGuiBase.current_convert_strokes_to_path (TexTextGuiTK.base s)) in
  TexTextGuiTK._convert_callback s args = None ->
  TexTextGuiTK.convert_and_quit s
  = (Ret tt, TexTextGuiTK.emit TexTextGuiTK.Quit
               (TexTextGuiTK.emit (TexTextGuiTK.Convert args) s)).
Proof.
  intros args Hcb. unfold TexTextGuiTK.convert_and_quit, try_except.
  rewrite tk_call_convert. cbn zeta. fold args. rewrite Hcb. reflexivity.
Qed.

Lemma tk_convert_and_quit_raises s e :
  let args := TexTextGuiTK.mk_args
                (TexTextGuiBase.text (TexTextGuiTK.base s))
                (TexTextGuiBase.preamble_file (TexTextGuiTK.base s))
                (TexTextGuiBase.global_scale_factor (TexTextGuiTK.base s))
                (TexTextGuiTK._alignment_tk_str s) (TexTextGuiTK._tex_command_tk_str s)
                (TexTextGuiBase.current_convert_strokes_to_path (TexTextGuiTK.base s)) in
  TexTextGuiTK._convert_callback s args = Some e ->
  TexTextGuiTK.convert_and_quit s
  = if is_Exception e
    then TexTextGuiTK.show_error_dialog "TexText Error"
           "Error occurred while converting text from Latex to SVG:" e
           (TexTextGuiTK.emit (TexTextGuiTK.Convert args) s)
    else (Raise e, TexTextGuiTK.emit (TexTextGuiTK.Convert args) s).
Proof.
  intros args Hcb. unfold TexTextGuiTK.convert_and_quit, try_except.
  rewrite tk_call_convert. cbn zeta. fold args. rewrite Hcb. reflexivity.
Qed.

(** Whatever the callback does, the second half of [cb_ok] leaves the
    attributes as they are and logs the call first. *)
Lemma tk_convert_and_quit_spec s r s' :
  TexTextGuiTK.convert_and_quit s = (r, s') ->
  let args := TexTextGuiTK.mk_args
                (TexTextGuiBase.text (TexTextGuiTK.base s))
                (TexTextGuiBase.preamble_file (TexTextGuiTK.base s))
                (TexTextGuiBase.global_scale_factor (TexTextGuiTK.base s))
                (TexTextGuiTK._alignment_tk_str s) (TexTextGuiTK._tex_command_tk_str s)
                (TexTextGuiBase.current_convert_strokes_to_path (TexTextGuiTK.base s)) in
  TexTextGuiTK.base s' = TexTextGuiTK.base s
  /\ TexTextGuiTK.log s'
     = (TexTextGuiTK.log s ++ TexTextGuiTK.Convert args
          :: (match TexTextGuiTK._convert_callback s args with
              | None => [TexTextGuiTK.Quit]
              | Some _ => []
              end))%list.
Proof.
  intros Hrun args.
  destruct (TexTextGuiTK._convert_callback s args) as [e|] eqn:Hcb.
  - rewrite (tk_convert_and_quit_raises s e Hcb) in Hrun. fold args in Hrun.
    destruct (is_Exception e).
    + apply tk_show_error_dialog_spec in Hrun as (Hb & Hl & _).
      rewrite Hb, Hl, tk_emit_base, tk_emit_log. auto.
    + injection Hrun as <- <-. rewrite tk_emit_base, tk_emit_log. auto.
  - rewrite (tk_convert_and_quit_returns s Hcb) in Hrun. fold args in Hrun.
    injection Hrun as <- <-. rewrite !tk_emit_base, !tk_emit_log, <- app_assoc. auto.
Qed.
(** ** The GTK dialog: cb_ok *)

Lemma gtk_emit_log ev s :
  TexTextGuiGTK.log (TexTextGuiGTK.emit ev s) = (TexTextGuiGTK.log s ++ [ev])%list.
Proof. reflexivity. Qed.

(** [show_error_dialog] needs [self._window]; with it, the dialog it
    builds has [str(exception)] as its first section, and is run unless
    decoding the captured output raises. *)
Lemma gtk_show_error_dialog_spec title message_text e s r s' :
  TexTextGuiGTK.show_error_dialog title message_text e s = (r, s') ->
  TexTextGuiGTK.base s' = TexTextGuiGTK.base s
  /\ TexTextGuiGTK.log s' = TexTextGuiGTK.log s
  /\ match TexTextGuiGTK._window s with
     | None => TexTextGuiGTK.dialogs s' = TexTextGuiGTK.dialogs s
               /\ exists e', r = Raise e' /\ exn_cls e' = AttributeError
     | Some _ =>
         exists sections run,
           TexTextGuiGTK.dialogs s'
           = TexTextGuiGTK.mk_dialog title ("<b>" ++ message_text ++ "</b>")
               ((None, exn_str e) :: sections) run
             :: TexTextGuiGTK.dialogs s
           /\ (is_TexTextCommandFailed e = false -> sections = [])
           /\ (is_TexTextCommandFailed e = false \/ output_decodes e ->
               r = Ret tt /\ run = true)
           /\ (run = true -> r = Ret tt)
     end.
Proof.
  unfold TexTextGuiGTK.show_error_dialog, TexTextGuiGTK.add_section,
    TexTextGuiGTK.bytes_decode, TexTextGuiGTK.getattr, bind, get, modify, ret, raise,
    lift_opt.
  destruct s as [b cb sb pw sa cs tc ac [w|] ds lg]; cbn.
  2: { intros [= <- <-]. cbn. repeat split. eexists. split; reflexivity. }
  destruct (is_TexTextCommandFailed e) eqn:Hcls.
  - destruct (bytes_truth (exn_stdout e)) eqn:Hto.
    + destruct (exn_stdout e) as [out|] eqn:Hout; [|discriminate Hto].
      destruct (decode_utf8 out) as [o|] eqn:Hdo; cbn.
      * destruct (bytes_truth (exn_stderr e)) eqn:Hte.
        -- destruct (exn_stderr e) as [err|] eqn:Herr; [|discriminate Hte].
           destruct (decode_utf8 err) as [o'|] eqn:Hde; cbn;
             intros [= <- <-]; cbn; repeat split; eexists _, _;
             (split; [reflexivity|split; [discriminate|]]).
           ++ split; [intros _; split|]; reflexivity.
           ++ split; [|discriminate]. intros [Hf|Hd]; [discriminate|].
              destruct (Hd (Some err)) as (x & [= <-] & Hsome); auto.
              rewrite Hde in Hsome. now destruct Hsome.
        -- cbn. intros [= <- <-]; cbn; repeat split; eexists _, _;
             (split; [reflexivity|split; [discriminate|]]).
           split; [intros _; split|]; reflexivity.
      * intros [= <- <-]; cbn; repeat split; eexists _, _;
          (split; [reflexivity|split; [discriminate|]]).
        split; [|discriminate]. intros [Hf|Hd]; [discriminate|].
        destruct (Hd (Some out)) as (x & [= <-] & Hsome); auto.
        rewrite Hdo in Hsome. now destruct Hsome.
    + cbn. destruct (bytes_truth (exn_stderr e)) eqn:Hte.
      * destruct (exn_stderr e) as [err|] eqn:Herr; [|discriminate Hte].
        destruct (decode_utf8 err) as [o'|] eqn:Hde; cbn;
          intros [= <- <-]; cbn; repeat split; eexists _, _;
          (split; [reflexivity|split; [discriminate|]]).
        -- split; [intros _; split|]; reflexivity.
        -- split; [|discriminate]. intros [Hf|Hd]; [discriminate|].
           destruct (Hd (Some err)) as (x & [= <-] & Hsome); auto.
           rewrite Hde in Hsome. now destruct Hsome.
      * cbn. intros [= <- <-]; cbn; repeat split; eexists _, _;
          (split; [reflexivity|split; [discriminate|]]).
        split; [intros _; split|]; reflexivity.
  - cbn. intros [= <- <-]; cbn; repeat split; eexists _, _;
      (split; [reflexivity|split; [reflexivity|]]).
    split; [intros _; split|]; reflexivity.
Qed.

Lemma app_cons_not_self {A} (l : list A) x rest : l <> (l ++ x :: rest)%list.
Proof.
  intros Heq. rewrite <- (app_nil_r l) in Heq at 1.
  apply app_inv_head in Heq. discriminate.
Qed.

Lemma tk_stored_args s f :
  TexTextGuiTK.mk_args
    (TexTextGuiBase.text (TexTextGuiTK.base (tk_stored s f)))
    (TexTextGuiBase.preamble_file (TexTextGuiTK.base (tk_stored s f)))
    (TexTextGuiBase.global_scale_factor (TexTextGuiTK.base (tk_stored s f)))
    (TexTextGuiTK._alignment_tk_str (tk_stored s f))
    (TexTextGuiTK._tex_command_tk_str (tk_stored s f))
    (TexTextGuiBase.current_convert_strokes_to_path (TexTextGuiTK.base (tk_stored s f)))
  = tk_args_of s f.
Proof. destruct s; reflexivity. Qed.

(** An exception of the callback that is not an [Exception]
    ([SystemExit], [KeyboardInterrupt], [GeneratorExit]) passes through
    [cb_ok] of the Tk dialog; the window stays in this case too. *)
Lemma tk_cb_ok_passes_base_exception s f e :
  py_float (TexTextGuiTK._scale s) = Some f ->
  TexTextGuiTK._convert_callback s (tk_args_of s f) = Some e ->
  is_Exception e = false ->
  exists s',
    TexTextGuiTK.cb_ok s = (Raise e, s')
    /\ TexTextGuiTK.log s'
       = (TexTextGuiTK.log s ++ [TexTextGuiTK.Convert (tk_args_of s f)])%list
    /\ TexTextGuiTK.err_dialogs s' = TexTextGuiTK.err_dialogs s.
Proof.
  intros Hscale Hcb Hexc. rewrite (tk_cb_ok_valid s f Hscale).
  assert (Hcb' : TexTextGuiTK._convert_callback (tk_stored s f)
                   (TexTextGuiTK.mk_args
                      (TexTextGuiBase.text (TexTextGuiTK.base (tk_stored s f)))
                      (TexTextGuiBase.preamble_file (TexTextGuiTK.base (tk_stored s f)))
                      (TexTextGuiBase.global_scale_factor
                         (TexTextGuiTK.base (tk_stored s f)))
                      (TexTextGuiTK._alignment_tk_str (tk_stored s f))
                      (TexTextGuiTK._tex_command_tk_str (tk_stored s f))
                      (TexTextGuiBase.current_convert_strokes_to_path
                         (TexTextGuiTK.base (tk_stored s f)))) = Some e)
    by (rewrite tk_stored_args; destruct s; exact Hcb).
  rewrite (tk_convert_and_quit_raises _ e Hcb'), Hexc, tk_stored_args.
  eexists. split; [reflexivity|]. destruct s; split; reflexivity.
Qed.

(** The GTK object as the constructor and [show] leave it: [cb_ok] stops
    at its first statement, the read of [self._source_buffer]. *)
Lemma gtk_cb_ok_after_show TOOLKIT pango glade callback version node config window g :
  TexTextGuiGTK.show TOOLKIT pango glade callback
    (TexTextGuiGTK.__init__ version node config) = (Ret window, g) ->
  exists e,
    TexTextGuiGTK.cb_ok g = (Raise e, g) /\ exn_cls e = AttributeError.
Proof.
  unfold TexTextGuiGTK.show. rewrite bind_modify, bind_get.
  intros Hshow. inv_step. unfold TexTextGuiGTK.run_on in Hstep.
  destruct (bind _ _ glade) as [[u|e] b]; [|discriminate Hstep].
  injection Hstep as <- <-. inv_step.
  unfold TexTextGuiGTK.cb_ok. rewrite bind_get. cbn.
  eexists. split; reflexivity.
Qed.

(** Nor does [show_error_dialog] get anywhere without [self._window]. *)
Lemma gtk_show_error_dialog_after_init version node config title message_text e :
  exists e',
    TexTextGuiGTK.show_error_dialog title message_text e
      (TexTextGuiGTK.__init__ version node config)
    = (Raise e', TexTextGuiGTK.__init__ version node config)
    /\ exn_cls e' = AttributeError.
Proof. eexists. split; reflexivity. Qed.
(** ** The claims on [cb_ok] *)

(** C2. When the content of the scale field is not a valid float,
    [cb_ok] of the Tk dialog returns after showing the modal box "Scale
    factor error": that box is the only thing it adds to the log, so the
    convert callback is not called and the main loop is not left, and the
    object is otherwise unchanged: text, preamble file, stroke-to-path
    flag (and the global scale factor) keep their values. *)
Theorem cb_ok_malformed_scale s :
  py_float (TexTextGuiTK._scale s) = None ->
  exists s',
    TexTextGuiTK.cb_ok s = (Ret tt, s')
    /\ TexTextGuiTK.log s'
       = (TexTextGuiTK.log s
          ++ [TexTextGuiTK.ShowError "Scale factor error"
                "Please enter a valid floating point number for the scale factor!"])%list
    /\ TexTextGuiTK.base s' = TexTextGuiTK.base s
    /\ TexTextGuiBase.text (TexTextGuiTK.base s') = TexTextGuiBase.text (TexTextGuiTK.base s)
    /\ TexTextGuiBase.preamble_file (TexTextGuiTK.base s')
       = TexTextGuiBase.preamble_file (TexTextGuiTK.base s)
    /\ TexTextGuiBase.current_convert_strokes_to_path (TexTextGuiTK.base s')
       = TexTextGuiBase.current_convert_strokes_to_path (TexTextGuiTK.base s)
    /\ TexTextGuiBase.global_scale_factor (TexTextGuiTK.base s')
       = TexTextGuiBase.global_scale_factor (TexTextGuiTK.base s)
    /\ TexTextGuiTK._scale s' = TexTextGuiTK._scale s
    /\ TexTextGuiTK._text_box s' = TexTextGuiTK._text_box s
    /\ TexTextGuiTK._preamble s' = TexTextGuiTK._preamble s
    /\ TexTextGuiTK._convert_strokes_to_path s' = TexTextGuiTK._convert_strokes_to_path s
    /\ TexTextGuiTK.err_dialogs s' = TexTextGuiTK.err_dialogs s.
Proof.
  intros Hscale. eexists. split; [now apply tk_cb_ok_invalid|].
  repeat split.
Qed.

(** C5. When the content of the scale field is a valid float, [cb_ok] of
    the Tk dialog calls the convert callback once, and the scale it
    passes is the value [float()] gives for that content. *)
Theorem cb_ok_passes_parsed_scale s f :
  py_float (TexTextGuiTK._scale s) = Some f ->
  exists r s' rest,
    TexTextGuiTK.cb_ok s = (r, s')
    /\ TexTextGuiTK.log s'
       = (TexTextGuiTK.log s ++ TexTextGuiTK.Convert (tk_args_of s f) :: rest)%list
    /\ TexTextGuiTK.arg_scale (tk_args_of s f) = Atom (AFloat f)
    /\ (rest = [] \/ rest = [TexTextGuiTK.Quit]).
Proof.
  intros Hscale. rewrite (tk_cb_ok_valid s f Hscale).
  destruct (TexTextGuiTK.convert_and_quit (tk_stored s f)) as [r s'] eqn:Hrun.
  apply tk_convert_and_quit_spec in Hrun as [_ Hlog]. cbn zeta in Hlog.
  rewrite tk_stored_args in Hlog.
  eexists r, s', _. split; [reflexivity|]. split; [exact Hlog|]. split; [reflexivity|].
  destruct (TexTextGuiTK._convert_callback _ _); auto.
Qed.

(** C9. Once the scale field has parsed, [cb_ok] of the Tk dialog has
    overwritten [global_scale_factor], [text], [preamble_file] and
    [current_convert_strokes_to_path] with the values of the widgets when
    it comes to the call of the callback (the rest of [cb_ok] runs from
    the object [tk_stored s f], whose log is still that of [s]), the
    callback gets these values, and they are the values of the object
    when [cb_ok] ends, whether the callback returned or raised. *)
Theorem cb_ok_stores_fields_before_convert s f :
  py_float (TexTextGuiTK._scale s) = Some f ->
  let s1 := tk_stored s f in
  (TexTextGuiBase.text (TexTextGuiTK.base s1)
   = TexTextGuiTK.text_get_1_END (TexTextGuiTK._text_box s)
   /\ TexTextGuiBase.preamble_file (TexTextGuiTK.base s1) = TexTextGuiTK._preamble s
   /\ TexTextGuiBase.global_scale_factor (TexTextGuiTK.base s1) = Atom (AFloat f)
   /\ TexTextGuiBase.current_convert_strokes_to_path (TexTextGuiTK.base s1)
      = TexTextGuiTK._convert_strokes_to_path s)
  /\ TexTextGuiTK.log s1 = TexTextGuiTK.log s
  /\ TexTextGuiTK.cb_ok s = TexTextGuiTK.convert_and_quit s1
  /\ exists r s' rest,
       TexTextGuiTK.cb_ok s = (r, s')
       /\ TexTextGuiTK.log s'
          = (TexTextGuiTK.log s ++ TexTextGuiTK.Convert (tk_args_of s f) :: rest)%list
       /\ TexTextGuiTK.base s' = TexTextGuiTK.base s1
       /\ TexTextGuiBase.text (TexTextGuiTK.base s')
          = TexTextGuiTK.text_get_1_END (TexTextGuiTK._text_box s)
       /\ TexTextGuiBase.preamble_file (TexTextGuiTK.base s') = TexTextGuiTK._preamble s
       /\ TexTextGuiBase.global_scale_factor (TexTextGuiTK.base s') = Atom (AFloat f)
       /\ TexTextGuiBase.current_convert_strokes_to_path (TexTextGuiTK.base s')
          = TexTextGuiTK._convert_strokes_to_path s.
Proof.
  intros Hscale s1.
  assert (Hfields :
    TexTextGuiBase.text (TexTextGuiTK.base s1)
    = TexTextGuiTK.text_get_1_END (TexTextGuiTK._text_box s)
    /\ TexTextGuiBase.preamble_file (TexTextGuiTK.base s1) = TexTextGuiTK._preamble s
    /\ TexTextGuiBase.global_scale_factor (TexTextGuiTK.base s1) = Atom (AFloat f)
    /\ TexTextGuiBase.current_convert_strokes_to_path (TexTextGuiTK.base s1)
       = TexTextGuiTK._convert_strokes_to_path s)
    by (subst s1; destruct s; repeat split).
  split; [exact Hfields|].
  split; [subst s1; destruct s; reflexivity|].
  split; [now apply tk_cb_ok_valid|].
  rewrite (tk_cb_ok_valid s f Hscale). fold s1.
  destruct (TexTextGuiTK.convert_and_quit s1) as [r s'] eqn:Hrun.
  pose proof (tk_convert_and_quit_spec _ _ _ Hrun) as [Hbase Hlog].
  cbn zeta in Hlog. subst s1. rewrite tk_stored_args in Hlog.
  exists r, s', (match TexTextGuiTK._convert_callback (tk_stored s f) (tk_args_of s f) with
                 | None => [TexTextGuiTK.Quit]
                 | Some _ => []
                 end).
  split; [reflexivity|]. split; [destruct s; exact Hlog|]. split; [exact Hbase|].
  rewrite Hbase. exact Hfields.
Qed.

(** C3. In the Tk dialog, when the convert callback [cb_ok] calls raises
    an exception (an instance of [Exception], which is what the handler
    names), the handler takes it: the call of the callback is all the log
    gains, so [self._frame.quit()] is not reached and the window stays,
    and the error dialog that is opened has [str(exception)], as it is,
    as the content of its first text view; [cb_ok] then returns, unless
    decoding the captured output of a [TexTextCommandFailed] raises.  In
    the GTK dialog [cb_ok] has the same [try] statement, and it is out
    of reach: on the object the constructor and [show] leave, with the
    callback stored, [cb_ok] raises [AttributeError] where it reads
    [self._source_buffer], before it calls the callback, and leaves the
    object as it is (nothing logged, no dialog); and
    [show_error_dialog], whatever it is given, raises [AttributeError]
    where it reads [self._window] and opens no dialog.  The statements
    that assign these attributes are comments. *)
Theorem cb_ok_callback_raises :
  (forall s f e,
     py_float (TexTextGuiTK._scale s) = Some f ->
     TexTextGuiTK._convert_callback s (tk_args_of s f) = Some e ->
     is_Exception e = true ->
     exists r s' views button,
       TexTextGuiTK.cb_ok s = (r, s')
       /\ TexTextGuiTK.log s'
          = (TexTextGuiTK.log s ++ [TexTextGuiTK.Convert (tk_args_of s f)])%list
       /\ TexTextGuiTK.err_dialogs s'
          = TexTextGuiTK.mk_dlg
              (("Error occurred while converting text from Latex to SVG:", exn_str e)
               :: views) button
            :: TexTextGuiTK.err_dialogs s
       /\ (is_TexTextCommandFailed e = false -> views = [])
       /\ (is_TexTextCommandFailed e = false \/ output_decodes e ->
           r = Ret tt /\ button = true))
  /\ (forall TOOLKIT pango glade callback version node config window g,
        TexTextGuiGTK.show TOOLKIT pango glade callback
          (TexTextGuiGTK.__init__ version node config) = (Ret window, g) ->
        TexTextGuiGTK._convert_callback g = Some callback
        /\ TexTextGuiGTK.log g = []
        /\ TexTextGuiGTK.dialogs g = []
        /\ (exists e', TexTextGuiGTK.cb_ok g = (Raise e', g) /\ exn_cls e' = AttributeError)
        /\ (forall title message_text e,
              exists e',
                TexTextGuiGTK.show_error_dialog title message_text e g = (Raise e', g)
                /\ exn_cls e' = AttributeError)).
Proof.
  split.
  - intros s f e Hscale Hcb Hexc.
    rewrite (tk_cb_ok_valid s f Hscale).
    assert (Hcb' : TexTextGuiTK._convert_callback (tk_stored s f)
                     (TexTextGuiTK.mk_args
                        (TexTextGuiBase.text (TexTextGuiTK.base (tk_stored s f)))
                        (TexTextGuiBase.preamble_file (TexTextGuiTK.base (tk_stored s f)))
                        (TexTextGuiBase.global_scale_factor
                           (TexTextGuiTK.base (tk_stored s f)))
                        (TexTextGuiTK._alignment_tk_str (tk_stored s f))
                        (TexTextGuiTK._tex_command_tk_str (tk_stored s f))
                        (TexTextGuiBase.current_convert_strokes_to_path
                           (TexTextGuiTK.base (tk_stored s f)))) = Some e)
      by (rewrite tk_stored_args; destruct s; exact Hcb).
    rewrite (tk_convert_and_quit_raises _ e Hcb'), Hexc, tk_stored_args.
    destruct (TexTextGuiTK.show_error_dialog _ _ e _) as [r s'] eqn:Hdlg.
    apply tk_show_error_dialog_spec in Hdlg
      as (_ & Hlog & _ & views & button & Hd & Hviews & Hret).
    exists r, s', views, button. split; [reflexivity|].
    split; [rewrite Hlog; destruct s; reflexivity|].
    split; [rewrite Hd; destruct s; reflexivity|]. auto.
  - intros TOOLKIT pango glade callback version node config window g Hshow.
    pose proof (gtk_cb_ok_after_show _ _ _ _ _ _ _ _ _ Hshow) as Hok.
    unfold TexTextGuiGTK.show in Hshow. rewrite bind_modify, bind_get in Hshow.
    inv_step. unfold TexTextGuiGTK.run_on in Hstep.
    destruct (bind _ _ glade) as [[u|e0] b]; [|discriminate Hstep].
    injection Hstep as <- <-. inv_step.
    split; [reflexivity|]. split; [reflexivity|]. split; [reflexivity|].
    split; [exact Hok|].
    intros title message_text e. eexists. split; reflexivity.
Qed.

(** ** cb_cancel *)

(** C4. [cb_cancel] of the Tk dialog raises [SystemExit(1)]; [cb_cancel]
    of the GTK dialog raises [AttributeError], because the method it
    calls does not exist; neither touches the object, so neither calls
    the convert callback, and the GTK one does not call
    [Gtk.main_quit()], which the handler [on_window_delete] does. *)
Theorem cb_cancel_behaviour :
  (forall s, TexTextGuiTK.cb_cancel s = (Raise (exn (SystemExit 1) "1"), s))
  /\ (forall g,
        TexTextGuiGTK.cb_cancel g
        = (Raise (exn AttributeError
                    "'TexTextGuiGTK' object has no attribute 'window_deleted_cb'"), g))
  /\ (forall g,
        TexTextGuiGTK.on_window_delete g
        = (Ret false, TexTextGuiGTK.emit TexTextGuiGTK.Quit g)).
Proof. repeat split. Qed.

(** ** The word-wrap control *)

(** C6. With the ["gui"] sub-section in place (the constructor sees to
    it), a click on the word-wrap check button of the Tk dialog flips its
    variable and sets the wrap mode of the text box and
    [config["gui"]["word_wrap"]] from the new value: [WORD] and [True],
    or [NONE] and [False].  [word_wrap_toggled_cb] of the GTK dialog does
    the same to the source view and the store from [action.get_active()]. *)
Theorem word_wrap_toggle :
  (forall s d,
     TexTextGuiBase._config (TexTextGuiTK.base s) !! "gui" = Some (Dict d) ->
     let new := negb (TexTextGuiTK._word_wrap_tkval s) in
     exists s',
       TexTextGuiTK.toggle_word_wrap s = (Ret tt, s')
       /\ TexTextGuiTK._word_wrap_tkval s' = new
       /\ TexTextGuiTK.txt_wrap (TexTextGuiTK._text_box s') = wrap_of new
       /\ TexTextGuiTK.txt_chars (TexTextGuiTK._text_box s')
          = TexTextGuiTK.txt_chars (TexTextGuiTK._text_box s)
       /\ TexTextGuiBase._config (TexTextGuiTK.base s')
          = <["gui" := Dict (<["word_wrap" := ABool new]> d)]>
              (TexTextGuiBase._config (TexTextGuiTK.base s))
       /\ gui_get (TexTextGuiBase._config (TexTextGuiTK.base s')) "word_wrap"
            (ABool TexTextGuiBase.DEFAULT_WORDWRAP) tt
          = (Ret (ABool new), tt))
  /\ (forall g view active d,
        TexTextGuiBase._config (TexTextGuiGTK.base g) !! "gui" = Some (Dict d) ->
        exists g' view',
          TexTextGuiGTK.word_wrap_toggled_cb active (g, view) = (Ret tt, (g', view'))
          /\ TexTextGuiGTK.sv_wrap_mode view' = wrap_of active
          /\ TexTextGuiBase._config (TexTextGuiGTK.base g')
             = <["gui" := Dict (<["word_wrap" := ABool active]> d)]>
                 (TexTextGuiBase._config (TexTextGuiGTK.base g))
          /\ gui_get (TexTextGuiBase._config (TexTextGuiGTK.base g')) "word_wrap"
               (ABool TexTextGuiBase.DEFAULT_WORDWRAP) tt
             = (Ret (ABool active), tt)).
Proof.
  split.
  - intros s d Hgui new.
    unfold TexTextGuiTK.toggle_word_wrap, TexTextGuiTK.cb_word_wrap.
    rewrite !bind_modify, bind_get.
    destruct s as [b cb pre st cmd rs sc rb gb al ars ww tb top ds lg].
    cbn in Hgui |- *. unfold bind. rewrite (gui_set_dict _ d _ _ _ Hgui).
    eexists. split; [reflexivity|]. cbn.
    repeat split. unfold TexTextGuiBase.set_config. cbn.
    erewrite gui_get_dict by apply lookup_insert_eq.
    now rewrite lookup_insert_eq.
  - intros g view active d Hgui.
    unfold TexTextGuiGTK.word_wrap_toggled_cb.
    rewrite !bind_modify, bind_get. cbn [fst].
    unfold bind. rewrite (gui_set_dict _ d _ _ _ Hgui).
    eexists _, _. split; [reflexivity|].
    destruct g; cbn. repeat split.
    erewrite gui_get_dict by apply lookup_insert_eq.
    now rewrite lookup_insert_eq.
Qed.

(** The sub-section is there while the Tk dialog is up: [show] reads it,
    and [cb_ok] does not touch the store. *)
Lemma tk_show_gui_section callback self self' w :
  TexTextGuiTK.show callback self = (Ret w, self') ->
  exists d, TexTextGuiBase._config (TexTextGuiTK.base w) !! "gui" = Some (Dict d).
Proof.
  intros Hshow. apply tk_show_Ret_inv in Hshow.
  destruct Hshow as (_ & Hb & Hrest). rewrite Hb.
  repeat (destruct Hrest as [_ Hrest]). exact Hrest.
Qed.

(** ** The window for a node without text *)

(** C7. In the window [show] of the Tk dialog builds, the button "Reset"
    and the nine radio buttons of the alignment are [DISABLED] when the
    text of the node is empty and [NORMAL] otherwise; in the window
    [create_window] of the GTK dialog builds, [btn_scalereset] and
    [cmb_align] are sensitive exactly when the text is not empty. *)
Theorem empty_text_disables_alignment_and_reset :
  (forall version node config callback w self',
     TexTextGuiTK.show callback (TexTextGuiBase.__init__ version node config)
     = (Ret w, self') ->
     let state := if String.eqb (md_text node) ""
                  then TexTextGuiTK.DISABLED else TexTextGuiTK.NORMAL in
     TexTextGuiTK.btn_state (TexTextGuiTK._reset_button w) = state
     /\ length (TexTextGuiTK.alignment_radios w) = 9%nat
     /\ (forall rb, rb ∈ TexTextGuiTK.alignment_radios w -> TexTextGuiTK.rb_state rb = state))
  /\ (forall version node config TOOLKIT pango glade window,
        TexTextGuiGTK.create_window TOOLKIT pango
          (TexTextGuiGTK.__init__ version node config) glade = (Ret tt, window) ->
        exists reset align,
          window !! "btn_scalereset" = Some reset
          /\ TexTextGuiGTK.w_sensitive reset = negb (String.eqb (md_text node) "")
          /\ window !! "cmb_align" = Some align
          /\ TexTextGuiGTK.w_sensitive align = negb (String.eqb (md_text node) "")).
Proof.
  split.
  - intros version node config callback w self' Hshow state.
    apply tk_show_Ret_inv in Hshow
      as (_ & _ & _ & _ & _ & _ & _ & Hreset & _ & Hradios & _).
    rewrite init_text in Hreset, Hradios.
    split; [exact Hreset|]. rewrite Hradios. split; [reflexivity|].
    intros rb Hin. apply list_elem_of_fmap in Hin as (ind & -> & _). reflexivity.
  - intros version node config TOOLKIT pango glade window Hcw.
    apply create_window_Ret_inv in Hcw. cbn zeta in Hcw.
    destruct Hcw as (reset & align & _ & Hr & Hrs & Ha & Has & _).
    cbn [TexTextGuiGTK.__init__ TexTextGuiGTK.base] in Hrs, Has.
    rewrite init_text in Hrs, Has. exists reset, align. auto.
Qed.

(** ** The selectors *)

(** C1 (amended). The constructor replaces a conversion command that is
    not one of the three tex commands by the first, ["pdflatex"], and
    keeps one that is; the alignment it takes over as it is stored.  So
    the conversion-command selector of either window holds one of the
    three commands; the alignment selector of the Tk window holds the
    stored alignment, which is one of the nine labels when the stored
    one is, and the GTK window, when [create_window] builds it, has the
    stored alignment selected by its index among the nine labels. *)
Theorem constructor_selector_defaults version node config :
  let self := TexTextGuiBase.__init__ version node config in
  TexTextGuiBase.current_texcmd self ∈ TexTextGuiBase.TEX_COMMANDS
  /\ (md_tex_command node ∈ TexTextGuiBase.TEX_COMMANDS ->
      TexTextGuiBase.current_texcmd self = md_tex_command node)
  /\ (md_tex_command node ∉ TexTextGuiBase.TEX_COMMANDS ->
      TexTextGuiBase.current_texcmd self = "pdflatex")
  /\ TexTextGuiBase.current_alignment self = md_alignment node
  /\ (forall callback w self',
        TexTextGuiTK.show callback self = (Ret w, self') ->
        TexTextGuiTK._tex_command_tk_str w ∈ TexTextGuiBase.TEX_COMMANDS
        /\ TexTextGuiTK.rb_value <$> TexTextGuiTK.tex_command_radios w
           = TexTextGuiBase.TEX_COMMANDS
        /\ TexTextGuiTK._alignment_tk_str w = md_alignment node
        /\ (md_alignment node ∈ TexTextGuiBase.ALIGNMENT_LABELS ->
            TexTextGuiTK._alignment_tk_str w ∈ TexTextGuiBase.ALIGNMENT_LABELS)
        /\ (forall rb, rb ∈ TexTextGuiTK.alignment_radios w ->
              TexTextGuiTK.rb_value rb ∈ TexTextGuiBase.ALIGNMENT_LABELS))
  /\ (forall TOOLKIT pango glade window,
        TexTextGuiGTK.create_window TOOLKIT pango
          (TexTextGuiGTK.__init__ version node config) glade = (Ret tt, window) ->
        exists texcmd align,
          window !! "cmb_texcmd" = Some texcmd
          /\ (0 <= TexTextGuiGTK.w_active texcmd)%Z
          /\ TexTextGuiBase.TEX_COMMANDS !! Z.to_nat (TexTextGuiGTK.w_active texcmd)
             = Some (TexTextGuiBase.current_texcmd self)
          /\ window !! "cmb_align" = Some align
          /\ (0 <= TexTextGuiGTK.w_active align)%Z
          /\ TexTextGuiBase.ALIGNMENT_LABELS !! Z.to_nat (TexTextGuiGTK.w_active align)
             = Some (md_alignment node)).
Proof.
  intros self.
  assert (Hcmd : TexTextGuiBase.current_texcmd self ∈ TexTextGuiBase.TEX_COMMANDS).
  { subst self. rewrite init_current_texcmd.
    destruct (TexTextGuiBase.py_in _ _) eqn:Hin.
    - now apply py_in_true.
    - apply list_elem_of_here. }
  split; [exact Hcmd|]. split; [|split; [|split; [reflexivity|split]]].
  - intros Hin. subst self. rewrite init_current_texcmd.
    apply py_in_true in Hin. now rewrite Hin.
  - intros Hin. subst self. rewrite init_current_texcmd.
    apply py_in_false in Hin. now rewrite Hin.
  - intros callback w self' Hshow.
    apply tk_show_Ret_inv in Hshow
      as (_ & _ & _ & _ & _ & Htc & Htr & _ & Hal & Hradios & _).
    rewrite Htc, Htr, Hal, Hradios.
    split; [exact Hcmd|]. split; [reflexivity|]. split; [reflexivity|].
    split; [auto|].
    intros rb Hin. apply list_elem_of_fmap in Hin as (ind & -> & Hind). cbn.
    unfold TexTextGuiTK.alignment_index_list in Hind.
    unfold TexTextGuiBase.ALIGNMENT_LABELS.
    repeat (apply elem_of_cons in Hind as [->|Hind]; [cbn; repeat constructor|]).
    now apply elem_of_nil in Hind.
  - intros TOOLKIT pango glade window Hcw.
    apply create_window_Ret_inv in Hcw. cbn zeta in Hcw.
    destruct Hcw as (reset & align & texcmd & _ & _ & Ha & _ & Ha0 & Hal & Ht & Ht0 & Htl).
    exists texcmd, align. auto 10.
Qed.

(** ** The validation of the scale field *)

(** C8. A keystroke inserts or deletes a string that is not empty (Tk
    passes it as [%S]).  [validate_spinbox_input] accepts an edit
    exactly when the inserted or deleted string is empty, or the
    resulting content is empty, or the resulting content reads as a
    float: this holds for every edit; and every keystroke whose result is
    neither empty nor a float is rejected. *)
Theorem validate_spinbox_input_accepts d i P s S v V W :
  (TexTextGuiTK.validate_spinbox_input d i P s S v V W = true
   <-> S = "" \/ P = "" \/ is_Some (py_float P))
  /\ (S <> "" -> P <> "" -> py_float P = None ->
      TexTextGuiTK.validate_spinbox_input d i P s S v V W = false).
Proof.
  unfold TexTextGuiTK.validate_spinbox_input.
  destruct (String.eqb_spec S "") as [->|HS]; cbn.
  - split; [tauto|]. intros Hne. now destruct Hne.
  - destruct (String.eqb_spec P "") as [->|HP]; cbn.
    + split; [tauto|]. intros _ Hne. now destruct Hne.
    + destruct (py_float P) as [f|] eqn:Hf.
      * split; [|discriminate]. split; [eauto|reflexivity].
      * split; [|reflexivity]. split; [discriminate|].
        intros [?|[?|[? [=]]]]; contradiction.
Qed.
End Properties.

(** * The claims on the sample inputs *)

Section Runs.
#[local] Existing Instance Decimal.builtins.

Example tk_window_scale :
  TexTextGuiTK._scale (Sample.tk_window "2.5" Sample.callback_ok) = "2.5".
Proof. reflexivity. Qed.

Example tk_window_reset_button :
  TexTextGuiTK._reset_button (Sample.tk_window "2.5" Sample.callback_ok)
  = TexTextGuiTK.mk_button "Reset (1.500)" TexTextGuiTK.NORMAL.
Proof. reflexivity. Qed.

Example validate_spinbox_input_examples :
  TexTextGuiTK.validate_spinbox_input "1" "0" "1" "" "1" "key" "key" ".scale" = true
  /\ TexTextGuiTK.validate_spinbox_input "1" "1" "1." "1" "." "key" "key" ".scale" = true
  /\ TexTextGuiTK.validate_spinbox_input "1" "0" "-" "" "-" "key" "key" ".scale" = false
  /\ TexTextGuiTK.validate_spinbox_input "0" "0" "" "7" "7" "key" "key" ".scale" = true.
Proof. repeat split. Qed.

(** C10 at the empty store: the sub-section is created. *)
Lemma init_gui_section_witness :
  has_key Sample.config_empty "gui" = false
  /\ TexTextGuiBase._config
       (TexTextGuiBase.__init__ "1.8.1" Sample.node_new Sample.config_empty)
     = <["gui" := Dict ∅]> Sample.config_empty.
Proof.
  split; [reflexivity|].
  apply (init_gui_section "1.8.1" Sample.node_new Sample.config_empty). reflexivity.
Defined.

(** C2 with ["1e"] in the scale field. *)
Lemma cb_ok_malformed_scale_witness :
  py_float (TexTextGuiTK._scale (Sample.tk_window "1e" Sample.callback_ok)) = None
  /\ exists s',
       TexTextGuiTK.cb_ok (Sample.tk_window "1e" Sample.callback_ok) = (Ret tt, s')
       /\ TexTextGuiTK.log s'
          = [TexTextGuiTK.ShowError "Scale factor error"
               "Please enter a valid floating point number for the scale factor!"]
       /\ TexTextGuiBase.text (TexTextGuiTK.base s') = "$x^2$".
Proof.
  split; [reflexivity|].
  destruct (cb_ok_malformed_scale (Sample.tk_window "1e" Sample.callback_ok) eq_refl)
    as (s' & Hrun & Hlog & _ & Htext & _).
  exists s'. split; [exact Hrun|]. split; [exact Hlog|exact Htext].
Defined.

(** C5 with ["2.5"] in the scale field. *)
Lemma cb_ok_passes_parsed_scale_witness :
  py_float (TexTextGuiTK._scale (Sample.tk_window "2.5" Sample.callback_ok))
  = Some (Decimal.Finite false 25 (-1))
  /\ exists r s' rest,
       TexTextGuiTK.cb_ok (Sample.tk_window "2.5" Sample.callback_ok) = (r, s')
       /\ TexTextGuiTK.log s'
          = TexTextGuiTK.Convert
              (TexTextGuiTK.mk_args (String.append "$x^2$" TexTextGuiTK.newline)
                 "preamble.tex" (Atom (AFloat (Decimal.Finite false 25 (-1))))
                 "middle center" "lualatex" false)
            :: rest.
Proof.
  split; [reflexivity|].
  destruct (cb_ok_passes_parsed_scale (Sample.tk_window "2.5" Sample.callback_ok)
              (Decimal.Finite false 25 (-1)) eq_refl)
    as (r & s' & rest & Hrun & Hlog & _).
  exists r, s', rest. split; [exact Hrun|exact Hlog].
Defined.

(** C9 with ["2.5"] in the scale field and a callback that raises. *)
Lemma cb_ok_stores_fields_before_convert_witness :
  py_float (TexTextGuiTK._scale (Sample.tk_window "2.5" Sample.callback_fails))
  = Some (Decimal.Finite false 25 (-1))
  /\ exists r s',
       TexTextGuiTK.cb_ok (Sample.tk_window "2.5" Sample.callback_fails) = (r, s')
       /\ TexTextGuiBase.text (TexTextGuiTK.base s')
          = String.append "$x^2$" TexTextGuiTK.newline
       /\ TexTextGuiBase.global_scale_factor (TexTextGuiTK.base s')
          = Atom (AFloat (Decimal.Finite false 25 (-1))).
Proof.
  split; [reflexivity|].
  destruct (cb_ok_stores_fields_before_convert
              (Sample.tk_window "2.5" Sample.callback_fails)
              (Decimal.Finite false 25 (-1)) eq_refl)
    as (_ & _ & _ & r & s' & rest & Hrun & _ & _ & Htext & _ & Hscale & _).
  exists r, s'. split; [exact Hrun|]. split; [exact Htext|exact Hscale].
Defined.

(** C6 in the Tk window (word wrap is off when it opens) and for the GTK callback. *)
Lemma word_wrap_toggle_witness :
  (TexTextGuiBase._config (TexTextGuiTK.base (Sample.tk_window "1" Sample.callback_ok))
     !! "gui" = Some (Dict ∅)
   /\ exists s',
        TexTextGuiTK.toggle_word_wrap (Sample.tk_window "1" Sample.callback_ok)
        = (Ret tt, s')
        /\ TexTextGuiTK.txt_wrap (TexTextGuiTK._text_box s') = WORD
        /\ TexTextGuiBase._config (TexTextGuiTK.base s')
           = <["gui" := Dict (<["word_wrap" := ABool true]> ∅)]>
               (<["gui" := Dict ∅]> Sample.config_empty))
  /\ exists g' view',
       TexTextGuiGTK.word_wrap_toggled_cb false
         (TexTextGuiGTK.__init__ "1.8.1" Sample.node_new Sample.config_empty,
          TexTextGuiGTK.mk_view WORD)
       = (Ret tt, (g', view'))
       /\ TexTextGuiGTK.sv_wrap_mode view' = NONE
       /\ TexTextGuiBase._config (TexTextGuiGTK.base g')
          = <["gui" := Dict (<["word_wrap" := ABool false]> ∅)]>
              (<["gui" := Dict ∅]> Sample.config_empty).
Proof.
  split.
  - split; [reflexivity|].
    destruct (proj1 (@word_wrap_toggle Decimal.builtins) (Sample.tk_window "1" Sample.callback_ok) ∅ eq_refl)
      as (s' & Hrun & _ & Hwrap & _ & Hconfig & _).
    exists s'. split; [exact Hrun|]. split; [exact Hwrap|exact Hconfig].
  - destruct (proj2 (@word_wrap_toggle Decimal.builtins)
                (TexTextGuiGTK.__init__ "1.8.1" Sample.node_new Sample.config_empty)
                (TexTextGuiGTK.mk_view WORD) false ∅ eq_refl)
      as (g' & view' & Hrun & Hwrap & Hconfig & _).
    exists g', view'. split; [exact Hrun|]. split; [exact Hwrap|exact Hconfig].
Defined.

(** C7 for a new node (no text): both windows are built, and the
    controls are disabled. *)
Lemma empty_text_disables_alignment_and_reset_witness :
  (exists w self',
     TexTextGuiTK.show Sample.callback_ok
       (TexTextGuiBase.__init__ "1.8.1" Sample.node_new Sample.config_empty)
     = (Ret w, self')
     /\ TexTextGuiTK.btn_state (TexTextGuiTK._reset_button w) = TexTextGuiTK.DISABLED
     /\ (forall rb, rb ∈ TexTextGuiTK.alignment_radios w ->
                    TexTextGuiTK.rb_state rb = TexTextGuiTK.DISABLED))
  /\ (exists window reset align,
        TexTextGuiGTK.create_window GTK true
          (TexTextGuiGTK.__init__ "1.8.1" Sample.node_new Sample.config_empty)
          Sample.glade = (Ret tt, window)
        /\ window !! "btn_scalereset" = Some reset
        /\ TexTextGuiGTK.w_sensitive reset = false
        /\ window !! "cmb_align" = Some align
        /\ TexTextGuiGTK.w_sensitive align = false).
Proof.
  split.
  - destruct (TexTextGuiTK.show Sample.callback_ok
                (TexTextGuiBase.__init__ "1.8.1" Sample.node_new Sample.config_empty))
      as [r self'] eqn:Hshow.
    assert (Hr : r = fst (TexTextGuiTK.show Sample.callback_ok
                (TexTextGuiBase.__init__ "1.8.1" Sample.node_new Sample.config_empty)))
      by now rewrite Hshow.
    destruct r as [w|e]; [|discriminate Hr].
    exists w, self'. split; [reflexivity|].
    destruct (proj1 (@empty_text_disables_alignment_and_reset Decimal.builtins)
                "1.8.1" Sample.node_new Sample.config_empty Sample.callback_ok
                w self' Hshow) as (Hreset & _ & Hradios).
    split; [exact Hreset|exact Hradios].
  - pose proof (surjective_pairing
                  (TexTextGuiGTK.create_window GTK true
                     (TexTextGuiGTK.__init__ "1.8.1" Sample.node_new Sample.config_empty)
                     Sample.glade)) as Hcw.
    assert (Hfst : fst (TexTextGuiGTK.create_window GTK true
                          (TexTextGuiGTK.__init__ "1.8.1" Sample.node_new
                             Sample.config_empty)
                          Sample.glade) = Ret tt) by (vm_compute; reflexivity).
    rewrite Hfst in Hcw.
    set (window := snd (TexTextGuiGTK.create_window GTK true
                          (TexTextGuiGTK.__init__ "1.8.1" Sample.node_new
                             Sample.config_empty)
                          Sample.glade)) in *.
    destruct (proj2 (@empty_text_disables_alignment_and_reset Decimal.builtins)
                "1.8.1" Sample.node_new Sample.config_empty GTK true Sample.glade
                window Hcw) as (reset & align & H1 & H2 & H3 & H4).
    exists window, reset, align. auto.
Defined.

(** C1 (amended) for a node whose command is ["latex"]. *)
Lemma constructor_selector_defaults_witness :
  (md_tex_command Sample.node_foreign ∉ TexTextGuiBase.TEX_COMMANDS)
  /\ TexTextGuiBase.current_texcmd
       (TexTextGuiBase.__init__ "1.8.1" Sample.node_foreign Sample.config_empty)
     = "pdflatex".
Proof.
  assert (Hnot : md_tex_command Sample.node_foreign ∉ TexTextGuiBase.TEX_COMMANDS).
  { apply (proj1 (bool_decide_eq_false _)). reflexivity. }
  split; [exact Hnot|].
  apply (constructor_selector_defaults "1.8.1" Sample.node_foreign Sample.config_empty).
  exact Hnot.
Defined.

(** C1 as stated fails for a node whose alignment is ["center"]: the
    constructor keeps it, the Tk selector holds it, and [create_window]
    of the GTK dialog raises. *)
Lemma alignment_not_replaced :
  (md_alignment Sample.node_foreign ∉ TexTextGuiBase.ALIGNMENT_LABELS)
  /\ TexTextGuiBase.current_alignment
       (TexTextGuiBase.__init__ "1.8.1" Sample.node_foreign Sample.config_empty)
     = "center"
  /\ (TexTextGuiBase.current_alignment
        (TexTextGuiBase.__init__ "1.8.1" Sample.node_foreign Sample.config_empty)
      <> TexTextGuiBase.first TexTextGuiBase.ALIGNMENT_LABELS)
  /\ (exists w,
        fst (TexTextGuiTK.show Sample.callback_ok
               (TexTextGuiBase.__init__ "1.8.1" Sample.node_foreign Sample.config_empty))
        = Ret w
        /\ TexTextGuiTK._alignment_tk_str w = "center"
        /\ TexTextGuiTK._alignment_tk_str w ∉ TexTextGuiBase.ALIGNMENT_LABELS)
  /\ fst (TexTextGuiGTK.create_window GTK true
            (TexTextGuiGTK.__init__ "1.8.1" Sample.node_foreign Sample.config_empty)
            Sample.glade)
     = Raise (exn ValueError "center is not in list").
Proof.
  assert (Hnot : "center" ∉ TexTextGuiBase.ALIGNMENT_LABELS).
  { apply (proj1 (bool_decide_eq_false _)). reflexivity. }
  split; [exact Hnot|]. split; [reflexivity|]. split; [discriminate|].
  split; [|reflexivity].
  eexists. split; [reflexivity|]. split; [reflexivity|exact Hnot].
Qed.

(** C8 for typing [e] after [1]. *)
Lemma validate_spinbox_input_accepts_witness :
  "e" <> "" /\ "1e" <> "" /\ py_float "1e" = None
  /\ TexTextGuiTK.validate_spinbox_input "1" "1" "1e" "1" "e" "key" "key" ".scale" = false.
Proof.
  split; [discriminate|]. split; [discriminate|]. split; [reflexivity|].
  apply (validate_spinbox_input_accepts "1" "1" "1e" "1" "e" "key" "key" ".scale");
    [discriminate|discriminate|reflexivity].
Defined.
End Runs.

(** * More of the Tk dialog *)

Section MoreTk.
Context `{Builtins}.

Lemma append_empty_r (s : string) : s ++ "" = s.
Proof.
  induction s as [|c s IH]; [reflexivity|].
  change (String c (s ++ "") = String c s). now f_equal.
Qed.

Lemma spin_delete_all_empty content : TexTextGuiTK.spin_delete_all content = "".
Proof.
  unfold TexTextGuiTK.spin_delete_all, TexTextGuiTK.validate_spinbox_input.
  destruct (String.eqb_spec content "") as [->|Hne]; [reflexivity|].
  reflexivity.
Qed.

Lemma spin_insert_0_empty S :
  TexTextGuiTK.spin_insert_0 S ""
  = match py_float S with Some _ => S | None => "" end.
Proof.
  unfold TexTextGuiTK.spin_insert_0, TexTextGuiTK.validate_spinbox_input.
  rewrite append_empty_r.
  destruct (String.eqb_spec S "") as [->|Hne]; cbn.
  - now destruct (py_float "").
  - now destruct (py_float S).
Qed.

Lemma init_global_scale_factor version node (config : Settings) :
  TexTextGuiBase.global_scale_factor (TexTextGuiBase.__init__ version node config)
  = get_default config "scale" (Atom (AFloat float_one)).
Proof.
  unfold TexTextGuiBase.__init__. cbn.
  destruct (has_key config "gui"); cbn; [reflexivity|].
  unfold get_default, setitem. now rewrite lookup_insert_ne by discriminate.
Qed.

Lemma fmt_3f_any_state {S S'} x (s s1 : S) (s' : S') r :
  fmt_3f x s = (r, s1) -> fmt_3f x s' = (r, s').
Proof.
  destruct x as [[b|z|f|a]|d]; cbn; unfold bind, lift_opt, ret, raise.
  - destruct (float_of_int _); now intros [= <- _].
  - destruct (float_of_int _); now intros [= <- _].
  - now intros [= <- _].
  - now intros [= <- _].
  - now intros [= <- _].
Qed.

(** What [show] evaluates to when the label of the button "As previous"
    can be formatted and the stored word wrap is a [bool]. *)
Lemma tk_show_Ret callback (self : TexTextGuiBase.t) gl d ww :
  fmt_3f (TexTextGuiBase.global_scale_factor self) self = (Ret gl, self) ->
  TexTextGuiBase._config self !! "gui" = Some (Dict d) ->
  default (ABool false) (d !! "word_wrap") = ABool ww ->
  exists w,
    TexTextGuiTK.show callback self = (Ret w, self)
    /\ TexTextGuiTK._word_wrap_tkval w = ww
    /\ TexTextGuiTK._scale w
       = match py_float (tcl_string (TexTextGuiBase.node_scale_factor self)) with
         | Some _ => tcl_string (TexTextGuiBase.node_scale_factor self)
         | None => ""
         end
    /\ TexTextGuiTK.btn_text (TexTextGuiTK._reset_button w)
       = "Reset ("
         ++ (if float_truth (TexTextGuiBase.node_scale_factor self)
             then format_3f (TexTextGuiBase.node_scale_factor self) else gl)
         ++ ")"
    /\ TexTextGuiTK.btn_text (TexTextGuiTK._global_button w)
       = "As previous (" ++ gl ++ ")".
Proof.
  intros Hg Hgui Hww. unfold TexTextGuiTK.show. rewrite bind_get.
  assert (Hfmt : fmt_3f (if float_truth (TexTextGuiBase.node_scale_factor self)
                         then Atom (AFloat (TexTextGuiBase.node_scale_factor self))
                         else TexTextGuiBase.global_scale_factor self) self
                 = (Ret (if float_truth (TexTextGuiBase.node_scale_factor self)
                         then format_3f (TexTextGuiBase.node_scale_factor self) else gl),
                    self)).
  { now destruct (float_truth _). }
  rewrite (bind_Ret _ _ _ _ _ Hfmt), (bind_Ret _ _ _ _ _ Hg).
  unfold bind at 1. rewrite (gui_get_dict _ d _ _ _ Hgui).
  assert (Hm : match d !! "word_wrap" with
               | Some v => v
               | None => ABool TexTextGuiBase.DEFAULT_WORDWRAP
               end = ABool ww) by now destruct (d !! "word_wrap").
  rewrite Hm. cbn [getboolean]. cbn zeta.
  rewrite spin_delete_all_empty, spin_insert_0_empty.
  unfold bind, ret. eexists. split; [reflexivity|]. cbn. auto.
Qed.

Lemma tk_show_formats callback (self self' : TexTextGuiBase.t) w :
  TexTextGuiTK.show callback self = (Ret w, self') ->
  exists gl, fmt_3f (TexTextGuiBase.global_scale_factor self) self = (Ret gl, self).
Proof.
  unfold TexTextGuiTK.show. rewrite bind_get. intros Hrun.
  apply bind_Ret_inv in Hrun as (rl & s1 & Hreset & Hrun).
  apply fmt_3f_state in Hreset as Hs1. subst s1.
  apply bind_Ret_inv in Hrun as (gl & s2 & Hglobal & _).
  apply fmt_3f_state in Hglobal as Hs2. subst s2. eauto.
Qed.

(** X1. For a store whose ["scale"] is missing or a [float] and whose
    ["gui"] sub-section is missing, or a mapping whose ["word_wrap"] is
    missing or a [bool], [show] of the Tk dialog builds the window from
    the constructed object: the word-wrap variable is the stored value,
    [False] when there is none; the button "As previous" shows the stored
    scale, [1.0] when there is none; the button "Reset" shows the scale
    of the node, or the stored scale when that of the node is zero; and
    the scale field holds the scale of the node when [float()] reads what
    Tcl made of it, and is empty otherwise. *)
Theorem tk_show_builds_window version node (config : Settings) callback :
  (forall v, config !! "scale" = Some v -> exists f, v = Atom (AFloat f)) ->
  (forall v, config !! "gui" = Some v ->
     exists d, v = Dict d
               /\ forall x, d !! "word_wrap" = Some x -> exists b, x = ABool b) ->
  let self := TexTextGuiBase.__init__ version node config in
  let g := match config !! "scale" with Some (Atom (AFloat f)) => f | _ => float_one end in
  exists w,
    TexTextGuiTK.show callback self = (Ret w, self)
    /\ (TexTextGuiTK._word_wrap_tkval w = true
        <-> exists d, config !! "gui" = Some (Dict d)
                      /\ d !! "word_wrap" = Some (ABool true))
    /\ TexTextGuiTK.txt_wrap (TexTextGuiTK._text_box w)
       = wrap_of (TexTextGuiTK._word_wrap_tkval w)
    /\ TexTextGuiTK.btn_text (TexTextGuiTK._global_button w)
       = "As previous (" ++ format_3f g ++ ")"
    /\ TexTextGuiTK.btn_text (TexTextGuiTK._reset_button w)
       = "Reset ("
         ++ format_3f (if float_truth (md_scale_factor node)
                       then md_scale_factor node else g)
         ++ ")"
    /\ TexTextGuiTK._scale w
       = match py_float (tcl_string (md_scale_factor node)) with
         | Some _ => tcl_string (md_scale_factor node)
         | None => ""
         end.
Proof.
  intros Hscale Hgui self g.
  assert (Hg : TexTextGuiBase.global_scale_factor self = Atom (AFloat g)).
  { subst self g. rewrite init_global_scale_factor. unfold get_default.
    destruct (config !! "scale") as [v|] eqn:Hv; [|reflexivity].
    destruct (Hscale v eq_refl) as [f ->]. reflexivity. }
  assert (Hd : exists d ww,
             TexTextGuiBase._config self !! "gui" = Some (Dict d)
             /\ default (ABool false) (d !! "word_wrap") = ABool ww
             /\ (ww = true <-> exists d, config !! "gui" = Some (Dict d)
                                         /\ d !! "word_wrap" = Some (ABool true))).
  { subst self. rewrite init_config.
    destruct (config !! "gui") as [v|] eqn:Hv.
    - destruct (Hgui v eq_refl) as (d & -> & Hww). exists d.
      destruct (d !! "word_wrap") as [x|] eqn:Hx.
      + destruct (Hww x eq_refl) as [b ->]. exists b.
        split; [exact Hv|]. split; [reflexivity|]. split.
        * intros ->. eauto.
        * intros (d' & [= <-] & Hd'). rewrite Hx in Hd'. now injection Hd'.
      + exists false. split; [exact Hv|]. split; [reflexivity|]. split; [discriminate|].
        intros (d' & [= <-] & Hd'). rewrite Hx in Hd'. discriminate.
    - exists ∅, false. rewrite lookup_insert_eq. split; [reflexivity|].
      split; [reflexivity|]. split; [discriminate|]. intros (d' & [=] & _). }
  destruct Hd as (d & ww & Hd & Hww & Hiff).
  assert (Hfmt : fmt_3f (TexTextGuiBase.global_scale_factor self) self
                 = (Ret (format_3f g), self)) by now rewrite Hg.
  destruct (tk_show_Ret callback self _ d ww Hfmt Hd Hww) as (w & Hshow & Hw & Hsc & Hr & Hgl).
  exists w. split; [exact Hshow|]. rewrite Hw. split; [exact Hiff|].
  apply tk_show_Ret_inv in Hshow as (_ & _ & _ & _ & _ & _ & _ & _ & _ & _ & _ & Hwrap & _).
  rewrite Hwrap, Hw. split; [reflexivity|]. split; [exact Hgl|].
  split; [|exact Hsc]. rewrite Hr. subst self. cbn.
  now destruct (float_truth (md_scale_factor node)).
Qed.

Lemma gui_get_any_state {S S'} config key default (s s1 : S) (s' : S') r :
  gui_get config key default s = (r, s1) -> gui_get config key default s' = (r, s').
Proof.
  unfold gui_get. destruct (config !! "gui") as [[a|d]|]; now intros [= <- _].
Qed.

Lemma getboolean_any_state {S S'} x (s s1 : S) (s' : S') r :
  getboolean x s = (r, s1) -> getboolean x s' = (r, s').
Proof.
  destruct x as [[b|z|f|a]|d]; cbn; unfold lift_opt, ret, raise;
    try destruct (Tcl_GetBoolean a); now intros [= <- _].
Qed.

Lemma bind_run {S A B} (m : M S A) (k : A -> M S B) s r s1 :
  m s = (r, s1) ->
  bind m k s = match r with Ret a => k a s1 | Raise e => (Raise e, s1) end.
Proof. unfold bind. now intros ->. Qed.

(** The two definitions of [show] agree: on the object [__init__]
    leaves, the method gives the window or raises the exception
    [TexTextGuiTK.show] says. *)
Lemma tk_show_outcome callback version node config :
  TexTextGuiTK.show callback (TexTextGuiBase.__init__ version node config)
  = TkObject.outcome (TkObject.show callback (TkObject.__init__ version node config)).
Proof.
  unfold TkObject.__init__.
  generalize (TexTextGuiBase.__init__ version node config). intros b.
  unfold TexTextGuiTK.show, TkObject.show.
  rewrite bind_get, bind_modify, bind_get. cbn [TkObject.base].
  match goal with |- context [TkObject.outcome (_ ?o)] => set (o1 := o) end.
  destruct (fmt_3f (if float_truth (TexTextGuiBase.node_scale_factor b)
                    then Atom (AFloat (TexTextGuiBase.node_scale_factor b))
                    else TexTextGuiBase.global_scale_factor b) b)
    as [[reset_label|e] b1] eqn:Hreset;
    apply fmt_3f_state in Hreset as Hb1; subst b1;
    rewrite (bind_run _ _ _ _ _ Hreset),
            (bind_run _ _ _ _ _ (fmt_3f_any_state _ _ _ o1 _ Hreset)); [|reflexivity].
  rewrite bind_modify.
  match goal with |- context [TkObject.outcome (_ ?o)] => set (o2 := o) end.
  destruct (fmt_3f (TexTextGuiBase.global_scale_factor b) b)
    as [[global_label|e] b1] eqn:Hglobal;
    apply fmt_3f_state in Hglobal as Hb1; subst b1;
    rewrite (bind_run _ _ _ _ _ Hglobal),
            (bind_run _ _ _ _ _ (fmt_3f_any_state _ _ _ o2 _ Hglobal)); [|reflexivity].
  rewrite bind_modify.
  match goal with |- context [TkObject.outcome (_ ?o)] => set (o3 := o) end.
  destruct (gui_get (TexTextGuiBase._config b) "word_wrap"
              (ABool TexTextGuiBase.DEFAULT_WORDWRAP) b)
    as [[word_wrap|e] b1] eqn:Hgui;
    apply gui_get_state in Hgui as Hb1; subst b1;
    rewrite (bind_run _ _ _ _ _ Hgui),
            (bind_run _ _ _ _ _ (gui_get_any_state _ _ _ _ _ o3 _ Hgui)); [|reflexivity].
  destruct (getboolean (Atom word_wrap) b) as [[v|e] b1] eqn:Hbool;
    apply getboolean_state in Hbool as Hb1; subst b1;
    rewrite (bind_run _ _ _ _ _ Hbool),
            (bind_run _ _ _ _ _ (getboolean_any_state _ _ _ o3 _ Hbool)); reflexivity.
Qed.

(** X2. A stored ["scale"] that is a [str] makes [show] of the Tk dialog
    raise [ValueError] where it formats the label of a button with
    [.3f].  By then [show] has assigned the callback, the root window,
    the frame, the preamble entry and its button, the two variables of
    the advanced settings and the TeX command with its radio buttons,
    and the scale field; the button "Reset" is assigned exactly when the
    scale of the node is not zero (a zero scale makes that button format
    the stored scale, which raises one statement earlier).  The button
    "As previous", the alignment and word-wrap variables and the text
    box are still [None], and the attributes of the base class are as
    [__init__] left them.  [TexTextGuiTK.show] raises the same
    exception. *)
Theorem tk_show_string_scale_raises version node (config : Settings) callback x :
  config !! "scale" = Some (Atom (AStr x)) ->
  let self := TkObject.__init__ version node config in
  let b := TexTextGuiBase.__init__ version node config in
  exists e,
    exn_cls e = ValueError
    /\ TexTextGuiTK.show callback b = (Raise e, b)
    /\ TkObject.show callback self
       = (Raise e,
          TkObject.mk b (Some callback) (Some ("TexText " ++ version)) (Some tt)
            (Some (md_preamble node))
            (Some (TexTextGuiTK.mk_button "Select..." TexTextGuiTK.NORMAL))
            (Some (md_stroke_to_path node))
            (Some (TexTextGuiBase.current_texcmd b))
            (map (fun c => TexTextGuiTK.mk_radio c c TexTextGuiTK.NORMAL)
                 TexTextGuiBase.TEX_COMMANDS)
            (Some (TexTextGuiTK.spin_insert_0 (tcl_string (md_scale_factor node)) ""))
            (if float_truth (md_scale_factor node)
             then Some (TexTextGuiTK.mk_button
                          ("Reset (" ++ format_3f (md_scale_factor node) ++ ")")
                          (if String.eqb (TexTextGuiBase.text b) ""
                           then TexTextGuiTK.DISABLED else TexTextGuiTK.NORMAL))
             else None)
            None None [] None None).
Proof.
  intros Hscale self b.
  assert (Hg : TexTextGuiBase.global_scale_factor b = Atom (AStr x)).
  { subst b. rewrite init_global_scale_factor. unfold get_default. now rewrite Hscale. }
  exists (exn ValueError "Unknown format code 'f' for object of type 'str'").
  split; [reflexivity|].
  assert (Hrun : TkObject.show callback self
       = (Raise (exn ValueError "Unknown format code 'f' for object of type 'str'"),
          TkObject.mk b (Some callback) (Some ("TexText " ++ version)) (Some tt)
            (Some (md_preamble node))
            (Some (TexTextGuiTK.mk_button "Select..." TexTextGuiTK.NORMAL))
            (Some (md_stroke_to_path node))
            (Some (TexTextGuiBase.current_texcmd b))
            (map (fun c => TexTextGuiTK.mk_radio c c TexTextGuiTK.NORMAL)
                 TexTextGuiBase.TEX_COMMANDS)
            (Some (TexTextGuiTK.spin_insert_0 (tcl_string (md_scale_factor node)) ""))
            (if float_truth (md_scale_factor node)
             then Some (TexTextGuiTK.mk_button
                          ("Reset (" ++ format_3f (md_scale_factor node) ++ ")")
                          (if String.eqb (TexTextGuiBase.text b) ""
                           then TexTextGuiTK.DISABLED else TexTextGuiTK.NORMAL))
             else None)
            None None [] None None)).
  { unfold TkObject.show. rewrite bind_modify, bind_get.
    subst self. unfold TkObject.__init__. fold b.
    cbn [TkObject.base TkObject._reset_button TkObject._global_button
         TkObject._alignment_tk_str TkObject.alignment_radios TkObject._word_wrap_tkval
         TkObject._text_box].
    rewrite Hg, spin_delete_all_empty.
    change (TexTextGuiBase.node_scale_factor b) with (md_scale_factor node).
    change (TexTextGuiBase.preamble_file b) with (md_preamble node).
    change (TexTextGuiBase.current_convert_strokes_to_path b) with (md_stroke_to_path node).
    change (TexTextGuiBase.textext_version b) with version.
    destruct (float_truth (md_scale_factor node)); reflexivity. }
  split; [|exact Hrun].
  subst b. rewrite tk_show_outcome. fold self. now rewrite Hrun.
Qed.

(** A click on the word-wrap check button, for a store with the
    sub-section: only the variable, the wrap mode and the store change. *)
Lemma tk_toggle_word_wrap_Ret s d :
  TexTextGuiBase._config (TexTextGuiTK.base s) !! "gui" = Some (Dict d) ->
  exists s',
    TexTextGuiTK.toggle_word_wrap s = (Ret tt, s')
    /\ TexTextGuiBase._config (TexTextGuiTK.base s')
       = <["gui" := Dict (<["word_wrap" := ABool (negb (TexTextGuiTK._word_wrap_tkval s))]> d)]>
           (TexTextGuiBase._config (TexTextGuiTK.base s))
    /\ s' = TexTextGuiTK.set_base
              (TexTextGuiBase.set_config (TexTextGuiBase._config (TexTextGuiTK.base s')))
              (TexTextGuiTK.set_text_box
                 (TexTextGuiTK.mk_text (TexTextGuiTK.txt_chars (TexTextGuiTK._text_box s))
                    (wrap_of (negb (TexTextGuiTK._word_wrap_tkval s))))
                 (TexTextGuiTK.set_word_wrap_tkval (negb (TexTextGuiTK._word_wrap_tkval s)) s)).
Proof.
  intros Hgui. unfold TexTextGuiTK.toggle_word_wrap, TexTextGuiTK.cb_word_wrap.
  rewrite !bind_modify, bind_get.
  destruct s as [b cb pre st cmd rs sc rb gb al ars ww tb top ds lg].
  cbn in Hgui |- *. unfold bind. rewrite (gui_set_dict _ d _ _ _ Hgui).
  eexists. split; [reflexivity|]. cbn. split; reflexivity.
Qed.

(** X3. What the word-wrap check button stored is what the next dialog
    starts from: after a click on it, a Tk dialog built for any node from
    the store the first one leaves comes up with the flipped word-wrap
    value and the wrap mode that goes with it. *)
Theorem tk_word_wrap_survives_reopen version node config callback self' w :
  TexTextGuiTK.show callback (TexTextGuiBase.__init__ version node config) = (Ret w, self') ->
  exists w',
    TexTextGuiTK.toggle_word_wrap w = (Ret tt, w')
    /\ forall version2 node2 callback2,
         let self2 := TexTextGuiBase.__init__ version2 node2
                        (TexTextGuiBase._config (TexTextGuiTK.base w')) in
         exists w2,
           TexTextGuiTK.show callback2 self2 = (Ret w2, self2)
           /\ TexTextGuiTK._word_wrap_tkval w2 = negb (TexTextGuiTK._word_wrap_tkval w)
           /\ TexTextGuiTK.txt_wrap (TexTextGuiTK._text_box w2)
              = wrap_of (negb (TexTextGuiTK._word_wrap_tkval w)).
Proof.
  intros Hshow.
  destruct (tk_show_formats _ _ _ _ Hshow) as [gl Hgl].
  apply tk_show_Ret_inv in Hshow as Hinv.
  destruct Hinv as (_ & Hbase & _ & _ & _ & _ & _ & _ & _ & _ & _ & _ & _ & d & Hd).
  rewrite <- Hbase in Hd.
  destruct (tk_toggle_word_wrap_Ret w d Hd) as (w' & Hrun & Hconfig & _).
  exists w'. split; [exact Hrun|]. intros version2 node2 callback2 self2.
  set (d' := <["word_wrap" := ABool (negb (TexTextGuiTK._word_wrap_tkval w))]> d) in *.
  assert (Hgui2 : TexTextGuiBase._config self2 !! "gui" = Some (Dict d')).
  { subst self2. rewrite init_config, Hconfig, lookup_insert_eq. apply lookup_insert_eq. }
  assert (Hg2 : TexTextGuiBase.global_scale_factor self2
                = TexTextGuiBase.global_scale_factor
                    (TexTextGuiBase.__init__ version node config)).
  { subst self2. rewrite !init_global_scale_factor, Hconfig, Hbase. unfold get_default.
    rewrite lookup_insert_ne by discriminate. rewrite init_config.
    destruct (config !! "gui"); [reflexivity|].
    now rewrite lookup_insert_ne by discriminate. }
  assert (Hfmt2 : fmt_3f (TexTextGuiBase.global_scale_factor self2) self2 = (Ret gl, self2)).
  { rewrite Hg2. exact (fmt_3f_any_state _ _ _ _ _ Hgl). }
  assert (Hww : default (ABool false) (d' !! "word_wrap")
                = ABool (negb (TexTextGuiTK._word_wrap_tkval w))).
  { subst d'. now rewrite lookup_insert_eq. }
  destruct (tk_show_Ret callback2 self2 gl d' _ Hfmt2 Hgui2 Hww) as (w2 & Hshow2 & Hw2 & _).
  exists w2. split; [exact Hshow2|]. split; [exact Hw2|].
  apply tk_show_Ret_inv in Hshow2 as (_ & _ & _ & _ & _ & _ & _ & _ & _ & _ & _ & Hwrap & _).
  now rewrite Hwrap, Hw2.
Qed.

(** ** The buttons of the scale field *)

Lemma tk_reset_scale_factor_Ret s :
  TkCallbacks.reset_scale_factor s
  = (Ret tt,
     TexTextGuiTK.set_scale
       (match py_float (tcl_string (TexTextGuiBase.node_scale_factor (TexTextGuiTK.base s))) with
        | Some _ => tcl_string (TexTextGuiBase.node_scale_factor (TexTextGuiTK.base s))
        | None => ""
        end) s).
Proof.
  unfold TkCallbacks.reset_scale_factor. rewrite !bind_modify. unfold modify.
  destruct s. cbn. now rewrite spin_delete_all_empty, spin_insert_0_empty.
Qed.

Lemma tk_use_global_scale_factor_Ret str_dict s :
  TkCallbacks.use_global_scale_factor str_dict s
  = (Ret tt,
     TexTextGuiTK.set_scale
       (match py_float (TkCallbacks.tcl_value str_dict
                          (TexTextGuiBase.global_scale_factor (TexTextGuiTK.base s))) with
        | Some _ => TkCallbacks.tcl_value str_dict
                      (TexTextGuiBase.global_scale_factor (TexTextGuiTK.base s))
        | None => ""
        end) s).
Proof.
  unfold TkCallbacks.use_global_scale_factor. rewrite !bind_modify. unfold modify.
  destruct s. cbn. now rewrite spin_delete_all_empty, spin_insert_0_empty.
Qed.

(** X4. The buttons "Reset" and "As previous" of the Tk dialog replace
    the whole content of the scale field, whatever it was, and change
    nothing else of the object: [reset_scale_factor] puts the scale of
    the node there and [use_global_scale_factor] the stored global scale,
    as the string Tcl makes of it, when [float()] reads that string; when
    it does not, the validation of the field refuses the insertion and
    the field is left empty.  Either way the field is then empty or
    reads as a float. *)
Theorem tk_scale_buttons_replace_field str_dict s :
  let filled x := match py_float x with Some _ => x | None => "" end in
  let node := tcl_string (TexTextGuiBase.node_scale_factor (TexTextGuiTK.base s)) in
  let global := TkCallbacks.tcl_value str_dict
                  (TexTextGuiBase.global_scale_factor (TexTextGuiTK.base s)) in
  TkCallbacks.reset_scale_factor s = (Ret tt, TexTextGuiTK.set_scale (filled node) s)
  /\ TkCallbacks.use_global_scale_factor str_dict s
     = (Ret tt, TexTextGuiTK.set_scale (filled global) s)
  /\ (forall x, filled x = "" \/ is_Some (py_float (filled x)))
  /\ (forall x,
        TexTextGuiTK.validate_spinbox_input "1" "0" x "" x "key" "key" "" = true ->
        filled x = x).
Proof.
  intros filled node global.
  split; [apply tk_reset_scale_factor_Ret|].
  split; [apply tk_use_global_scale_factor_Ret|]. split.
  - intros x. subst filled. cbn. destruct (py_float x) eqn:Hx; [right|now left].
    rewrite Hx. eauto.
  - intros x. subst filled. unfold TexTextGuiTK.validate_spinbox_input. cbn.
    destruct (String.eqb_spec x "") as [->|Hne]; cbn.
    + now destruct (py_float "").
    + now destruct (py_float x).
Qed.

(** X5. "Reset" followed by "OK" converts with the scale of the node:
    when [float()] reads the string Tcl makes of the node's scale factor
    as [f], then whatever the scale field held before, after
    [reset_scale_factor] the call [cb_ok] passes the callback the scale
    [f], with the other arguments as the widgets give them. *)
Theorem tk_reset_then_ok_passes_node_scale s f :
  py_float (tcl_string (TexTextGuiBase.node_scale_factor (TexTextGuiTK.base s))) = Some f ->
  exists s1 r s2 rest,
    TkCallbacks.reset_scale_factor s = (Ret tt, s1)
    /\ TexTextGuiTK.cb_ok s1 = (r, s2)
    /\ TexTextGuiTK.log s2
       = (TexTextGuiTK.log s ++ TexTextGuiTK.Convert (tk_args_of s f) :: rest)%list
    /\ TexTextGuiTK.arg_scale (tk_args_of s f) = Atom (AFloat f)
    /\ TexTextGuiBase.global_scale_factor (TexTextGuiTK.base s2) = Atom (AFloat f).
Proof.
  intros Hf. rewrite tk_reset_scale_factor_Ret, Hf.
  set (s1 := TexTextGuiTK.set_scale _ s).
  assert (Hscale : py_float (TexTextGuiTK._scale s1) = Some f) by (subst s1; now destruct s).
  destruct (TexTextGuiTK.cb_ok s1) as [r s2] eqn:Hrun. pose proof Hrun as Hok.
  rewrite (tk_cb_ok_valid s1 f Hscale) in Hok.
  apply tk_convert_and_quit_spec in Hok as [Hbase Hlog]. cbn zeta in Hlog.
  rewrite tk_stored_args in Hlog.
  exists s1, r, s2. eexists. split; [reflexivity|]. split; [exact Hrun|].
  split; [|split; [reflexivity|]].
  - rewrite Hlog. subst s1. destruct s. reflexivity.
  - rewrite Hbase. reflexivity.
Qed.

(** ** The preamble file *)

(** X6. [select_preamble_file] leaves the preamble entry alone when the
    file dialog gave [None], and otherwise replaces its content by the
    name it gave, the empty string included; nothing else changes.  A
    following [cb_ok] (the scale field reading as a float) stores that
    name as [preamble_file] and passes it to the callback. *)
Theorem tk_select_preamble_file_then_ok s name f :
  py_float (TexTextGuiTK._scale s) = Some f ->
  TkCallbacks.select_preamble_file None s = (Ret tt, s)
  /\ exists s1 r s2 args rest,
       TkCallbacks.select_preamble_file (Some name) s = (Ret tt, s1)
       /\ s1 = TkCallbacks.set_preamble name s
       /\ TexTextGuiTK._preamble s1 = name
       /\ TexTextGuiTK.cb_ok s1 = (r, s2)
       /\ TexTextGuiTK.log s2 = (TexTextGuiTK.log s ++ TexTextGuiTK.Convert args :: rest)%list
       /\ TexTextGuiTK.arg_preamble_file args = name
       /\ TexTextGuiBase.preamble_file (TexTextGuiTK.base s2) = name.
Proof.
  intros Hf. split; [reflexivity|].
  set (s1 := TkCallbacks.set_preamble name s).
  assert (Hscale : py_float (TexTextGuiTK._scale s1) = Some f) by (subst s1; now destruct s).
  destruct (TexTextGuiTK.cb_ok s1) as [r s2] eqn:Hrun. pose proof Hrun as Hok.
  rewrite (tk_cb_ok_valid s1 f Hscale) in Hok.
  apply tk_convert_and_quit_spec in Hok as [Hbase Hlog]. cbn zeta in Hlog.
  rewrite tk_stored_args in Hlog.
  exists s1, r, s2, (tk_args_of s1 f). eexists.
  split; [reflexivity|]. split; [reflexivity|]. split; [reflexivity|].
  split; [exact Hrun|]. split; [|split; [reflexivity|]].
  - rewrite Hlog. subst s1. destruct s. reflexivity.
  - rewrite Hbase. reflexivity.
Qed.

(** ** What the callbacks leave alone *)

Lemma tk_show_error_dialog_frame title message_text e s r s' :
  TexTextGuiTK.show_error_dialog title message_text e s = (r, s') ->
  s' = TexTextGuiTK.set_topmost false
         (TexTextGuiTK.set_err_dialogs (TexTextGuiTK.err_dialogs s') s).
Proof.
  unfold TexTextGuiTK.show_error_dialog, TexTextGuiTK.add_textview,
    TexTextGuiTK.bytes_decode, bind, modify, ret, raise, lift_opt.
  destruct s; cbn.
  destruct (is_TexTextCommandFailed e); [|now intros [= <- <-]].
  destruct (bytes_truth (exn_stdout e)).
  - destruct (exn_stdout e) as [out|]; [|now intros [= <- <-]].
    destruct (decode_utf8 out); cbn; [|now intros [= <- <-]].
    destruct (bytes_truth (exn_stderr e)); [|now intros [= <- <-]].
    destruct (exn_stderr e) as [err|]; [|now intros [= <- <-]].
    destruct (decode_utf8 err); cbn; now intros [= <- <-].
  - cbn. destruct (bytes_truth (exn_stderr e)); [|now intros [= <- <-]].
    destruct (exn_stderr e) as [err|]; [|now intros [= <- <-]].
    destruct (decode_utf8 err); cbn; now intros [= <- <-].
Qed.

Lemma tk_convert_and_quit_fixed s r s' :
  TexTextGuiTK.convert_and_quit s = (r, s') -> tk_fixed s' = tk_fixed s.
Proof.
  intros Hrun.
  set (args := TexTextGuiTK.mk_args
                 (TexTextGuiBase.text (TexTextGuiTK.base s))
                 (TexTextGuiBase.preamble_file (TexTextGuiTK.base s))
                 (TexTextGuiBase.global_scale_factor (TexTextGuiTK.base s))
                 (TexTextGuiTK._alignment_tk_str s) (TexTextGuiTK._tex_command_tk_str s)
                 (TexTextGuiBase.current_convert_strokes_to_path (TexTextGuiTK.base s))).
  destruct (TexTextGuiTK._convert_callback s args) as [e|] eqn:Hcb.
  - rewrite (tk_convert_and_quit_raises s e Hcb) in Hrun. fold args in Hrun.
    destruct (is_Exception e).
    + apply tk_show_error_dialog_frame in Hrun. rewrite Hrun. now destruct s.
    + injection Hrun as <- <-. now destruct s.
  - rewrite (tk_convert_and_quit_returns s Hcb) in Hrun. fold args in Hrun.
    injection Hrun as <- <-. now destruct s.
Qed.

(** X7. Whichever callback of the Tk window runs ([cb_ok], the
    word-wrap check button, the two scale buttons, the choice of a
    preamble file), and however it ends, it leaves alone what only the
    user or the constructor decides: the callback, the version, the
    scale, alignment and command taken from the node, the selected
    command and alignment with their radio buttons, the stroke check
    button, the two scale buttons and the characters in the text box.
    Entries of the store other than ["gui"] keep their values, a ["gui"]
    sub-section stays one, and only [cb_ok] adds to the log: no other
    callback calls the convert callback or leaves the main loop. *)
Theorem tk_callbacks_leave_alone str_dict c s r s' :
  TkCallbacks.run str_dict c s = (r, s') ->
  tk_fixed s' = tk_fixed s
  /\ (exists more, TexTextGuiTK.log s' = (TexTextGuiTK.log s ++ more)%list
                   /\ (c <> TkCallbacks.Cb_ok -> more = []))
  /\ (forall key, key <> "gui" ->
        TexTextGuiBase._config (TexTextGuiTK.base s') !! key
        = TexTextGuiBase._config (TexTextGuiTK.base s) !! key)
  /\ (forall d, TexTextGuiBase._config (TexTextGuiTK.base s) !! "gui" = Some (Dict d) ->
        exists d', TexTextGuiBase._config (TexTextGuiTK.base s') !! "gui" = Some (Dict d')).
Proof.
  destruct c as [| | | | |file_name]; cbn [TkCallbacks.run]; intros Hrun.
  - (* cb_ok *)
    destruct (py_float (TexTextGuiTK._scale s)) as [f|] eqn:Hf.
    + rewrite (tk_cb_ok_valid s f Hf) in Hrun.
      pose proof (tk_convert_and_quit_fixed _ _ _ Hrun) as Hfixed.
      apply tk_convert_and_quit_spec in Hrun as [Hbase Hlog]. cbn zeta in Hlog.
      split; [rewrite Hfixed; now destruct s|].
      split; [eexists; split; [rewrite Hlog; destruct s; reflexivity | congruence]|].
      rewrite Hbase. split; [now destruct s|]. intros d Hd. exists d. now destruct s.
    + rewrite (tk_cb_ok_invalid s Hf) in Hrun. injection Hrun as <- <-.
      split; [now destruct s|].
      split; [eexists; split; [destruct s; reflexivity | congruence]|].
      split; [now destruct s|]. intros d Hd. exists d. now destruct s.
  - (* cb_word_wrap *)
    unfold TexTextGuiTK.cb_word_wrap in Hrun. rewrite bind_modify, bind_get in Hrun.
    destruct s as [b cb pre st cmd rs sc rb gb al ars ww tb top ds lg]. cbn in Hrun |- *.
    unfold bind, gui_set in Hrun.
    destruct (TexTextGuiBase._config b !! "gui") as [[a|d]|] eqn:Hgui; cbn in Hrun;
      injection Hrun as <- <-; cbn.
    + split; [reflexivity|]. split; [exists []; now rewrite app_nil_r|].
      split; [reflexivity|]. intros d. rewrite Hgui. discriminate.
    + split; [now destruct b|]. split; [exists []; now rewrite app_nil_r|].
      split; [intros key Hkey; now rewrite lookup_insert_ne by congruence|].
      intros _ _. rewrite lookup_insert_eq. eauto.
    + split; [reflexivity|]. split; [exists []; now rewrite app_nil_r|].
      split; [reflexivity|]. intros d. rewrite Hgui. discriminate.
  - (* the check button *)
    unfold TexTextGuiTK.toggle_word_wrap, TexTextGuiTK.cb_word_wrap in Hrun.
    rewrite !bind_modify, bind_get in Hrun.
    destruct s as [b cb pre st cmd rs sc rb gb al ars ww tb top ds lg]. cbn in Hrun |- *.
    unfold bind, gui_set in Hrun.
    destruct (TexTextGuiBase._config b !! "gui") as [[a|d]|] eqn:Hgui; cbn in Hrun;
      injection Hrun as <- <-; cbn.
    + split; [reflexivity|]. split; [exists []; now rewrite app_nil_r|].
      split; [reflexivity|]. intros d. rewrite Hgui. discriminate.
    + split; [now destruct b|]. split; [exists []; now rewrite app_nil_r|].
      split; [intros key Hkey; now rewrite lookup_insert_ne by congruence|].
      intros _ _. rewrite lookup_insert_eq. eauto.
    + split; [reflexivity|]. split; [exists []; now rewrite app_nil_r|].
      split; [reflexivity|]. intros d. rewrite Hgui. discriminate.
  - rewrite tk_reset_scale_factor_Ret in Hrun. injection Hrun as <- <-.
    destruct s; cbn. split; [reflexivity|]. split; [exists []; now rewrite app_nil_r|].
    split; [reflexivity|]. eauto.
  - rewrite tk_use_global_scale_factor_Ret in Hrun. injection Hrun as <- <-.
    destruct s; cbn. split; [reflexivity|]. split; [exists []; now rewrite app_nil_r|].
    split; [reflexivity|]. eauto.
  - destruct file_name as [name|]; cbn in Hrun; injection Hrun as <- <-.
    + destruct s; cbn. split; [reflexivity|]. split; [exists []; now rewrite app_nil_r|].
      split; [reflexivity|]. eauto.
    + split; [reflexivity|]. split; [exists []; now rewrite app_nil_r|].
      split; [reflexivity|]. eauto.
Qed.
End MoreTk.

(** * The error dialogs *)

Section MoreDialogs.
Context `{Builtins}.

Lemma output_decodes_stdout e out :
  output_decodes e -> exn_stdout e = Some out -> String.eqb out "" = false ->
  is_Some (decode_utf8 out).
Proof.
  intros Hdec Hout Hne. destruct (Hdec (Some out)) as (x & [= <-] & Hsome); auto.
  cbn. now rewrite Hne.
Qed.

Lemma output_decodes_stderr e err :
  output_decodes e -> exn_stderr e = Some err -> String.eqb err "" = false ->
  is_Some (decode_utf8 err).
Proof.
  intros Hdec Herr Hne. destruct (Hdec (Some err)) as (x & [= <-] & Hsome); auto.
  cbn. now rewrite Hne.
Qed.

Lemma tk_show_error_dialog_views title message_text e s :
  output_decodes e ->
  exists s',
    TexTextGuiTK.show_error_dialog title message_text e s = (Ret tt, s')
    /\ TexTextGuiTK.err_dialogs s'
       = TexTextGuiTK.mk_dlg
           ((message_text, exn_str e) :: output_views "Stdout:" "Stderr:" e) true
         :: TexTextGuiTK.err_dialogs s
    /\ TexTextGuiTK.topmost s' = false
    /\ TexTextGuiTK.log s' = TexTextGuiTK.log s.
Proof.
  intros Hdec.
  unfold TexTextGuiTK.show_error_dialog, TexTextGuiTK.add_textview,
    TexTextGuiTK.bytes_decode, output_views, output_view, bind, modify, ret, raise,
    lift_opt.
  destruct s; cbn.
  destruct (is_TexTextCommandFailed e); [|eexists; repeat split].
  destruct (exn_stdout e) as [out|] eqn:Hout; cbn;
    [destruct (String.eqb out "") eqn:Hne; cbn;
     [|destruct (output_decodes_stdout e out Hdec Hout Hne) as [o ->]; cbn]|];
    (destruct (exn_stderr e) as [err|] eqn:Herr; cbn;
     [destruct (String.eqb err "") eqn:Hne'; cbn;
      [|destruct (output_decodes_stderr e err Hdec Herr Hne') as [o' ->]; cbn]|]);
    eexists; repeat split.
Qed.

Lemma gtk_show_error_dialog_views title message_text e g window :
  output_decodes e ->
  TexTextGuiGTK._window g = Some window ->
  exists g',
    TexTextGuiGTK.show_error_dialog title message_text e g = (Ret tt, g')
    /\ TexTextGuiGTK.dialogs g'
       = TexTextGuiGTK.mk_dialog title ("<b>" ++ message_text ++ "</b>")
           ((None, exn_str e)
            :: output_views (Some "Stdout: <small><i>(click to expand)</i></small>")
                 (Some "Stderr: <small><i>(click to expand)</i></small>") e)
           true
         :: TexTextGuiGTK.dialogs g
    /\ TexTextGuiGTK.log g' = TexTextGuiGTK.log g
    /\ TexTextGuiGTK.base g' = TexTextGuiGTK.base g.
Proof.
  intros Hdec Hwin.
  unfold TexTextGuiGTK.show_error_dialog, TexTextGuiGTK.add_section,
    TexTextGuiGTK.bytes_decode, TexTextGuiGTK.getattr, output_views, output_view,
    bind, get, modify, ret, raise, lift_opt.
  destruct g as [b cb sb pw sa cs tc ac w ds lg]; cbn in Hwin |- *. subst w. cbn.
  destruct (is_TexTextCommandFailed e); [|eexists; repeat split].
  destruct (exn_stdout e) as [out|] eqn:Hout; cbn;
    [destruct (String.eqb out "") eqn:Hne; cbn;
     [|destruct (output_decodes_stdout e out Hdec Hout Hne) as [o ->]; cbn]|];
    (destruct (exn_stderr e) as [err|] eqn:Herr; cbn;
     [destruct (String.eqb err "") eqn:Hne'; cbn;
      [|destruct (output_decodes_stderr e err Hdec Herr Hne') as [o' ->]; cbn]|]);
    eexists; repeat split.
Qed.

(** X8. The error dialogs show the message first, and after it the
    captured output only of a [TexTextCommandFailed]: standard output,
    then standard error, each decoded and each left out when it is
    [None] or empty.  With output that decodes, [show_error_dialog] of
    the Tk dialog returns with exactly these text views and the OK
    button in place, having taken the main window off the top; that of
    the GTK dialog (with [self._window] set) returns with exactly these
    sections, the dialog run, and the log and the attributes untouched. *)
Theorem error_dialog_views title message_text e :
  output_decodes e ->
  (forall s, exists s',
     TexTextGuiTK.show_error_dialog title message_text e s = (Ret tt, s')
     /\ TexTextGuiTK.err_dialogs s'
        = TexTextGuiTK.mk_dlg
            ((message_text, exn_str e) :: output_views "Stdout:" "Stderr:" e) true
          :: TexTextGuiTK.err_dialogs s
     /\ TexTextGuiTK.topmost s' = false
     /\ TexTextGuiTK.log s' = TexTextGuiTK.log s)
  /\ (forall g window,
        TexTextGuiGTK._window g = Some window ->
        exists g',
          TexTextGuiGTK.show_error_dialog title message_text e g = (Ret tt, g')
          /\ TexTextGuiGTK.dialogs g'
             = TexTextGuiGTK.mk_dialog title ("<b>" ++ message_text ++ "</b>")
                 ((None, exn_str e)
                  :: output_views (Some "Stdout: <small><i>(click to expand)</i></small>")
                       (Some "Stderr: <small><i>(click to expand)</i></small>") e)
                 true
               :: TexTextGuiGTK.dialogs g
          /\ TexTextGuiGTK.log g' = TexTextGuiGTK.log g
          /\ TexTextGuiGTK.base g' = TexTextGuiGTK.base g).
Proof.
  intros Hdec. split.
  - intros s. now apply tk_show_error_dialog_views.
  - intros g window. now apply gtk_show_error_dialog_views.
Qed.

(** When the standard output of a [TexTextCommandFailed] cannot be
    decoded, [show_error_dialog] raises with the dialog half built. *)
Lemma tk_show_error_dialog_undecodable title message_text e b s :
  is_TexTextCommandFailed e = true ->
  exn_stdout e = Some b -> b <> "" -> decode_utf8 b = None ->
  TexTextGuiTK.show_error_dialog title message_text e s
  = (Raise (exn UnicodeDecodeError "'utf-8' codec can't decode"),
     TexTextGuiTK.set_err_dialogs
       (TexTextGuiTK.mk_dlg [(message_text, exn_str e)] false :: TexTextGuiTK.err_dialogs s)
       (TexTextGuiTK.set_topmost false s)).
Proof.
  intros Hcls Hout Hne Hdec.
  unfold TexTextGuiTK.show_error_dialog, TexTextGuiTK.add_textview,
    TexTextGuiTK.bytes_decode, bind, modify, ret, raise, lift_opt.
  destruct s; cbn. rewrite Hcls, Hout. cbn.
  apply String.eqb_neq in Hne. rewrite Hne. cbn. now rewrite Hdec.
Qed.

Lemma gtk_show_error_dialog_undecodable title message_text e b g window :
  is_TexTextCommandFailed e = true ->
  exn_stdout e = Some b -> b <> "" -> decode_utf8 b = None ->
  TexTextGuiGTK._window g = Some window ->
  TexTextGuiGTK.show_error_dialog title message_text e g
  = (Raise (exn UnicodeDecodeError "'utf-8' codec can't decode"),
     TexTextGuiGTK.set_dialogs
       (TexTextGuiGTK.mk_dialog title ("<b>" ++ message_text ++ "</b>")
          [(None, exn_str e)] false
        :: TexTextGuiGTK.dialogs g) g).
Proof.
  intros Hcls Hout Hne Hdec Hwin.
  unfold TexTextGuiGTK.show_error_dialog, TexTextGuiGTK.add_section,
    TexTextGuiGTK.bytes_decode, TexTextGuiGTK.getattr, bind, get, modify, ret, raise,
    lift_opt.
  destruct g as [bs cb sb pw sa cs tc ac w ds lg]; cbn in Hwin |- *. subst w. cbn.
  rewrite Hcls, Hout. cbn.
  apply String.eqb_neq in Hne. rewrite Hne. cbn. now rewrite Hdec.
Qed.
End MoreDialogs.

(** * More of the GTK dialog: cb_ok *)

Section MoreGtkOk.
Context `{Builtins}.

Lemma bind_ret_eq {S A B} (a : A) (k : A -> M S B) s : bind (ret a) k s = k a s.
Proof. reflexivity. Qed.

(** [cb_ok] of an object with the widgets in place and indices in range. *)
Lemma gtk_cb_ok_eval g text pw scale stroke i j cmd al callback :
  TexTextGuiGTK._source_buffer g = Some text ->
  TexTextGuiGTK._preamble_widget g = Some pw ->
  TexTextGuiGTK._scale_adj g = Some scale ->
  TexTextGuiGTK._conv_stroke2path g = Some stroke ->
  TexTextGuiGTK._texcmd_cbox g = Some i ->
  TexTextGuiGTK.list_getitem TexTextGuiBase.TEX_COMMANDS i = Some cmd ->
  TexTextGuiGTK._alignment_combobox g = Some j ->
  TexTextGuiGTK.list_getitem TexTextGuiBase.ALIGNMENT_LABELS j = Some al ->
  TexTextGuiGTK._convert_callback g = Some callback ->
  let g1 := gtk_stored g text pw scale stroke in
  let md := mk_meta (TexTextGuiBase.textext_version (TexTextGuiGTK.base g)) text
              (TexTextGuiGTK.preamble_of pw) scale (TexTextGuiGTK.lower cmd) al stroke in
  TexTextGuiGTK.cb_ok g
  = match callback md with
    | None =>
        (Ret false,
         TexTextGuiGTK.emit TexTextGuiGTK.Quit
           (TexTextGuiGTK.emit (TexTextGuiGTK.Convert md) g1))
    | Some e =>
        if is_Exception e
        then gtk_handler e (TexTextGuiGTK.emit (TexTextGuiGTK.Convert md) g1)
        else (Raise e, TexTextGuiGTK.emit (TexTextGuiGTK.Convert md) g1)
    end.
Proof.
  intros Hsb Hpw Hsa Hcs Htc Hcmd Hac Hal Hcb g1 md.
  destruct g as [b cb sb pw' sa cs tc ac w ds lg]. cbn in Hsb, Hpw, Hsa, Hcs, Htc, Hac, Hcb.
  subst sb pw' sa cs tc ac cb.
  unfold TexTextGuiGTK.cb_ok, TexTextGuiGTK.getattr.
  unfold bind at 1, get. cbn. unfold try_except.
  rewrite bind_ret_eq, Hcmd, bind_lift_opt_Some, bind_ret_eq, Hal, bind_lift_opt_Some.
  change (fun s : TexTextGuiGTK.t => (Ret s, s)) with (@get TexTextGuiGTK.t).
  rewrite bind_get. cbn [TexTextGuiGTK._convert_callback TexTextGuiGTK.set_base].
  rewrite bind_lift_opt_Some, bind_modify.
  subst md g1. cbn.
  destruct (callback _) as [e|]; [|reflexivity].
  unfold raise. destruct (is_Exception e); reflexivity.
Qed.

(** [cb_ok] when an index is out of range: the handler takes the
    [IndexError], before the callback is looked at. *)
Lemma gtk_cb_ok_index_error g text pw scale stroke i j :
  TexTextGuiGTK._source_buffer g = Some text ->
  TexTextGuiGTK._preamble_widget g = Some pw ->
  TexTextGuiGTK._scale_adj g = Some scale ->
  TexTextGuiGTK._conv_stroke2path g = Some stroke ->
  TexTextGuiGTK._texcmd_cbox g = Some i ->
  TexTextGuiGTK._alignment_combobox g = Some j ->
  TexTextGuiGTK.list_getitem TexTextGuiBase.TEX_COMMANDS i = None
  \/ TexTextGuiGTK.list_getitem TexTextGuiBase.ALIGNMENT_LABELS j = None ->
  TexTextGuiGTK.cb_ok g
  = gtk_handler (exn IndexError "list index out of range") (gtk_stored g text pw scale stroke).
Proof.
  intros Hsb Hpw Hsa Hcs Htc Hac Hnone.
  destruct g as [b cb sb pw' sa cs tc ac w ds lg]. cbn in Hsb, Hpw, Hsa, Hcs, Htc, Hac.
  subst sb pw' sa cs tc ac.
  unfold TexTextGuiGTK.cb_ok, TexTextGuiGTK.getattr.
  unfold bind at 1, get. cbn. unfold try_except.
  rewrite bind_ret_eq.
  destruct (TexTextGuiGTK.list_getitem TexTextGuiBase.TEX_COMMANDS i) as [cmd|] eqn:Hcmd.
  - destruct Hnone as [Hn|Hn]; [discriminate|].
    rewrite bind_lift_opt_Some, bind_ret_eq, Hn, bind_lift_opt_None. reflexivity.
  - rewrite bind_lift_opt_None. reflexivity.
Qed.

Lemma gtk_handler_log e s r s' :
  gtk_handler e s = (r, s') ->
  TexTextGuiGTK.log s' = TexTextGuiGTK.log s /\ TexTextGuiGTK.base s' = TexTextGuiGTK.base s.
Proof.
  unfold gtk_handler, bind at 1.
  destruct (TexTextGuiGTK.show_error_dialog _ _ e s) as [r0 s0] eqn:Hdlg.
  apply gtk_show_error_dialog_spec in Hdlg as (Hbase & Hlog & _).
  destruct r0; intros [= <- <-]; auto.
Qed.

(** A run of [cb_ok] whose log shows a call of the callback: the widgets
    were in place and the two indices in range. *)
Lemma gtk_cb_ok_called g r g' node_meta_data rest :
  TexTextGuiGTK.cb_ok g = (r, g') ->
  TexTextGuiGTK.log g'
  = (TexTextGuiGTK.log g ++ TexTextGuiGTK.Convert node_meta_data :: rest)%list ->
  exists text pw scale stroke i j cmd al callback,
    TexTextGuiGTK._source_buffer g = Some text
    /\ TexTextGuiGTK._preamble_widget g = Some pw
    /\ TexTextGuiGTK._scale_adj g = Some scale
    /\ TexTextGuiGTK._conv_stroke2path g = Some stroke
    /\ TexTextGuiGTK._texcmd_cbox g = Some i
    /\ TexTextGuiGTK.list_getitem TexTextGuiBase.TEX_COMMANDS i = Some cmd
    /\ TexTextGuiGTK._alignment_combobox g = Some j
    /\ TexTextGuiGTK.list_getitem TexTextGuiBase.ALIGNMENT_LABELS j = Some al
    /\ TexTextGuiGTK._convert_callback g = Some callback
    /\ node_meta_data
       = mk_meta (TexTextGuiBase.textext_version (TexTextGuiGTK.base g)) text
           (TexTextGuiGTK.preamble_of pw) scale (TexTextGuiGTK.lower cmd) al stroke
    /\ TexTextGuiGTK.base g' = TexTextGuiGTK.base (gtk_stored g text pw scale stroke)
    /\ rest = match callback node_meta_data with
              | None => [TexTextGuiGTK.Quit]
              | Some _ => []
              end.
Proof.
  intros Hrun Hlog.
  destruct (TexTextGuiGTK._source_buffer g) as [text|] eqn:Hsb.
  2: { exfalso. destruct g as [b cb sb pw sa cs tc ac w ds lg]. cbn in Hsb. subst sb.
       injection Hrun as <- <-. now apply app_cons_not_self in Hlog. }
  destruct (TexTextGuiGTK._preamble_widget g) as [pw|] eqn:Hpw.
  2: { exfalso. destruct g as [b cb sb pw sa cs tc ac w ds lg]. cbn in Hsb, Hpw. subst sb pw.
       injection Hrun as <- <-. now apply app_cons_not_self in Hlog. }
  destruct (TexTextGuiGTK._scale_adj g) as [scale|] eqn:Hsa.
  2: { exfalso. destruct g as [b cb sb pw' sa cs tc ac w ds lg]. cbn in Hsb, Hpw, Hsa.
       subst sb pw' sa. injection Hrun as <- <-. now apply app_cons_not_self in Hlog. }
  destruct (TexTextGuiGTK._conv_stroke2path g) as [stroke|] eqn:Hcs.
  2: { exfalso. destruct g as [b cb sb pw' sa cs tc ac w ds lg]. cbn in Hsb, Hpw, Hsa, Hcs.
       subst sb pw' sa cs. injection Hrun as <- <-. now apply app_cons_not_self in Hlog. }
  assert (Hno : forall e0 s0, TexTextGuiGTK.log s0 = TexTextGuiGTK.log g ->
                              gtk_handler e0 s0 <> (r, g')).
  { intros e0 s0 Hs0 Hh. apply gtk_handler_log in Hh as [Hl _].
    rewrite Hlog, Hs0 in Hl. symmetry in Hl. now apply app_cons_not_self in Hl. }
  destruct (TexTextGuiGTK._texcmd_cbox g) as [i|] eqn:Htc.
  2: { exfalso. destruct g as [b cb sb pw' sa cs tc ac w ds lg].
       cbn in Hsb, Hpw, Hsa, Hcs, Htc. subst sb pw' sa cs tc.
       revert Hrun. apply Hno. reflexivity. }
  destruct (TexTextGuiGTK._alignment_combobox g) as [j|] eqn:Hac.
  2: { exfalso. destruct g as [b cb sb pw' sa cs tc ac w ds lg].
       cbn in Hsb, Hpw, Hsa, Hcs, Htc, Hac. subst sb pw' sa cs tc ac.
       unfold TexTextGuiGTK.cb_ok, TexTextGuiGTK.getattr in Hrun.
       unfold bind at 1, get in Hrun. cbn in Hrun. unfold try_except in Hrun.
       rewrite bind_ret_eq in Hrun.
       destruct (TexTextGuiGTK.list_getitem TexTextGuiBase.TEX_COMMANDS i);
         [rewrite bind_lift_opt_Some in Hrun|rewrite bind_lift_opt_None in Hrun];
         revert Hrun; apply Hno; reflexivity. }
  destruct (TexTextGuiGTK.list_getitem TexTextGuiBase.TEX_COMMANDS i) as [cmd|] eqn:Hcmd.
  2: { exfalso. rewrite (gtk_cb_ok_index_error g text pw scale stroke i j) in Hrun; auto.
       revert Hrun. apply Hno. now destruct g. }
  destruct (TexTextGuiGTK.list_getitem TexTextGuiBase.ALIGNMENT_LABELS j) as [al|] eqn:Hal.
  2: { exfalso. rewrite (gtk_cb_ok_index_error g text pw scale stroke i j) in Hrun; auto.
       revert Hrun. apply Hno. now destruct g. }
  destruct (TexTextGuiGTK._convert_callback g) as [callback|] eqn:Hcb.
  2: { exfalso. destruct g as [b cb sb pw' sa cs tc ac w ds lg].
       cbn in Hsb, Hpw, Hsa, Hcs, Htc, Hac, Hcb. subst sb pw' sa cs tc ac cb.
       unfold TexTextGuiGTK.cb_ok, TexTextGuiGTK.getattr in Hrun.
       unfold bind at 1, get in Hrun. cbn in Hrun. unfold try_except in Hrun.
       rewrite bind_ret_eq, Hcmd, bind_lift_opt_Some, bind_ret_eq, Hal, bind_lift_opt_Some in Hrun.
       change (fun s : TexTextGuiGTK.t => (Ret s, s)) with (@get TexTextGuiGTK.t) in Hrun.
       rewrite bind_get in Hrun.
       cbn [TexTextGuiGTK._convert_callback TexTextGuiGTK.set_base] in Hrun.
       rewrite bind_lift_opt_None in Hrun. revert Hrun. apply Hno. reflexivity. }
  rewrite (gtk_cb_ok_eval g text pw scale stroke i j cmd al callback) in Hrun by assumption.
  cbn zeta in Hrun.
  set (md := mk_meta (TexTextGuiBase.textext_version (TexTextGuiGTK.base g)) text
               (TexTextGuiGTK.preamble_of pw) scale (TexTextGuiGTK.lower cmd) al stroke) in *.
  exists text, pw, scale, stroke, i, j, cmd, al, callback.
  repeat (split; [first [reflexivity|assumption]|]).
  assert (Hl1 : TexTextGuiGTK.log
                  (TexTextGuiGTK.emit (TexTextGuiGTK.Convert md)
                     (gtk_stored g text pw scale stroke))
                = (TexTextGuiGTK.log g ++ [TexTextGuiGTK.Convert md])%list)
    by now destruct g.
  assert (Hb1 : TexTextGuiGTK.base
                  (TexTextGuiGTK.emit (TexTextGuiGTK.Convert md)
                     (gtk_stored g text pw scale stroke))
                = TexTextGuiGTK.base (gtk_stored g text pw scale stroke))
    by now destruct g.
  destruct (callback md) as [e|] eqn:Hcall.
  - assert (Hend : TexTextGuiGTK.log g' = (TexTextGuiGTK.log g ++ [TexTextGuiGTK.Convert md])%list
                   /\ TexTextGuiGTK.base g'
                      = TexTextGuiGTK.base (gtk_stored g text pw scale stroke)).
    { destruct (is_Exception e).
      - apply gtk_handler_log in Hrun as [Hl Hb]. now rewrite Hl, Hb, Hl1, Hb1.
      - injection Hrun as <- <-. auto. }
    destruct Hend as [Hl Hb]. rewrite Hlog in Hl. apply app_inv_head in Hl.
    injection Hl as -> ->. rewrite Hcall.
    split; [reflexivity|]. split; [exact Hb|reflexivity].
  - injection Hrun as <- <-. rewrite gtk_emit_log, Hl1, <- app_assoc in Hlog.
    apply app_inv_head in Hlog. injection Hlog as <- <-. rewrite Hcall.
    split; [reflexivity|]. split; [now destruct g|reflexivity].
Qed.

(** X13. Captured output that cannot be decoded defeats the handler.
    When the callback raises a [TexTextCommandFailed] whose standard
    output is not empty and is not valid UTF-8, the [decode] in
    [show_error_dialog] raises [UnicodeDecodeError] inside the [except]
    clause of [cb_ok], and that exception leaves [cb_ok]: in the Tk
    dialog the error window stays behind with the message alone and
    without its OK button; in the GTK dialog (with [self._window] set)
    the dialog is built but never shown.  In both the callback was
    called once and the main loop is not left. *)
Theorem undecodable_output_escapes_handler e b :
  is_TexTextCommandFailed e = true ->
  exn_stdout e = Some b -> b <> "" -> decode_utf8 b = None ->
  (forall s f,
     py_float (TexTextGuiTK._scale s) = Some f ->
     TexTextGuiTK._convert_callback s (tk_args_of s f) = Some e ->
     exists e' s',
       TexTextGuiTK.cb_ok s = (Raise e', s')
       /\ exn_cls e' = UnicodeDecodeError
       /\ TexTextGuiTK.log s'
          = (TexTextGuiTK.log s ++ [TexTextGuiTK.Convert (tk_args_of s f)])%list
       /\ TexTextGuiTK.err_dialogs s'
          = TexTextGuiTK.mk_dlg
              [("Error occurred while converting text from Latex to SVG:", exn_str e)] false
            :: TexTextGuiTK.err_dialogs s)
  /\ (forall g r g' node_meta_data rest callback window,
        TexTextGuiGTK.cb_ok g = (r, g') ->
        TexTextGuiGTK.log g'
        = (TexTextGuiGTK.log g ++ TexTextGuiGTK.Convert node_meta_data :: rest)%list ->
        TexTextGuiGTK._convert_callback g = Some callback ->
        callback node_meta_data = Some e ->
        TexTextGuiGTK._window g = Some window ->
        rest = []
        /\ (exists e', r = Raise e' /\ exn_cls e' = UnicodeDecodeError)
        /\ TexTextGuiGTK.dialogs g'
           = TexTextGuiGTK.mk_dialog "TexText Error"
               "<b>Error occurred while converting text from Latex to SVG:</b>"
               [(None, exn_str e)] false
             :: TexTextGuiGTK.dialogs g).
Proof.
  intros Hcls Hout Hne Hdec.
  assert (Hexc : is_Exception e = true).
  { unfold is_TexTextCommandFailed in Hcls. unfold is_Exception.
    now destruct (exn_cls e). }
  split.
  - intros s f Hscale Hcb.
    rewrite (tk_cb_ok_valid s f Hscale).
    assert (Hcb' : TexTextGuiTK._convert_callback (tk_stored s f)
                     (TexTextGuiTK.mk_args
                        (TexTextGuiBase.text (TexTextGuiTK.base (tk_stored s f)))
                        (TexTextGuiBase.preamble_file (TexTextGuiTK.base (tk_stored s f)))
                        (TexTextGuiBase.global_scale_factor
                           (TexTextGuiTK.base (tk_stored s f)))
                        (TexTextGuiTK._alignment_tk_str (tk_stored s f))
                        (TexTextGuiTK._tex_command_tk_str (tk_stored s f))
                        (TexTextGuiBase.current_convert_strokes_to_path
                           (TexTextGuiTK.base (tk_stored s f)))) = Some e)
      by (rewrite tk_stored_args; destruct s; exact Hcb).
    rewrite (tk_convert_and_quit_raises _ e Hcb'), Hexc, tk_stored_args.
    rewrite (tk_show_error_dialog_undecodable _ _ e b _ Hcls Hout Hne Hdec).
    eexists _, _. split; [reflexivity|]. split; [reflexivity|].
    destruct s; cbn. split; reflexivity.
  - intros g r g' md rest callback window Hrun Hlog Hcb Hraise Hwin.
    destruct (gtk_cb_ok_called _ _ _ _ _ Hrun Hlog)
      as (text & pw & scale & stroke & i & j & cmd & al & callback'
          & Hsb & Hpw & Hsa & Hcs & Htc & Hcmd & Hac & Hal & Hcb' & Hmd & Hbase & Hrest).
    rewrite Hcb in Hcb'. injection Hcb' as <-. rewrite Hraise in Hrest.
    split; [exact Hrest|].
    rewrite (gtk_cb_ok_eval g text pw scale stroke i j cmd al callback) in Hrun by assumption.
    cbn zeta in Hrun. rewrite <- Hmd, Hraise, Hexc in Hrun.
    unfold gtk_handler in Hrun.
    assert (Hwin1 : TexTextGuiGTK._window
                      (TexTextGuiGTK.emit (TexTextGuiGTK.Convert md)
                         (gtk_stored g text pw scale stroke)) = Some window)
      by now destruct g.
    rewrite (bind_Raise _ _ _ _ _
               (gtk_show_error_dialog_undecodable _ _ e b _ window Hcls Hout Hne Hdec Hwin1))
      in Hrun.
    injection Hrun as <- <-. split; [eexists; split; reflexivity|]. now destruct g.
Qed.
End MoreGtkOk.

(** * More of the GTK dialog: the editor *)

Section MoreGtkEditor.
Context `{Builtins}.

(** ** The position label *)

Lemma column_spec {S} tabwidth chars col (s : S) :
  (1 <= tabwidth)%Z -> (0 <= col)%Z ->
  exists col',
    GtkEditor.column tabwidth chars col s = (Ret col', s)
    /\ (col + Z.of_nat (length chars) <= col')%Z
    /\ (col' <= col + Z.of_nat (length chars) * tabwidth)%Z
    /\ (GtkEditor.tab ∉ chars -> col' = (col + Z.of_nat (length chars))%Z).
Proof.
  intros Htw. revert col.
  induction chars as [|c chars IH]; intros col Hcol; cbn [GtkEditor.column].
  - exists col. cbn. split; [reflexivity|]. lia.
  - cbn [length]. rewrite Nat2Z.inj_succ.
    destruct (String.eqb_spec c GtkEditor.tab) as [->|Hc].
    + destruct (Z.eqb_spec tabwidth 0); [lia|].
      pose proof (Z.mod_pos_bound col tabwidth ltac:(lia)) as Hmod.
      destruct (IH (col + (tabwidth - col mod tabwidth))%Z ltac:(lia))
        as (col' & Hrun & Hlow & Hhigh & _).
      exists col'. split; [exact Hrun|]. split; [lia|]. split; [lia|].
      intros Hnot. exfalso. apply Hnot. left.
    + destruct (IH (col + 1)%Z ltac:(lia)) as (col' & Hrun & Hlow & Hhigh & Hnotab).
      exists col'. split; [exact Hrun|]. split; [lia|]. split; [nia|].
      intros Hnot. rewrite Hnotab; [lia|]. intros Hin. apply Hnot. now right.
Qed.

Lemma column_app {S} tabwidth chars1 chars2 col (s : S) :
  GtkEditor.column tabwidth (chars1 ++ chars2)%list col s
  = bind (GtkEditor.column tabwidth chars1 col) (GtkEditor.column tabwidth chars2) s.
Proof.
  revert col. induction chars1 as [|c chars1 IH]; intros col; cbn [GtkEditor.column app].
  - reflexivity.
  - destruct (String.eqb c GtkEditor.tab); [|apply IH].
    destruct (tabwidth =? 0)%Z; [reflexivity|apply IH].
Qed.


(** X15. A tab character moves the column to the next tab stop: for a
    tab width of at least one, the column after the characters [chars]
    followed by a tab is the least multiple of the tab width above the
    column after [chars] alone (columns counted from zero, as the loop
    of [update_position_label] does), so a tab always advances, by at
    most the tab width; and the loop over two pieces of a line is the
    loop over the first followed by the loop over the second from where
    the first ended. *)
Theorem column_tab_stop {S} tabwidth chars col (s : S) :
  (1 <= tabwidth)%Z -> (0 <= col)%Z ->
  exists before after,
    GtkEditor.column tabwidth chars col s = (Ret before, s)
    /\ GtkEditor.column tabwidth (chars ++ [GtkEditor.tab])%list col s = (Ret after, s)
    /\ after = (tabwidth * (before / tabwidth + 1))%Z
    /\ (before < after <= before + tabwidth)%Z
    /\ (after mod tabwidth = 0)%Z
    /\ forall rest,
         GtkEditor.column tabwidth (chars ++ GtkEditor.tab :: rest)%list col s
         = GtkEditor.column tabwidth rest after s.
Proof.
  intros Htw Hcol.
  destruct (column_spec tabwidth chars col s Htw Hcol) as (before & Hrun & Hlow & _).
  exists before, (before + (tabwidth - before mod tabwidth))%Z.
  assert (Htab : forall rest,
            GtkEditor.column tabwidth (chars ++ GtkEditor.tab :: rest)%list col s
            = GtkEditor.column tabwidth rest
                (before + (tabwidth - before mod tabwidth))%Z s).
  { intros rest. rewrite column_app, (bind_Ret _ _ _ _ _ Hrun). cbn [GtkEditor.column].
    rewrite String.eqb_refl. destruct (Z.eqb_spec tabwidth 0); [lia|reflexivity]. }
  pose proof (Z.mod_pos_bound before tabwidth ltac:(lia)) as Hmod.
  pose proof (Z.div_mod before tabwidth ltac:(lia)) as Hdiv.
  split; [exact Hrun|]. split; [apply Htab|]. split; [lia|]. split; [lia|].
  split; [|exact Htab].
  replace (before + (tabwidth - before mod tabwidth))%Z
    with ((before / tabwidth + 1) * tabwidth)%Z by lia.
  apply Z.mod_mul. lia.
Qed.

End MoreGtkEditor.

(** * More of the GTK dialog: the menu and the keyboard *)

Section MoreGtkMenu.
Context `{Builtins}.

Lemma store_Ret key value s d :
  GtkEditor.config s !! "gui" = Some (Dict d) ->
  GtkEditor.store key value s
  = (Ret tt,
     GtkEditor.set_gui
       (TexTextGuiGTK.set_base
          (TexTextGuiBase.set_config
             (<["gui" := Dict (<[key := value]> d)]> (GtkEditor.config s)))) s).
Proof.
  intros Hgui. unfold GtkEditor.store. rewrite bind_get.
  unfold bind. now rewrite (gui_set_dict _ d _ _ _ Hgui).
Qed.

Lemma store_Raise key value s :
  (forall d, GtkEditor.config s !! "gui" <> Some (Dict d)) ->
  exists e, GtkEditor.store key value s = (Raise e, s) /\ exn_cls e = TypeError.
Proof.
  intros Hgui. unfold GtkEditor.store. rewrite bind_get. unfold bind, gui_set.
  destruct (GtkEditor.config s !! "gui") as [[a|d]|].
  - eexists. split; reflexivity.
  - now destruct (Hgui d).
  - eexists. split; reflexivity.
Qed.

Lemma config_set_gui c s :
  GtkEditor.config (GtkEditor.set_gui (TexTextGuiGTK.set_base (TexTextGuiBase.set_config c)) s) = c.
Proof. reflexivity. Qed.

(** X17. Each toggle item of the menu, and the tab-width item, sets its
    property of the source view and then writes one key of the ["gui"]
    sub-section, with the value the action reports: the other keys of
    the sub-section, the other entries of the store, the buttons and
    the log are as before, and reading the key back gives the value
    written.  When the store has no mapping under ["gui"] the
    assignment raises [TypeError], after the view was changed. *)
Theorem menu_item_writes_one_key item s :
  match GtkEditor.config s !! "gui" with
  | Some (Dict d) =>
      exists s',
        GtkEditor.activate item s = (Ret tt, s')
        /\ GtkEditor.config s'
           = <["gui" := Dict (<[menu_key item := menu_value item]> d)]> (GtkEditor.config s)
        /\ GtkEditor.view s' = menu_view item (GtkEditor.view s)
        /\ (forall key default,
              gui_get (GtkEditor.config s') key default tt
              = (Ret (if decide (key = menu_key item) then menu_value item
                      else match d !! key with Some v => v | None => default end), tt))
        /\ clicks s' = clicks s
        /\ TexTextGuiGTK.log (GtkEditor.gui s') = TexTextGuiGTK.log (GtkEditor.gui s)
  | _ =>
      exists e,
        GtkEditor.activate item s = (Raise e, GtkEditor.set_view (menu_view item) s)
        /\ exn_cls e = TypeError
  end.
Proof.
  destruct (GtkEditor.config s !! "gui") as [[a|d]|] eqn:Hgui.
  - assert (Hno : forall d, GtkEditor.config (GtkEditor.set_view (menu_view item) s) !! "gui"
                            <> Some (Dict d)).
    { intros d. change (GtkEditor.config s !! "gui" <> Some (Dict d)). now rewrite Hgui. }
    destruct (store_Raise (menu_key item) (menu_value item) _ Hno) as (e & Hst & Hcls).
    exists e. split; [|exact Hcls].
    destruct item; cbn [GtkEditor.activate]; cbn [menu_key menu_value menu_view] in Hst;
      unfold GtkEditor.numbers_toggled_cb, GtkEditor.auto_indent_toggled_cb,
        GtkEditor.insert_spaces_toggled_cb, GtkEditor.on_preview_background_chagned,
        GtkEditor.tabs_toggled_cb, GtkEditor.confirm_close_toggled_cb;
      rewrite ?bind_modify; first [exact Hst | destruct s; exact Hst].
  - assert (Hd : GtkEditor.config (GtkEditor.set_view (menu_view item) s) !! "gui"
                 = Some (Dict d)) by exact Hgui.
    pose proof (store_Ret (menu_key item) (menu_value item) _ d Hd) as Hst.
    match type of Hst with _ = (_, ?s1) => exists s1 end. split.
    { destruct item; cbn [GtkEditor.activate]; cbn [menu_key menu_value menu_view] in Hst;
        unfold GtkEditor.numbers_toggled_cb, GtkEditor.auto_indent_toggled_cb,
          GtkEditor.insert_spaces_toggled_cb, GtkEditor.on_preview_background_chagned,
          GtkEditor.tabs_toggled_cb, GtkEditor.confirm_close_toggled_cb;
        rewrite ?bind_modify; first [exact Hst | destruct s; exact Hst]. }
    rewrite config_set_gui. split; [reflexivity|]. split; [reflexivity|].
    split; [|split; reflexivity].
    intros key default. erewrite gui_get_dict by apply lookup_insert_eq.
    destruct (decide (key = menu_key item)) as [->|Hne].
    + now rewrite lookup_insert_eq.
    + now rewrite lookup_insert_ne by congruence.
  - assert (Hno : forall d, GtkEditor.config (GtkEditor.set_view (menu_view item) s) !! "gui"
                            <> Some (Dict d)).
    { intros d. change (GtkEditor.config s !! "gui" <> Some (Dict d)). now rewrite Hgui. }
    destruct (store_Raise (menu_key item) (menu_value item) _ Hno) as (e & Hst & Hcls).
    exists e. split; [|exact Hcls].
    destruct item; cbn [GtkEditor.activate]; cbn [menu_key menu_value menu_view] in Hst;
      unfold GtkEditor.numbers_toggled_cb, GtkEditor.auto_indent_toggled_cb,
        GtkEditor.insert_spaces_toggled_cb, GtkEditor.on_preview_background_chagned,
        GtkEditor.tabs_toggled_cb, GtkEditor.confirm_close_toggled_cb;
      rewrite ?bind_modify; first [exact Hst | destruct s; exact Hst].
Qed.

Lemma getitem_None {A} (l : list A) i :
  GtkEditor.getitem l i = None
  <-> (Z.of_nat (length l) <= i \/ i < - Z.of_nat (length l))%Z.
Proof.
  unfold GtkEditor.getitem.
  destruct (Z.leb_spec 0 i).
  - rewrite lookup_ge_None. lia.
  - destruct (Z.leb_spec (- Z.of_nat (length l)) i); [|split; [lia|reflexivity]].
    rewrite lookup_ge_None. lia.
Qed.

Lemma getitem_elem_of {A} (l : list A) i x : GtkEditor.getitem l i = Some x -> x ∈ l.
Proof.
  unfold GtkEditor.getitem.
  destruct (0 <=? i)%Z; [apply list_elem_of_lookup_2|].
  destruct (_ <=? i)%Z; [apply list_elem_of_lookup_2|discriminate].
Qed.

(** X18. The radio items for the font size and for the content of a new
    node store the entry of their class list at the index the action
    reports, so the stored font size is one of 11, 12, 14 and 16 and the
    stored content one of ["Empty"], ["InlineMath"], ["DisplayMath"];
    [font_size_cb] then sets the font of the view to "monospace" with
    that size (or leaves it, without Pango).  For an index outside the
    list both raise [IndexError] before anything is changed. *)
Theorem radio_items_store_list_entry pango i s d :
  GtkEditor.config s !! "gui" = Some (Dict d) ->
  match GtkEditor.getitem GtkEditor.FONT_SIZE i with
  | Some size =>
      size ∈ GtkEditor.FONT_SIZE
      /\ exists s',
           GtkEditor.font_size_cb pango i s = (Ret tt, s')
           /\ GtkEditor.config s'
              = <["gui" := Dict (<["font_size" := AInt size]> d)]> (GtkEditor.config s)
           /\ GtkEditor.view s'
              = (if pango
                 then GtkEditor.modify_font ("monospace " ++ pretty size) (GtkEditor.view s)
                 else GtkEditor.view s)
  | None =>
      (4 <= i \/ i < -4)%Z
      /\ GtkEditor.font_size_cb pango i s
         = (Raise (exn IndexError "list index out of range"), s)
  end
  /\ match GtkEditor.getitem GtkEditor.NEW_NODE_CONTENT i with
     | Some content =>
         content ∈ GtkEditor.NEW_NODE_CONTENT
         /\ exists s',
              GtkEditor.new_node_content_cb i s = (Ret tt, s')
              /\ GtkEditor.config s'
                 = <["gui" := Dict (<["new_node_content" := AStr content]> d)]>
                     (GtkEditor.config s)
              /\ GtkEditor.view s' = GtkEditor.view s
     | None =>
         (3 <= i \/ i < -3)%Z
         /\ GtkEditor.new_node_content_cb i s
            = (Raise (exn IndexError "list index out of range"), s)
     end.
Proof.
  intros Hgui. split.
  - destruct (GtkEditor.getitem GtkEditor.FONT_SIZE i) as [size|] eqn:Hsize.
    + split; [now apply getitem_elem_of in Hsize|].
      unfold GtkEditor.font_size_cb. rewrite Hsize, bind_lift_opt_Some.
      rewrite (bind_Ret _ _ _ _ _ (store_Ret "font_size" (AInt size) s d Hgui)), bind_get.
      rewrite config_set_gui. unfold bind at 1.
      erewrite gui_get_dict by apply lookup_insert_eq. rewrite lookup_insert_eq.
      destruct pango; cbn; eexists; repeat split; now destruct s.
    + split; [apply getitem_None in Hsize; cbn in Hsize; lia|].
      unfold GtkEditor.font_size_cb. now rewrite Hsize, bind_lift_opt_None.
  - destruct (GtkEditor.getitem GtkEditor.NEW_NODE_CONTENT i) as [content|] eqn:Hcontent.
    + split; [now apply getitem_elem_of in Hcontent|].
      unfold GtkEditor.new_node_content_cb. rewrite Hcontent, bind_lift_opt_Some.
      rewrite (store_Ret "new_node_content" (AStr content) s d Hgui).
      eexists. repeat split.
    + split; [apply getitem_None in Hcontent; cbn in Hcontent; lia|].
      unfold GtkEditor.new_node_content_cb. now rewrite Hcontent, bind_lift_opt_None.
Qed.

(** ** The keyboard *)

(** X20. [cb_key_press] clicks at most one button, and reports the
    event handled exactly when it clicked one: it ends by returning
    [True] with one more click on the OK, the preview or the cancel
    button and nothing else changed, or by returning [False] with the
    object as it was, or by raising [AttributeError] (an attribute is
    not set) with the object as it was.  The OK button takes
    Ctrl+Return and the preview button Ctrl+p only; the cancel button is
    clicked only for the stored close shortcut (["Escape"] when none is
    stored): Escape for ["Escape"], Ctrl+q for ["CtrlQ"]. *)
Theorem cb_key_press_clicks_one_button event s r s' :
  GtkEditor.cb_key_press event s = (r, s') ->
  (r = Ret true
   /\ ((exists b, GtkEditor._ok_button s = Some b
                  /\ s' = GtkEditor.set_ok_button (GtkEditor.clicked b) s
                  /\ GtkEditor.name_is event "Return" = true
                  /\ ctrl_is_pressed event = true)
       \/ (exists b, GtkEditor._preview_button s = Some b
                     /\ s' = GtkEditor.set_preview_button (GtkEditor.clicked b) s
                     /\ GtkEditor.name_is event "p" = true
                     /\ ctrl_is_pressed event = true)
       \/ (exists b d,
             GtkEditor._cancel_button s = Some b
             /\ s' = GtkEditor.set_cancel_button (GtkEditor.clicked b) s
             /\ GtkEditor.config s !! "gui" = Some (Dict d)
             /\ let shortcut := default (AStr "Escape") (d !! "close_shortcut") in
                (shortcut = AStr "Escape" /\ GtkEditor.name_is event "Escape" = true)
                \/ (shortcut = AStr "CtrlQ" /\ GtkEditor.name_is event "q" = true
                    /\ ctrl_is_pressed event = true))))
  \/ (r = Ret false /\ s' = s)
  \/ (exists e, r = Raise e /\ exn_cls e = AttributeError /\ s' = s).
Proof.
  unfold GtkEditor.cb_key_press. fold (ctrl_is_pressed event).
  destruct (GtkEditor.name_is event "Return" && ctrl_is_pressed event) eqn:Hret.
  { apply andb_prop in Hret as [Hname Hctrl]. rewrite bind_get.
    unfold TexTextGuiGTK.getattr.
    destruct (GtkEditor._ok_button s) as [b|] eqn:Hb.
    - rewrite bind_lift_opt_Some, bind_modify. intros [= <- <-].
      left. split; [reflexivity|]. left. eauto.
    - rewrite bind_lift_opt_None. intros [= <- <-]. right. right. eauto. }
  destruct (GtkEditor.name_is event "p" && ctrl_is_pressed event) eqn:Hp.
  { apply andb_prop in Hp as [Hname Hctrl]. rewrite bind_get.
    unfold TexTextGuiGTK.getattr.
    destruct (GtkEditor._preview_button s) as [b|] eqn:Hb.
    - rewrite bind_lift_opt_Some, bind_modify. intros [= <- <-].
      left. split; [reflexivity|]. right. left. eauto.
    - rewrite bind_lift_opt_None. intros [= <- <-]. right. right. eauto. }
  rewrite bind_get. unfold bind at 1, gui_get.
  destruct (GtkEditor.config s !! "gui") as [[a|d]|] eqn:Hgui;
    [intros [= <- <-]; right; right; eauto| |intros [= <- <-]; right; right; eauto].
  cbn [ret].
  fold (default (AStr TexTextGuiBase.DEFAULT_CLOSE_SHORTCUT) (d !! "close_shortcut")).
  set (shortcut := match d !! "close_shortcut" with Some v => v | None => _ end).
  destruct (_ || _) eqn:Hcancel; [|intros [= <- <-]; right; left; auto].
  unfold TexTextGuiGTK.getattr.
  destruct (GtkEditor._cancel_button s) as [b|] eqn:Hb.
  - rewrite bind_lift_opt_Some, bind_modify. intros [= <- <-].
    left. split; [reflexivity|]. right. right. exists b, d.
    split; [reflexivity|]. split; [reflexivity|]. split; [reflexivity|].
    change (default (AStr "Escape") (d !! "close_shortcut")) with shortcut. cbn zeta.
    apply orb_prop in Hcancel as [Hc|Hc].
    + apply andb_prop in Hc as [Hs Hn]. left. split; [|exact Hn].
      destruct shortcut as [| | |x]; try discriminate Hs.
      cbn in Hs. apply String.eqb_eq in Hs. now subst x.
    + apply andb_prop in Hc as [Hc Hctrl]. apply andb_prop in Hc as [Hs Hn].
      right. split; [|split; assumption].
      destruct shortcut as [| | |x]; try discriminate Hs.
      cbn in Hs. apply String.eqb_eq in Hs. now subst x.
  - rewrite bind_lift_opt_None. intros [= <- <-]. right. right. eauto.
Qed.
End MoreGtkMenu.

(** * More of the GTK dialog: the window *)

Section MoreGtkWindow.
Context `{Builtins}.

Lemma get_object_has_objects name (b : gmap string TexTextGuiGTK.Widget) :
  has_objects b -> name ∈ window_objects ->
  exists w, TexTextGuiGTK.get_object name b = (Ret w, b).
Proof.
  intros Hb Hname. destruct (Hb name Hname) as [w Hw].
  exists w. unfold TexTextGuiGTK.get_object. rewrite bind_get, Hw. reflexivity.
Qed.

Lemma update_has_objects name f (b : gmap string TexTextGuiGTK.Widget) :
  has_objects b -> name ∈ window_objects ->
  exists b', TexTextGuiGTK.update name f b = (Ret tt, b') /\ has_objects b'.
Proof.
  intros Hb Hname. destruct (get_object_has_objects name b Hb Hname) as [w Hw].
  exists (<[name := f w]> b). unfold TexTextGuiGTK.update.
  rewrite (bind_Ret _ _ _ _ _ Hw). split; [reflexivity|].
  intros name' Hname'. destruct (decide (name' = name)) as [->|Hne].
  - rewrite lookup_insert_eq. eauto.
  - rewrite lookup_insert_ne by congruence. now apply Hb.
Qed.

Ltac in_objects :=
  unfold window_objects;
  repeat first [apply list_elem_of_here | apply list_elem_of_further].

Ltac window_step :=
  match goal with
  | Hb : has_objects ?b |- context [bind (TexTextGuiGTK.update ?n ?f) ?k ?b] =>
      let b' := fresh "b" in let Hu := fresh "Hu" in let Hb' := fresh "Hb" in
      destruct (update_has_objects n f b Hb ltac:(in_objects)) as (b' & Hu & Hb');
      rewrite (bind_Ret _ _ _ _ _ Hu); clear Hu Hb; cbn beta
  | Hb : has_objects ?b |- context [bind (TexTextGuiGTK.get_object ?n) ?k ?b] =>
      let w := fresh "w" in let Hg := fresh "Hg" in
      destruct (get_object_has_objects n b Hb ltac:(in_objects)) as (w & Hg);
      rewrite (bind_Ret _ _ _ _ _ Hg); clear Hg; cbn beta
  end.

Lemma list_index_is_Some x l : x ∈ l -> is_Some (TexTextGuiGTK.list_index x l).
Proof.
  intros Hin. destruct (TexTextGuiGTK.list_index x l) eqn:Hx; [eauto|].
  now apply list_index_None in Hx.
Qed.

(** [create_window] of a constructed object whose alignment is one of the
    labels, on a builder with the objects of the window description. *)
Lemma gtk_create_window_Ret TOOLKIT pango self (glade : gmap string TexTextGuiGTK.Widget)
    g d i j :
  has_objects glade ->
  TexTextGuiBase.global_scale_factor (TexTextGuiGTK.base self) = Atom (AFloat g) ->
  TexTextGuiBase._config (TexTextGuiGTK.base self) !! "gui" = Some (Dict d) ->
  TexTextGuiGTK.list_index (TexTextGuiBase.current_texcmd (TexTextGuiGTK.base self))
    TexTextGuiBase.TEX_COMMANDS = Some i ->
  TexTextGuiGTK.list_index (TexTextGuiBase.current_alignment (TexTextGuiGTK.base self))
    TexTextGuiBase.ALIGNMENT_LABELS = Some j ->
  exists window,
    TexTextGuiGTK.create_window TOOLKIT pango self glade = (Ret tt, window)
    /\ has_objects window.
Proof.
  intros Hglade Hg Hd Hi Hj.
  unfold TexTextGuiGTK.create_window, TexTextGuiGTK.set_monospace_font.
  cbn zeta. rewrite Hi, Hg, Hj.
  do 2 window_step. rewrite bind_lift_opt_Some. do 7 window_step.
  cbn [fmt_3f]. rewrite bind_ret_eq. do 4 window_step.
  rewrite bind_lift_opt_Some. do 3 window_step.
  match goal with
  | Hb : has_objects ?b |- context [bind _ _ ?b] =>
      assert (Hfont : exists b',
                (if pango
                 then TexTextGuiGTK.update "tev_texcode"
                        (TexTextGuiGTK.modify_font
                           ("monospace " ++ pretty TexTextGuiBase.DEFAULT_FONTSIZE))
                 else ret tt) b = (Ret tt, b') /\ has_objects b')
        by (destruct pango; [apply update_has_objects; [exact Hb|in_objects] | eauto])
  end.
  destruct Hfont as (bf & Hfont & Hbf). rewrite (bind_Ret _ _ _ _ _ Hfont). clear Hfont.
  window_step. unfold bind at 1. rewrite (gui_get_dict _ d _ _ _ Hd).
  window_step.
  destruct (toolkit_eqb TOOLKIT GTK); [|eauto].
  do 3 window_step.
  match goal with
  | Hb : has_objects ?b |- context [TexTextGuiGTK.update _ _ ?b] =>
      apply update_has_objects; [exact Hb|in_objects]
  end.
Qed.

(** [create_window] when the alignment is not one of the labels. *)
Lemma gtk_create_window_Raise TOOLKIT pango self (glade : gmap string TexTextGuiGTK.Widget)
    g i :
  has_objects glade ->
  TexTextGuiBase.global_scale_factor (TexTextGuiGTK.base self) = Atom (AFloat g) ->
  TexTextGuiGTK.list_index (TexTextGuiBase.current_texcmd (TexTextGuiGTK.base self))
    TexTextGuiBase.TEX_COMMANDS = Some i ->
  TexTextGuiGTK.list_index (TexTextGuiBase.current_alignment (TexTextGuiGTK.base self))
    TexTextGuiBase.ALIGNMENT_LABELS = None ->
  exists e window,
    TexTextGuiGTK.create_window TOOLKIT pango self glade = (Raise e, window)
    /\ exn_cls e = ValueError.
Proof.
  intros Hglade Hg Hi Hj.
  unfold TexTextGuiGTK.create_window, TexTextGuiGTK.set_monospace_font.
  cbn zeta. rewrite Hi, Hg, Hj.
  do 2 window_step. rewrite bind_lift_opt_Some. do 7 window_step.
  cbn [fmt_3f]. rewrite bind_ret_eq. do 4 window_step.
  rewrite bind_lift_opt_None. eexists _, _. split; reflexivity.
Qed.

Lemma init_formats_and_finds version node (config : Settings) :
  (forall v, config !! "scale" = Some v -> exists f, v = Atom (AFloat f)) ->
  (forall v, config !! "gui" = Some v -> exists d, v = Dict d) ->
  let self := TexTextGuiBase.__init__ version node config in
  exists g d i,
    TexTextGuiBase.global_scale_factor self = Atom (AFloat g)
    /\ TexTextGuiBase._config self !! "gui" = Some (Dict d)
    /\ TexTextGuiGTK.list_index (TexTextGuiBase.current_texcmd self)
         TexTextGuiBase.TEX_COMMANDS = Some i.
Proof.
  intros Hscale Hgui self.
  assert (Hg : exists g, TexTextGuiBase.global_scale_factor self = Atom (AFloat g)).
  { subst self. rewrite init_global_scale_factor. unfold get_default.
    destruct (config !! "scale") as [v|] eqn:Hv; [|eauto].
    destruct (Hscale v eq_refl) as [f ->]. eauto. }
  assert (Hd : exists d, TexTextGuiBase._config self !! "gui" = Some (Dict d)).
  { subst self. rewrite init_config.
    destruct (config !! "gui") as [v|] eqn:Hv.
    - destruct (Hgui v eq_refl) as [d ->]. eauto.
    - rewrite lookup_insert_eq. eauto. }
  assert (Hcmd : is_Some (TexTextGuiGTK.list_index (TexTextGuiBase.current_texcmd self)
                            TexTextGuiBase.TEX_COMMANDS)).
  { apply list_index_is_Some. subst self. rewrite init_current_texcmd.
    destruct (TexTextGuiBase.py_in _ _) eqn:Hin; [now apply py_in_true|].
    apply list_elem_of_here. }
  destruct Hg as [g Hg], Hd as [d Hd], Hcmd as [i Hi]. eauto 10.
Qed.

(** X24. The constructor's fallback keeps [create_window] clear of the
    first of its two list searches, and nothing does for the second.
    With the objects of the window description in the builder, a stored
    scale that is missing or a [float], and a ["gui"] entry that is
    missing or a mapping, [create_window] of a constructed GTK dialog
    builds the window exactly when the alignment of the node is one of
    the nine labels; when it is not, [ALIGNMENT_LABELS.index] raises
    [ValueError], whatever the command of the node was. *)
Theorem gtk_create_window_needs_known_alignment TOOLKIT pango version node
    (config : Settings) glade :
  has_objects glade ->
  (forall v, config !! "scale" = Some v -> exists f, v = Atom (AFloat f)) ->
  (forall v, config !! "gui" = Some v -> exists d, v = Dict d) ->
  let self := TexTextGuiGTK.__init__ version node config in
  (md_alignment node ∈ TexTextGuiBase.ALIGNMENT_LABELS ->
   exists window,
     TexTextGuiGTK.create_window TOOLKIT pango self glade = (Ret tt, window)
     /\ has_objects window)
  /\ (md_alignment node ∉ TexTextGuiBase.ALIGNMENT_LABELS ->
      exists e window,
        TexTextGuiGTK.create_window TOOLKIT pango self glade = (Raise e, window)
        /\ exn_cls e = ValueError).
Proof.
  intros Hglade Hscale Hgui self.
  destruct (init_formats_and_finds version node config Hscale Hgui) as (g & d & i & Hg & Hd & Hi).
  split.
  - intros Hin. apply list_index_is_Some in Hin as [j Hj].
    now apply (gtk_create_window_Ret TOOLKIT pango self glade g d i j).
  - intros Hnot. apply list_index_None in Hnot.
    now apply (gtk_create_window_Raise TOOLKIT pango self glade g i).
Qed.

(** [show] when [create_window] builds the window. *)
Lemma gtk_show_Ret TOOLKIT pango (glade : gmap string TexTextGuiGTK.Widget) callback g0 window :
  TexTextGuiGTK.create_window TOOLKIT pango
    (TexTextGuiGTK.set_convert_callback callback g0) glade = (Ret tt, window) ->
  has_objects window ->
  exists window',
    TexTextGuiGTK.show TOOLKIT pango glade callback g0
    = (Ret window', TexTextGuiGTK.set_convert_callback callback g0).
Proof.
  intros Hcw Hwindow. unfold TexTextGuiGTK.show. rewrite bind_modify, bind_get.
  unfold bind at 1, TexTextGuiGTK.run_on. rewrite (bind_Ret _ _ _ _ _ Hcw).
  window_step.
  match goal with
  | Hb : has_objects ?b |- context [TexTextGuiGTK.update ?n ?f ?b] =>
      destruct (update_has_objects n f b Hb ltac:(in_objects)) as (b' & -> & _)
  end.
  eexists. reflexivity.
Qed.

(** ** The object [show] leaves *)

Lemma gtk_show_state TOOLKIT pango glade callback g0 window g :
  TexTextGuiGTK.show TOOLKIT pango glade callback g0 = (Ret window, g) ->
  g = TexTextGuiGTK.set_convert_callback callback g0.
Proof.
  unfold TexTextGuiGTK.show. rewrite bind_modify, bind_get.
  intros Hshow. inv_step. unfold TexTextGuiGTK.run_on in Hstep.
  destruct (bind _ _ glade) as [[u|e] b]; [|discriminate Hstep].
  injection Hstep as <- <-. now inv_step.
Qed.

(** X25. What the handlers of the GTK dialog do on the object as the
    constructor and [show] leave it, where the widgets and buttons they
    read are attributes no statement assigns.  [cb_ok] raises
    [AttributeError] at its first statement, with the object unchanged
    and the callback not called.  [update_preview] returns without
    doing anything when [show] was given no preview callback, and
    raises [AttributeError] when it was given one.  [cb_key_press]
    handles no key: every run of it leaves the object as it is and ends
    by returning [False] or by raising, and Ctrl+Return and Ctrl+p
    raise [AttributeError].  [close_shortcut_cb] always raises; for an
    index in the list and a store with the sub-section it raises
    [AttributeError] after the new shortcut was stored. *)
Theorem gtk_handlers_after_show TOOLKIT pango glade callback version node config window g :
  TexTextGuiGTK.show TOOLKIT pango glade callback
    (TexTextGuiGTK.__init__ version node config) = (Ret window, g) ->
  (exists e, TexTextGuiGTK.cb_ok g = (Raise e, g) /\ exn_cls e = AttributeError)
  /\ forall preview_callback view,
       let s := GtkEditor.shown g preview_callback view in
       (preview_callback = None -> GtkEditor.update_preview s = (Ret tt, s))
       /\ (preview_callback <> None ->
           exists e, GtkEditor.update_preview s = (Raise e, s) /\ exn_cls e = AttributeError)
       /\ (forall event r s',
             GtkEditor.cb_key_press event s = (r, s') -> s' = s /\ r <> Ret true)
       /\ (forall event,
             (GtkEditor.name_is event "Return" || GtkEditor.name_is event "p") = true ->
             ctrl_is_pressed event = true ->
             exists e, GtkEditor.cb_key_press event s = (Raise e, s)
                       /\ exn_cls e = AttributeError)
       /\ (forall i, exists e s',
             GtkEditor.close_shortcut_cb i s = (Raise e, s')
             /\ forall d shortcut,
                  GtkEditor.config s !! "gui" = Some (Dict d) ->
                  GtkEditor.getitem GtkEditor.CLOSE_SHORTCUT i = Some shortcut ->
                  exn_cls e = AttributeError
                  /\ GtkEditor.config s'
                     = <["gui" := Dict (<["close_shortcut" := AStr shortcut]> d)]>
                         (GtkEditor.config s)).
Proof.
  intros Hshow. apply gtk_show_state in Hshow. subst g.
  split; [eexists; split; reflexivity|].
  intros preview_callback view s. split; [|split; [|split; [|split]]].
  - intros ->. reflexivity.
  - intros Hsome. destruct preview_callback as [pc|]; [|contradiction].
    eexists. split; reflexivity.
  - intros event r s'. unfold GtkEditor.cb_key_press.
    destruct (GtkEditor.name_is event "Return" && _);
      [intros [= <- <-]; split; [reflexivity|discriminate]|].
    destruct (GtkEditor.name_is event "p" && _);
      [intros [= <- <-]; split; [reflexivity|discriminate]|].
    rewrite bind_get. unfold bind at 1.
    destruct (gui_get _ _ _ s) as [[shortcut|e] s1] eqn:Hgui;
      apply gui_get_state in Hgui as Hs1; subst s1;
      [|intros [= <- <-]; split; [reflexivity|discriminate]].
    destruct (_ || _); intros [= <- <-]; (split; [reflexivity|discriminate]).
  - intros event Hname Hctrl. unfold GtkEditor.cb_key_press. fold (ctrl_is_pressed event).
    rewrite Hctrl, !andb_true_r.
    destruct (GtkEditor.name_is event "Return"); [eexists; split; reflexivity|].
    cbn in Hname. rewrite Hname. eexists. split; reflexivity.
  - intros i. unfold GtkEditor.close_shortcut_cb.
    destruct (GtkEditor.getitem GtkEditor.CLOSE_SHORTCUT i) as [shortcut|] eqn:Hshortcut.
    + rewrite bind_lift_opt_Some.
      destruct (GtkEditor.config s !! "gui") as [[a|d]|] eqn:Hgui.
      * destruct (store_Raise "close_shortcut" (AStr shortcut) s) as (e & Hst & _);
          [intros d; now rewrite Hgui|].
        rewrite (bind_Raise _ _ _ _ _ Hst). eexists _, _. split; [reflexivity|].
        intros d sh Hd. discriminate.
      * rewrite (bind_Ret _ _ _ _ _ (store_Ret "close_shortcut" (AStr shortcut) s d Hgui)).
        rewrite bind_get. eexists _, _. split; [reflexivity|].
        intros d' sh [= <-] [= <-]. split; reflexivity.
      * destruct (store_Raise "close_shortcut" (AStr shortcut) s) as (e & Hst & _);
          [intros d; now rewrite Hgui|].
        rewrite (bind_Raise _ _ _ _ _ Hst). eexists _, _. split; [reflexivity|].
        intros d sh Hd. discriminate.
    + rewrite bind_lift_opt_None. eexists _, _. split; [reflexivity|]. discriminate.
Qed.
End MoreGtkWindow.

(** * The further properties on the sample inputs *)

Section MoreRuns.
#[local] Existing Instance Decimal.builtins.

(** X1 for a store with a scale of 2.0 and word wrap on. *)
Lemma tk_show_builds_window_witness :
  SampleMore.config_stored !! "scale" = Some (Atom (AFloat (Decimal.Finite false 2 0)))
  /\ SampleMore.config_stored !! "gui" = Some (Dict (<["word_wrap" := ABool true]> ∅))
  /\ exists w self',
       TexTextGuiTK.show Sample.callback_ok
         (TexTextGuiBase.__init__ "1.8.1" Sample.node_formula SampleMore.config_stored)
       = (Ret w, self')
       /\ TexTextGuiTK._word_wrap_tkval w = true
       /\ TexTextGuiTK.btn_text (TexTextGuiTK._global_button w) = "As previous (2.000)"
       /\ TexTextGuiTK._scale w = "15e-1".
Proof.
  assert (Hscale : SampleMore.config_stored !! "scale"
                   = Some (Atom (AFloat (Decimal.Finite false 2 0)))) by reflexivity.
  assert (Hgui : SampleMore.config_stored !! "gui"
                 = Some (Dict (<["word_wrap" := ABool true]> ∅))) by reflexivity.
  split; [exact Hscale|]. split; [exact Hgui|].
  destruct (tk_show_builds_window "1.8.1" Sample.node_formula SampleMore.config_stored
              Sample.callback_ok)
    as (w & Hshow & Hww & _ & Hglobal & _ & Hsc).
  - intros v Hv. rewrite Hscale in Hv. injection Hv as <-. eauto.
  - intros v Hv. rewrite Hgui in Hv. injection Hv as <-. eexists. split; [reflexivity|].
    intros x Hx. rewrite lookup_insert_eq in Hx. injection Hx as <-. eauto.
  - exists w. eexists. split; [exact Hshow|]. split.
    + apply Hww. eexists. split; [exact Hgui|]. apply lookup_insert_eq.
    + rewrite Hscale in Hglobal. split; [exact Hglobal|exact Hsc].
Defined.

(** X2 for a store whose scale is the string ["2.0"]. *)
Lemma tk_show_string_scale_raises_witness :
  SampleMore.config_string_scale !! "scale" = Some (Atom (AStr "2.0"))
  /\ exists e self',
       TkObject.show Sample.callback_ok
         (TkObject.__init__ "1.8.1" Sample.node_formula SampleMore.config_string_scale)
       = (Raise e, self')
       /\ exn_cls e = ValueError
       /\ TkObject._root self' = Some "TexText 1.8.1"
       /\ TkObject._scale self' = Some "15e-1"
       /\ TkObject._reset_button self'
          = Some (TexTextGuiTK.mk_button "Reset (1.500)" TexTextGuiTK.NORMAL)
       /\ TkObject._global_button self' = None
       /\ TkObject._text_box self' = None.
Proof.
  split; [reflexivity|].
  destruct (tk_show_string_scale_raises "1.8.1" Sample.node_formula
              SampleMore.config_string_scale Sample.callback_ok "2.0" eq_refl)
    as (e & Hcls & _ & Hshow).
  exists e. eexists. split; [exact Hshow|]. split; [exact Hcls|].
  repeat split; vm_compute; reflexivity.
Defined.

(** X3 from the window of a formula over the empty store (word wrap
    off): the dialog of a new node then opens with word wrap on. *)
Lemma tk_word_wrap_survives_reopen_witness :
  exists w self' w' w2 self2,
    TexTextGuiTK.show Sample.callback_ok
      (TexTextGuiBase.__init__ "1.8.1" Sample.node_formula Sample.config_empty)
    = (Ret w, self')
    /\ TexTextGuiTK._word_wrap_tkval w = false
    /\ TexTextGuiTK.toggle_word_wrap w = (Ret tt, w')
    /\ TexTextGuiTK.show Sample.callback_ok
         (TexTextGuiBase.__init__ "1.8.1" Sample.node_new
            (TexTextGuiBase._config (TexTextGuiTK.base w')))
       = (Ret w2, self2)
    /\ TexTextGuiTK.txt_wrap (TexTextGuiTK._text_box w2) = WORD.
Proof.
  destruct (TexTextGuiTK.show Sample.callback_ok
              (TexTextGuiBase.__init__ "1.8.1" Sample.node_formula Sample.config_empty))
    as [r self'] eqn:Hshow.
  assert (Hr : r = fst (TexTextGuiTK.show Sample.callback_ok
              (TexTextGuiBase.__init__ "1.8.1" Sample.node_formula Sample.config_empty)))
    by now rewrite Hshow.
  destruct r as [w|e]; [|discriminate Hr].
  assert (Hww : TexTextGuiTK._word_wrap_tkval w = false) by (now injection Hr as ->).
  destruct (tk_word_wrap_survives_reopen "1.8.1" Sample.node_formula Sample.config_empty
              Sample.callback_ok self' w Hshow) as (w' & Htoggle & Hnext).
  destruct (Hnext "1.8.1" Sample.node_new Sample.callback_ok) as (w2 & Hshow2 & _ & Hwrap).
  exists w, self', w', w2. eexists. split; [reflexivity|]. split; [exact Hww|].
  split; [exact Htoggle|]. split; [exact Hshow2|]. now rewrite Hwrap, Hww.
Defined.

(** X5 with ["abc"] left in the scale field (as a paste could). *)
Lemma tk_reset_then_ok_passes_node_scale_witness :
  py_float (tcl_string (TexTextGuiBase.node_scale_factor
                          (TexTextGuiTK.base (Sample.tk_window "abc" Sample.callback_ok))))
  = Some (Decimal.Finite false 15 (-1))
  /\ exists s1 r s2 rest,
       TkCallbacks.reset_scale_factor (Sample.tk_window "abc" Sample.callback_ok) = (Ret tt, s1)
       /\ TexTextGuiTK.cb_ok s1 = (r, s2)
       /\ TexTextGuiTK.log s2
          = TexTextGuiTK.Convert
              (TexTextGuiTK.mk_args (String.append "$x^2$" TexTextGuiTK.newline)
                 "preamble.tex" (Atom (AFloat (Decimal.Finite false 15 (-1))))
                 "middle center" "lualatex" false)
            :: rest.
Proof.
  split; [reflexivity|].
  destruct (tk_reset_then_ok_passes_node_scale (Sample.tk_window "abc" Sample.callback_ok)
              (Decimal.Finite false 15 (-1)) eq_refl)
    as (s1 & r & s2 & rest & Hreset & Hok & Hlog & _).
  exists s1, r, s2, rest. split; [exact Hreset|]. split; [exact Hok|exact Hlog].
Defined.

(** X6 with the file ["other.tex"] chosen. *)
Lemma tk_select_preamble_file_then_ok_witness :
  py_float (TexTextGuiTK._scale (Sample.tk_window "2.5" Sample.callback_ok))
  = Some (Decimal.Finite false 25 (-1))
  /\ exists s1 r s2,
       TkCallbacks.select_preamble_file (Some "other.tex")
         (Sample.tk_window "2.5" Sample.callback_ok) = (Ret tt, s1)
       /\ TexTextGuiTK.cb_ok s1 = (r, s2)
       /\ TexTextGuiBase.preamble_file (TexTextGuiTK.base s2) = "other.tex".
Proof.
  split; [reflexivity|].
  destruct (tk_select_preamble_file_then_ok (Sample.tk_window "2.5" Sample.callback_ok)
              "other.tex" (Decimal.Finite false 25 (-1)) eq_refl)
    as (_ & s1 & r & s2 & args & rest & Hsel & _ & _ & Hok & _ & _ & Hfile).
  exists s1, r, s2. split; [exact Hsel|]. split; [exact Hok|exact Hfile].
Defined.

(** X7 for a click on the word-wrap check button. *)
Lemma tk_callbacks_leave_alone_witness :
  let s := Sample.tk_window "2.5" Sample.callback_ok in
  let run := TkCallbacks.run (fun _ => "{}") TkCallbacks.Toggle_word_wrap s in
  tk_fixed (snd run) = tk_fixed s
  /\ TexTextGuiTK.log (snd run) = TexTextGuiTK.log s.
Proof.
  intros s run.
  destruct (tk_callbacks_leave_alone (fun _ => "{}") TkCallbacks.Toggle_word_wrap s
              (fst run) (snd run) (surjective_pairing _))
    as (Hfixed & (more & Hlog & Hmore) & _).
  split; [exact Hfixed|].
  rewrite Hlog, (Hmore ltac:(discriminate)). apply app_nil_r.
Defined.

Lemma pdflatex_failed_decodes : output_decodes SampleMore.pdflatex_failed.
Proof.
  intros b [->| ->] Hb; [|discriminate Hb].
  eexists. split; [reflexivity|]. eexists. reflexivity.
Qed.

(** X8 for a failed run of pdflatex with output on stdout only. *)
Lemma error_dialog_views_witness :
  output_decodes SampleMore.pdflatex_failed
  /\ exists s',
       TexTextGuiTK.show_error_dialog "TexText Error" "Conversion failed:"
         SampleMore.pdflatex_failed (Sample.tk_window "2.5" Sample.callback_ok)
       = (Ret tt, s')
       /\ TexTextGuiTK.err_dialogs s'
          = [TexTextGuiTK.mk_dlg
               [("Conversion failed:", "pdflatex failed");
                ("Stdout:", "! Undefined control sequence.")] true].
Proof.
  split; [exact pdflatex_failed_decodes|].
  destruct (proj1 (@error_dialog_views Decimal.builtins "TexText Error" "Conversion failed:"
                     SampleMore.pdflatex_failed pdflatex_failed_decodes)
              (Sample.tk_window "2.5" Sample.callback_ok))
    as (s' & Hrun & Hdlg & _).
  exists s'. split; [exact Hrun|exact Hdlg].
Defined.

(** X13 for a failed run whose output is the byte 255. *)
Lemma undecodable_output_escapes_handler_witness :
  is_TexTextCommandFailed SampleMore.pdflatex_garbled = true
  /\ exn_stdout SampleMore.pdflatex_garbled = Some SampleMore.garbled
  /\ SampleMore.garbled <> ""
  /\ decode_utf8 SampleMore.garbled = None
  /\ exists e' s',
       TexTextGuiTK.cb_ok (Sample.tk_window "2.5" SampleMore.callback_garbled)
       = (Raise e', s')
       /\ exn_cls e' = UnicodeDecodeError
       /\ TexTextGuiTK.err_dialogs s'
          = [TexTextGuiTK.mk_dlg
               [("Error occurred while converting text from Latex to SVG:",
                 "pdflatex failed")] false].
Proof.
  assert (Hne : SampleMore.garbled <> "") by discriminate.
  split; [reflexivity|]. split; [reflexivity|]. split; [exact Hne|]. split; [reflexivity|].
  destruct (proj1 (@undecodable_output_escapes_handler Decimal.builtins
                     SampleMore.pdflatex_garbled SampleMore.garbled
                     eq_refl eq_refl Hne eq_refl)
              (Sample.tk_window "2.5" SampleMore.callback_garbled)
              (Decimal.Finite false 25 (-1)) eq_refl eq_refl)
    as (e' & s' & Hrun & Hcls & _ & Hdlg).
  exists e', s'. split; [exact Hrun|]. split; [exact Hcls|exact Hdlg].
Defined.


(** X15 for a tab after [a], tab width 4: the column is 4. *)
Lemma column_tab_stop_witness :
  (1 <= 4)%Z /\ (0 <= 0)%Z
  /\ GtkEditor.column 4 ["a"; GtkEditor.tab] 0 tt = (Ret 4%Z, tt).
Proof.
  assert (Htw : (1 <= 4)%Z) by lia.
  assert (Hcol : (0 <= 0)%Z) by lia.
  split; [exact Htw|]. split; [exact Hcol|].
  destruct (column_tab_stop (S := unit) 4 ["a"] 0 tt Htw Hcol)
    as (before & after & Hbefore & Hafter & Heq & _).
  injection Hbefore as <-. rewrite Heq in Hafter. exact Hafter.
Defined.

(** X18 for the third font size. *)
Lemma radio_items_store_list_entry_witness :
  GtkEditor.config (SampleMore.editor 1 4 SampleMore.preview_ok) !! "gui" = Some (Dict ∅)
  /\ exists s',
       GtkEditor.font_size_cb true 2 (SampleMore.editor 1 4 SampleMore.preview_ok)
       = (Ret tt, s')
       /\ GtkEditor.config s'
          = <["gui" := Dict (<["font_size" := AInt 14]> ∅)]>
              (GtkEditor.config (SampleMore.editor 1 4 SampleMore.preview_ok))
       /\ GtkEditor.v_font (GtkEditor.view s') = "monospace 14".
Proof.
  split; [reflexivity|].
  pose proof (proj1 (radio_items_store_list_entry true 2
                       (SampleMore.editor 1 4 SampleMore.preview_ok) ∅ eq_refl)) as Hfont.
  change (GtkEditor.getitem GtkEditor.FONT_SIZE 2) with (Some 14%Z) in Hfont.
  destruct Hfont as (_ & s' & Hrun & Hconfig & Hview).
  exists s'. split; [exact Hrun|]. split; [exact Hconfig|]. now rewrite Hview.
Defined.

(** X20 for Ctrl+Return: one click on the OK button. *)
Lemma cb_key_press_clicks_one_button_witness :
  let s := SampleMore.editor 1 4 SampleMore.preview_ok in
  let run := GtkEditor.cb_key_press (SampleMore.key "Return" 4) s in
  fst run = Ret true
  /\ clicks (snd run) = [Some 1%nat; Some 0%nat; Some 0%nat]
  /\ (fst run = Ret true \/ snd run = s).
Proof.
  intros s run. split; [reflexivity|]. split; [reflexivity|].
  destruct (cb_key_press_clicks_one_button (SampleMore.key "Return" 4) s
              (fst run) (snd run) (surjective_pairing _))
    as [[Hr _]|[[_ Hs]|(e & _ & _ & Hs)]]; auto.
Defined.

Lemma glade_has_objects : has_objects Sample.glade.
Proof.
  intros name Hin. unfold window_objects in Hin.
  repeat (apply elem_of_cons in Hin as [->|Hin]; [eexists; reflexivity|]).
  now apply elem_of_nil in Hin.
Qed.

Lemma config_empty_scale v :
  Sample.config_empty !! "scale" = Some v -> exists f, v = Atom (AFloat f).
Proof. intros Hv. discriminate Hv. Qed.

Lemma config_empty_gui v :
  Sample.config_empty !! "gui" = Some v -> exists d : gmap string pyatom, v = Dict d.
Proof. intros Hv. discriminate Hv. Qed.

(** X24 for a formula aligned "middle center" and for a node aligned "center". *)
Lemma gtk_create_window_needs_known_alignment_witness :
  has_objects Sample.glade
  /\ md_alignment Sample.node_formula ∈ TexTextGuiBase.ALIGNMENT_LABELS
  /\ (md_alignment Sample.node_foreign ∉ TexTextGuiBase.ALIGNMENT_LABELS)
  /\ (exists window,
        TexTextGuiGTK.create_window GTK true
          (TexTextGuiGTK.__init__ "1.8.1" Sample.node_formula Sample.config_empty)
          Sample.glade = (Ret tt, window))
  /\ (exists e window,
        TexTextGuiGTK.create_window GTK true
          (TexTextGuiGTK.__init__ "1.8.1" Sample.node_foreign Sample.config_empty)
          Sample.glade = (Raise e, window)
        /\ exn_cls e = ValueError).
Proof.
  assert (Hin : md_alignment Sample.node_formula ∈ TexTextGuiBase.ALIGNMENT_LABELS).
  { apply (proj1 (bool_decide_eq_true _)). reflexivity. }
  assert (Hnot : md_alignment Sample.node_foreign ∉ TexTextGuiBase.ALIGNMENT_LABELS).
  { apply (proj1 (bool_decide_eq_false _)). reflexivity. }
  split; [exact glade_has_objects|]. split; [exact Hin|]. split; [exact Hnot|]. split.
  - destruct (proj1 (gtk_create_window_needs_known_alignment GTK true "1.8.1"
                       Sample.node_formula Sample.config_empty Sample.glade
                       glade_has_objects config_empty_scale config_empty_gui) Hin)
      as (window & Hcw & _).
    exists window. exact Hcw.
  - exact (proj2 (gtk_create_window_needs_known_alignment GTK true "1.8.1"
                    Sample.node_foreign Sample.config_empty Sample.glade
                    glade_has_objects config_empty_scale config_empty_gui) Hnot).
Defined.

(** X25 for the dialog of a formula, shown without a preview callback. *)
Lemma gtk_handlers_after_show_witness :
  exists window g,
    TexTextGuiGTK.show GTK true Sample.glade SampleMore.gtk_callback_ok
      (TexTextGuiGTK.__init__ "1.8.1" Sample.node_formula Sample.config_empty)
    = (Ret window, g)
    /\ (exists e, TexTextGuiGTK.cb_ok g = (Raise e, g) /\ exn_cls e = AttributeError)
    /\ GtkEditor.update_preview (GtkEditor.shown g None SampleMore.plain_view)
       = (Ret tt, GtkEditor.shown g None SampleMore.plain_view)
    /\ (exists e,
          GtkEditor.cb_key_press (SampleMore.key "Return" 4)
            (GtkEditor.shown g None SampleMore.plain_view)
          = (Raise e, GtkEditor.shown g None SampleMore.plain_view)
          /\ exn_cls e = AttributeError).
Proof.
  destruct (gtk_create_window_Ret GTK true
              (TexTextGuiGTK.set_convert_callback SampleMore.gtk_callback_ok
                 (TexTextGuiGTK.__init__ "1.8.1" Sample.node_formula Sample.config_empty))
              Sample.glade (Decimal.Finite false 1 0) ∅ 1%nat 4%nat
              glade_has_objects eq_refl eq_refl eq_refl eq_refl)
    as (window1 & Hcw & Hobjects).
  destruct (gtk_show_Ret GTK true Sample.glade SampleMore.gtk_callback_ok _ _ Hcw Hobjects)
    as (window & Hshow).
  destruct (gtk_handlers_after_show GTK true Sample.glade SampleMore.gtk_callback_ok
              "1.8.1" Sample.node_formula Sample.config_empty window _ Hshow)
    as (Hok & Hrest).
  destruct (Hrest None SampleMore.plain_view) as (Hpreview & _ & _ & Hkeys & _).
  eexists window, _. split; [exact Hshow|]. split; [exact Hok|].
  split; [exact (Hpreview eq_refl)|].
  exact (Hkeys (SampleMore.key "Return" 4) eq_refl eq_refl).
Defined.
(** C3 for a callback that raises [RuntimeError("latex failed")]: the Tk
    dialog whose scale field reads [2.5] shows the message and stays;
    the GTK dialog of a formula, built from a description with all the
    objects, raises [AttributeError] in [cb_ok] and in
    [show_error_dialog]. *)
Lemma cb_ok_callback_raises_witness :
  (py_float (TexTextGuiTK._scale (Sample.tk_window "2.5" Sample.callback_fails))
   = Some (Decimal.Finite false 25 (-1))
   /\ is_Exception Sample.latex_failed = true
   /\ exists s',
        TexTextGuiTK.cb_ok (Sample.tk_window "2.5" Sample.callback_fails) = (Ret tt, s')
        /\ TexTextGuiTK.err_dialogs s'
           = [TexTextGuiTK.mk_dlg
                [("Error occurred while converting text from Latex to SVG:", "latex failed")]
                true])
  /\ (exists window g e1 e2,
        TexTextGuiGTK.show GTK true Sample.glade Sample.gtk_callback_fails
          (TexTextGuiGTK.__init__ "1.8.1" Sample.node_formula Sample.config_empty)
        = (Ret window, g)
        /\ TexTextGuiGTK._convert_callback g = Some Sample.gtk_callback_fails
        /\ TexTextGuiGTK.cb_ok g = (Raise e1, g)
        /\ exn_cls e1 = AttributeError
        /\ TexTextGuiGTK.show_error_dialog "TexText Error"
             "Error occurred while converting text from Latex to SVG:" Sample.latex_failed g
           = (Raise e2, g)
        /\ exn_cls e2 = AttributeError
        /\ TexTextGuiGTK.log g = []
        /\ TexTextGuiGTK.dialogs g = []).
Proof.
  split.
  - split; [reflexivity|]. split; [reflexivity|].
    destruct (proj1 (@cb_ok_callback_raises Decimal.builtins)
                (Sample.tk_window "2.5" Sample.callback_fails)
                (Decimal.Finite false 25 (-1)) Sample.latex_failed
                eq_refl eq_refl eq_refl)
      as (r & s' & views & button & Hrun & _ & Hdlg & Hviews & Hret).
    destruct (Hret (or_introl eq_refl)) as [-> ->]. rewrite (Hviews eq_refl) in Hdlg.
    exists s'. split; [exact Hrun|exact Hdlg].
  - destruct (gtk_create_window_Ret GTK true
                (TexTextGuiGTK.set_convert_callback Sample.gtk_callback_fails
                   (TexTextGuiGTK.__init__ "1.8.1" Sample.node_formula Sample.config_empty))
                Sample.glade (Decimal.Finite false 1 0) ∅ 1%nat 4%nat
                glade_has_objects eq_refl eq_refl eq_refl eq_refl)
      as (window1 & Hcw & Hobjects).
    destruct (gtk_show_Ret GTK true Sample.glade Sample.gtk_callback_fails _ _ Hcw Hobjects)
      as (window & Hshow).
    destruct (proj2 (@cb_ok_callback_raises Decimal.builtins) GTK true Sample.glade
                Sample.gtk_callback_fails "1.8.1" Sample.node_formula Sample.config_empty
                window _ Hshow)
      as (Hcb & Hlog & Hdlgs & (e1 & Hok & He1) & Herr).
    destruct (Herr "TexText Error" "Error occurred while converting text from Latex to SVG:"
                Sample.latex_failed) as (e2 & Hdlg & He2).
    eexists window, _, e1, e2.
    split; [exact Hshow|]. split; [exact Hcb|]. split; [exact Hok|]. split; [exact He1|].
    split; [exact Hdlg|]. split; [exact He2|]. split; [exact Hlog|exact Hdlgs].
Defined.
End MoreRuns.
